(** * femb0.py: the FEMB0 diagnostic window of the WIB software

    A shallow embedding of [sw/femb0.py]: the three data views
    ([Hist2DView], [MeanRMSView], [FFTView]) and the actions of the
    [FEMB0Diagnostics] window ([toggle_continuous], [acquire_data],
    [plot], [configure_wib], [toggle_pulser]).

    Conventions.
    - An ndarray is a (nested) list; its shape is a predicate on the list.
      Indexing out of range raises [IndexError], as Python does.
    - Integer arrays hold [Z]; no operation of the file wraps around
      (uint16 samples are widened before any arithmetic).
    - float64 quantities are idealised: frequencies are exact rationals
      ([Q]), means, deviations and Fourier sums are exact reals ([R]).
    - A method is a computation [Eff S A]: it transforms the object state
      [S], emits the effects it has on the outside (prints, commands sent,
      drawings) and either returns or raises; the state reached when an
      exception is raised is kept, as in Python. *)

From Stdlib Require Import String Ascii.
From Stdlib.Strings Require Import Byte.
From Stdlib Require Import List ZArith Lia Bool.
From Stdlib Require Import QArith Reals Lra Permutation Sorted.
Import ListNotations.

Set Warnings "-register-all".

(* ================================================================== *)
(** ** Exceptions and results *)

Inductive exn : Type :=
| IndexError
| KeyError
| TypeError
| ValueError
| ZeroDivisionError
| OSError
| JSONDecodeError.

Inductive result (A : Type) : Type :=
| Ok (a : A)
| Raise (e : exn).

Arguments Ok {A} a.
Arguments Raise {A} e.

Definition rbind {A B} (r : result A) (k : A -> result B) : result B :=
  match r with
  | Ok a => k a
  | Raise e => Raise e
  end.

Declare Scope res_scope.
Delimit Scope res_scope with res.
Notation "x <- r ;; k" := (rbind r (fun x => k))
  (at level 61, r at next level, right associativity) : res_scope.

(** [a[i]] on a Python list or along the first axis of an array *)
Definition getitem {A} (a : list A) (i : nat) : result A :=
  match nth_error a i with
  | Some x => Ok x
  | None => Raise IndexError
  end.

(** [a[i]] for a signed index: a negative [i] counts from the end *)
Definition getitemZ {A} (a : list A) (i : Z) : result A :=
  let j := if (i <? 0)%Z then (i + Z.of_nat (length a))%Z else i in
  if (j <? 0)%Z then Raise IndexError else getitem a (Z.to_nat j).

(** [[f(x) for x in l]] where [f] may raise: stops at the first exception *)
Fixpoint mapM {A B} (f : A -> result B) (l : list A) : result (list B) :=
  match l with
  | [] => Ok []
  | x :: l' =>
      (y <- f x ;; ys <- mapM f l' ;; Ok (y :: ys))%res
  end.

(* ================================================================== *)
(** ** NumPy on integer arrays *)

(** [np.arange(start, start + n)] and [np.arange(n)] *)
Fixpoint arange_from (start : Z) (n : nat) : list Z :=
  match n with
  | O => []
  | S n' => start :: arange_from (start + 1) n'
  end.

Definition np_arange (n : nat) : list Z := arange_from 0 n.

(** [np.zeros_like] / [np.full_like] of a two-dimensional array *)
Definition np_full2 {A} (rows cols : nat) (v : A) : list (list A) :=
  repeat (repeat v cols) rows.

(** Number of elements of [a] that satisfy [p] *)
Definition count (p : Z -> bool) (a : list Z) : Z :=
  Z.of_nat (length (filter p a)).

(** [np.histogram(a, bins=edges)[0]] for an increasing array of at least
    two bin edges: bin [i] is the half-open interval
    [edges[i], edges[i+1]), except the last one, which is closed on the
    right as well; values outside the edges are counted nowhere. *)
Fixpoint np_histogram (a : list Z) (edges : list Z) : list Z :=
  match edges with
  | lo :: ((hi :: rest) as tl) =>
      match rest with
      | [] => [count (fun x => (lo <=? x) && (x <=? hi)) a]
      | _ :: _ => count (fun x => (lo <=? x) && (x <? hi)) a :: np_histogram a tl
      end
  | _ => []
  end%Z.

(** [sum(l)] *)
Definition zsum (l : list Z) : Z := fold_right Z.add 0%Z l.

(** The shape of a two- and of a three-dimensional array *)
Definition has_shape2 {A} (b c : nat) (m : list (list A)) : bool :=
  (length m =? b)%nat && forallb (fun row => (length row =? c)%nat) m.

Definition has_shape3 {A} (a b c : nat) (t : list (list (list A))) : bool :=
  (length t =? a)%nat && forallb (has_shape2 b c) t.

(* ================================================================== *)
(** ** NumPy on floating-point arrays (idealised) *)

Local Open Scope R_scope.

(** A float64 result: a real number, or the [nan] NumPy returns for the
    mean of an empty slice *)
Inductive f64 : Type :=
| Fin (r : R)
| NaN.

Definition rsum (l : list R) : R := fold_right Rplus 0 l.

(** [np.mean(x)] of an integer vector: [umr_sum(x, dtype=float) / n] *)
Definition np_mean (x : list Z) : f64 :=
  match x with
  | [] => NaN
  | _ :: _ => Fin (rsum (map IZR x) / INR (length x))
  end.

(** [np.std(x)] (ddof = 0), as NumPy's [_var] computes it: the mean, the
    deviations from it, their squares, the mean of those, the root *)
Definition np_std (x : list Z) : f64 :=
  match x with
  | [] => NaN
  | _ :: _ =>
      let arrmean := rsum (map IZR x) / INR (length x) in
      let dev := map (fun v => IZR v - arrmean) x in
      let sq := map (fun u => u * u) dev in
      Fin (sqrt (rsum sq / INR (length x)))
  end.

(** The same two functions with the float64 arithmetic written out.
    [rnd r] is the float64 an operation returns when its exact result is
    [r]; [fsum l] is the float64 NumPy's [add.reduce] returns for the
    float64 values [l] (a pairwise sum, every partial sum rounded).
    [np_mean] and [np_std] above are the instance in which neither
    rounds. *)
Section Float64.

Variable rnd : R -> R.
Variable fsum : list R -> R.

(** [np.mean(x)]: [umr_sum(x, dtype=float64)], then [true_divide] by the
    count *)
Definition np_mean_fl (x : list Z) : f64 :=
  match x with
  | [] => NaN
  | _ :: _ => Fin (rnd (fsum (map IZR x) / INR (length x)))
  end.

(** [np.std(x)] (ddof = 0): [arrmean = umr_sum(x) / n], [x - arrmean],
    [multiply(x, x)], [umr_sum(x) / n], [sqrt] *)
Definition np_std_fl (x : list Z) : f64 :=
  match x with
  | [] => NaN
  | _ :: _ =>
      let arrmean := rnd (fsum (map IZR x) / INR (length x)) in
      let dev := map (fun v => rnd (IZR v - arrmean)) x in
      let sq := map (fun u => rnd (u * u)) dev in
      Fin (rnd (sqrt (rnd (fsum sq / INR (length x)))))
  end.

End Float64.

(** What the properties below use of float64: an integer of magnitude at
    most 2^53 is a float64, so that rounding returns it; and the sum of
    integers whose magnitudes add up to at most 2^53 is exact in
    whatever order it is taken, every partial sum being such an
    integer. *)
Definition exact_on_integers (rnd : R -> R) : Prop :=
  forall z : Z, (Z.abs z <= 2 ^ 53)%Z -> rnd (IZR z) = IZR z.

Definition exact_integer_sums (fsum : list R -> R) : Prop :=
  forall zs : list Z,
    (zsum (map Z.abs zs) <= 2 ^ 53)%Z -> fsum (map IZR zs) = IZR (zsum zs).

(** One output bin of the discrete Fourier transform: the sum over the
    timesteps [t0, t0+1, ...] of [x[t] * exp(-i * w * t)], as (re, im) *)
Fixpoint dft_sum (x : list Z) (t0 : nat) (w : R) : R * R :=
  match x with
  | [] => (0, 0)
  | v :: x' =>
      let '(re, im) := dft_sum x' (S t0) w in
      (IZR v * cos (w * INR t0) + re, - (IZR v * sin (w * INR t0)) + im)
  end.

(** [np.fft.fft(x)]: bin [k] has angular step [2 pi k / n]; an empty
    input is refused *)
Definition np_fft (x : list Z) : result (list (R * R)) :=
  match x with
  | [] => Raise ValueError
  | _ :: _ =>
      let n := length x in
      Ok (map (fun k => dft_sum x 0 (2 * PI * INR k / INR n)) (seq 0 n))
  end.

(** [np.abs] of a complex number, and [np.square] *)
Definition np_abs (z : R * R) : R := sqrt (fst z * fst z + snd z * snd z).
Definition np_square (r : R) : R := r * r.

Local Close Scope R_scope.

(** The integer array [results] of [np.fft.fftfreq(n, d)]:
    [0 .. (n-1)//2] followed by [-(n//2) .. -1] *)
Definition fftfreq_results (n : nat) : list Z :=
  let N := ((n - 1) / 2 + 1)%nat in
  let p1 := map Z.of_nat (seq 0 N) in
  let p2 := map (fun k => (Z.of_nat k - Z.of_nat (n / 2))%Z) (seq 0 (n / 2)) in
  p1 ++ p2.

(** [np.fft.fftfreq(n, d)]: [results * val] with [val = 1.0 / (n * d)];
    the division raises for [n = 0] *)
Definition np_fftfreq (n : nat) (d : Q) : result (list Q) :=
  if (n =? 0)%nat then Raise ZeroDivisionError
  else
    let val := (1 / (inject_Z (Z.of_nat n) * d))%Q in
    Ok (map (fun k => (inject_Z k * val)%Q) (fftfreq_results n)).

(** [np.argsort(a)]: the indices of [a] in ascending order of their
    values, here by insertion.  The order NumPy gives to equal values is
    not needed: the frequencies sorted below are pairwise distinct. *)
Fixpoint insert_by (key : nat -> Q) (i : nat) (l : list nat) : list nat :=
  match l with
  | [] => [i]
  | j :: l' =>
      if Qle_bool (key i) (key j) then i :: l
      else j :: insert_by key i l'
  end.

Definition np_argsort (a : list Q) : list nat :=
  fold_right (insert_by (fun i => nth i a 0%Q)) [] (seq 0 (length a)).

(** [a[idx]] for an index array [idx] *)
Definition take {A} (a : list A) (idx : list nat) : result (list A) :=
  mapM (getitem a) idx.

(** The sample interval, [320e-9] seconds *)
Definition sample_interval : Q := 320 # 1000000000.

(* ================================================================== *)
(** ** Python values read from the configuration file *)

(** What [json.load] returns: an object is kept as its list of members
    (a key bound twice keeps its first binding here). *)
Inductive json : Type :=
| JNull
| JBool (b : bool)
| JInt (z : Z)
| JFloat (q : Q)
| JStr (s : string)
| JArr (items : list json)
| JObj (members : list (string * json)).

Fixpoint lookup (k : string) (m : list (string * json)) : option json :=
  match m with
  | [] => None
  | (k', v) :: m' => if String.eqb k k' then Some v else lookup k m'
  end.

(** [obj[key]] for a string key *)
Definition subscript_key (obj : json) (key : string) : result json :=
  match obj with
  | JObj m =>
      match lookup key m with
      | Some v => Ok v
      | None => Raise KeyError
      end
  | _ => Raise TypeError
  end.

(** [obj[i]] for a non-negative integer [i] *)
Definition subscript_idx (obj : json) (i : nat) : result json :=
  match obj with
  | JArr l => getitem l i
  | JStr s =>
      match String.get i s with
      | Some c => Ok (JStr (String c EmptyString))
      | None => Raise IndexError
      end
  | JObj _ => Raise KeyError        (* no member has an integer key *)
  | _ => Raise TypeError
  end.

(* ================================================================== *)
(** ** The wire schema (wib_pb2), as far as this file uses it *)

Record FEMBConfig : Type := mkFEMBConfig {
  enabled : json;
  test_cap : json;
  gain : json;
  peak_time : json;
  baseline : json;
  pulse_dac : json;
  leak : json;
  leak_10x : json;
  ac_couple : json;
  buffer : json;
  strobe_skip : json;
  strobe_delay : json;
  strobe_length : json
}.

Record ConfigureWIB : Type := mkConfigureWIB {
  cold : json;
  fembs : list FEMBConfig
}.

Record ReadDaqSpy : Type := mkReadDaqSpy {
  buf0 : bool;
  buf1 : bool;
  deframe : bool;
  channels : bool
}.

(** The request packed into a [wib.Command] envelope *)
Inductive command : Type :=
| CmdReadDaqSpy (req : ReadDaqSpy)
| CmdConfigureWIB (req : ConfigureWIB)
| CmdPulser (start : bool).

(** The reply [ReadDaqSpy.DeframedDaqSpy]; the sample count is an
    unsigned field *)
Record DeframedDaqSpy : Type := mkDeframedDaqSpy {
  success : bool;
  num_samples : nat;
  deframed_samples : list byte;
  deframed_timestamps : list byte
}.

(* ================================================================== *)
(** ** View states *)

Record Hist2DView : Type := mkHist2DView {
  hist_chan : list Z;           (* np.arange(128) *)
  hist_samples : list Z;        (* np.arange(16385), the bin edges *)
  counts : list (list Z)
}.

Record MeanRMSView : Type := mkMeanRMSView {
  mr_chan : list Z;
  rms : list f64;
  mean : list f64
}.

Record FFTView : Type := mkFFTView {
  fft_chan : list Z;
  freq : list Q;
  fft : list (list R)
}.

(** The views the window holds: the subclasses of [DataView] *)
Inductive DataView : Type :=
| VHist2D (h : Hist2DView)
| VMeanRMS (m : MeanRMSView)
| VFFT (f : FFTView).

(* ================================================================== *)
(** ** Effects *)

Inductive printed : Type :=
| PStr (s : string)
| PFmt (fmt : string) (n : nat)        (* [fmt % n] *)
| PBool (b : bool)
| PExn (e : exn)
| PShape (dims : list nat).

Inductive event : Type :=
| EvPrint (args : list printed)        (* print(...) *)
| EvSend (c : command)                 (* socket.send of the packed command *)
| EvDraw (v : DataView).               (* the data of a view given to its canvas *)

Definition Eff (S A : Type) : Type := S -> S * list event * result A.

Definition ret {S A} (a : A) : Eff S A := fun s => (s, [], Ok a).

Definition bind {S A B} (m : Eff S A) (k : A -> Eff S B) : Eff S B :=
  fun s =>
    match m s with
    | (s1, ev1, Ok a) =>
        let '(s2, ev2, r) := k a s1 in (s2, ev1 ++ ev2, r)
    | (s1, ev1, Raise e) => (s1, ev1, Raise e)
    end.

Definition get {S} : Eff S S := fun s => (s, [], Ok s).
Definition modify {S} (f : S -> S) : Eff S unit := fun s => (f s, [], Ok tt).
Definition emit {S} (e : event) : Eff S unit := fun s => (s, [e], Ok tt).
Definition print {S} (args : list printed) : Eff S unit := emit (EvPrint args).
Definition lift {S A} (r : result A) : Eff S A := fun s => (s, [], r).

Declare Scope eff_scope.
Delimit Scope eff_scope with eff.
Notation "x <- m ;; k" := (bind m (fun x => k))
  (at level 61, m at next level, right associativity) : eff_scope.
Notation "m ;; k" := (bind m (fun _ => k))
  (at level 61, right associativity) : eff_scope.

(** [for x in l: body(x)] *)
Fixpoint for_each {S X} (l : list X) (body : X -> Eff S unit) : Eff S unit :=
  match l with
  | [] => ret tt
  | x :: l' => (body x ;; for_each l' body)%eff
  end.

Definition state_of {S A} (x : S * list event * result A) : S := fst (fst x).
Definition events_of {S A} (x : S * list event * result A) : list event :=
  snd (fst x).
Definition outcome_of {S A} (x : S * list event * result A) : result A := snd x.

(* ================================================================== *)
(** ** Hist2DView *)

(** [__init__]: [counts] is [zeros_like] of a 16385 x 128 mesh grid *)
Definition Hist2DView_init : Hist2DView :=
  {| hist_chan := np_arange 128;
     hist_samples := np_arange (Z.to_nat 16385);
     counts := np_full2 (Z.to_nat 16385) 128 0%Z |}.

Definition hist_set_counts (c : list (list Z)) (self : Hist2DView) : Hist2DView :=
  {| hist_chan := hist_chan self; hist_samples := hist_samples self; counts := c |}.

(** The body of the loop of [load_data]: the histogram of channel [i]
    is appended to [self.counts] *)
Definition Hist2DView_load_channel (samples0 : list (list Z)) (i : Z)
  : Eff Hist2DView unit :=
  (row <- lift (getitemZ samples0 i) ;;
   modify (fun self =>
     hist_set_counts (counts self ++ [np_histogram row (hist_samples self)]) self))%eff.

(** [load_data]: one histogram per channel of sub-unit 0 *)
Definition Hist2DView_load_data (timestamps : list (list Z))
           (samples : list (list (list Z))) : Eff Hist2DView unit :=
  (samples0 <- lift (getitem samples 0) ;;
   modify (hist_set_counts []) ;;
   self <- get ;;
   for_each (hist_chan self) (Hist2DView_load_channel samples0))%eff.

(** [plot_data]: the count matrix given to [imshow] for the view's
    canvas.  Matplotlib is outside the model: the event records the data
    it is given; the handle [self.cb] of the colour bar, and what
    [cb.remove], [imshow] or [canvas.draw] may raise, are not
    modelled. *)
Definition Hist2DView_plot_data : Eff Hist2DView unit :=
  (self <- get ;; emit (EvDraw (VHist2D self)))%eff.

(* ================================================================== *)
(** ** MeanRMSView *)

Definition MeanRMSView_init : MeanRMSView :=
  {| mr_chan := np_arange 128;
     rms := repeat (Fin 0%R) 128;
     mean := repeat (Fin 0%R) 128 |}.

Definition MeanRMSView_load_data (timestamps : list (list Z))
           (samples : list (list (list Z))) : Eff MeanRMSView unit :=
  (samples0 <- lift (getitem samples 0) ;;
   modify (fun self =>
     {| mr_chan := mr_chan self; rms := map np_std samples0; mean := mean self |}) ;;
   modify (fun self =>
     {| mr_chan := mr_chan self; rms := rms self; mean := map np_mean samples0 |}))%eff.

(** [load_data] with the float64 arithmetic of [np.std] and [np.mean]
    written out *)
Definition MeanRMSView_load_data_fl (rnd : R -> R) (fsum : list R -> R)
           (timestamps : list (list Z)) (samples : list (list (list Z)))
  : Eff MeanRMSView unit :=
  (samples0 <- lift (getitem samples 0) ;;
   modify (fun self =>
     {| mr_chan := mr_chan self; rms := map (np_std_fl rnd fsum) samples0;
        mean := mean self |}) ;;
   modify (fun self =>
     {| mr_chan := mr_chan self; rms := rms self;
        mean := map (np_mean_fl rnd fsum) samples0 |}))%eff.

(** [plot_data]: [plot(chan, mean)] then [plot(chan, rms)]; matplotlib
    refuses x and y of different lengths *)
Definition MeanRMSView_plot_data : Eff MeanRMSView unit :=
  (self <- get ;;
   if (length (mean self) =? length (mr_chan self))%nat
      && (length (rms self) =? length (mr_chan self))%nat
   then emit (EvDraw (VMeanRMS self))
   else lift (Raise ValueError))%eff.

(* ================================================================== *)
(** ** FFTView *)

(** [__init__]: the upper half of the sorted frequencies of a
    2184-sample buffer (none of the calls raises for this size) *)
Definition FFTView_init_freq : list Q :=
  match np_fftfreq 2184 sample_interval with
  | Ok fr =>
      let freq_idx := skipn (length fr / 2) (np_argsort fr) in
      match take fr freq_idx with Ok f => f | Raise _ => [] end
  | Raise _ => []
  end.

(** [__init__]: [fft] is [full_like(x, 1)] for the mesh grid [x] of the
    channels and those frequencies, with one row per frequency *)
Definition FFTView_init : FFTView :=
  {| fft_chan := np_arange 128;
     freq := FFTView_init_freq;
     fft := np_full2 (length FFTView_init_freq) 128 1%R |}.

Definition shape_of (samples : list (list (list Z))) : list nat :=
  [length samples; length (hd [] samples); length (hd [] (hd [] samples))].

Definition fft_set_fft (x : list (list R)) (self : FFTView) : FFTView :=
  {| fft_chan := fft_chan self; freq := freq self; fft := x |}.

(** The body of the loop of [load_data]: the power of channel [i] at the
    kept frequencies is appended to [self.fft] *)
Definition FFTView_load_channel (samples0 : list (list Z)) (freq_idx : list nat)
           (i : Z) : Eff FFTView unit :=
  (row <- lift (getitemZ samples0 i) ;;
   spectrum <- lift (np_fft row) ;;
   picked <- lift (take spectrum freq_idx) ;;
   modify (fun self =>
     fft_set_fft (fft self ++ [map (fun z => np_square (np_abs z)) picked]) self))%eff.

Definition FFTView_load_data (timestamps : list (list Z))
           (samples : list (list (list Z))) : Eff FFTView unit :=
  (print [PShape (shape_of samples)] ;;
   samples0 <- lift (getitem samples 0) ;;
   first <- lift (getitem samples0 0) ;;
   fr <- lift (np_fftfreq (length first) sample_interval) ;;
   let freq_idx := skipn (length fr / 2) (np_argsort fr) in
   kept <- lift (take fr freq_idx) ;;
   modify (fun self => {| fft_chan := fft_chan self; freq := kept; fft := fft self |}) ;;
   modify (fft_set_fft []) ;;
   self <- get ;;
   for_each (fft_chan self) (FFTView_load_channel samples0 freq_idx))%eff.

(** [plot_data]: the spectrum given to [imshow], as for the histogram
    view *)
Definition FFTView_plot_data : Eff FFTView unit :=
  (self <- get ;; emit (EvDraw (VFFT self)))%eff.

(* ================================================================== *)
(** ** Dynamic dispatch over the views *)

(** Run a method of a subclass on the view it belongs to *)
Definition on_view {V} (inj : V -> DataView) (m : Eff V unit) (v : V)
  : DataView * list event * result unit :=
  let '(v', ev, r) := m v in (inj v', ev, r).

Definition load_data (timestamps : list (list Z)) (samples : list (list (list Z)))
  : Eff DataView unit :=
  fun view =>
    match view with
    | VHist2D h => on_view VHist2D (Hist2DView_load_data timestamps samples) h
    | VMeanRMS m => on_view VMeanRMS (MeanRMSView_load_data timestamps samples) m
    | VFFT f => on_view VFFT (FFTView_load_data timestamps samples) f
    end.

Definition plot_data : Eff DataView unit :=
  fun view =>
    match view with
    | VHist2D h => on_view VHist2D Hist2DView_plot_data h
    | VMeanRMS m => on_view VMeanRMS MeanRMSView_plot_data m
    | VFFT f => on_view VFFT FFTView_plot_data f
    end.

(** [for view in views: method(view)]: the views before the one that
    raises keep what the method did to them *)
Fixpoint for_views (method : Eff DataView unit) (views : list DataView)
  : list DataView * list event * result unit :=
  match views with
  | [] => ([], [], Ok tt)
  | v :: vs =>
      match method v with
      | (v', ev, Ok _) =>
          let '(vs', ev', r) := for_views method vs in (v' :: vs', ev ++ ev', r)
      | (v', ev, Raise e) => (v' :: vs, ev, Raise e)
      end
  end.

(* ================================================================== *)
(** ** Decoding the reply's byte payloads *)

(** [n] consecutive pieces of [w] elements each *)
Fixpoint chunk {A} (w n : nat) (l : list A) : list (list A) :=
  match n with
  | O => []
  | S n' => firstn w l :: chunk w n' (skipn w l)
  end.

(** The unsigned value of a group of bytes in native byte order, which
    is little-endian on the machines the tool runs on *)
Fixpoint le_value (bs : list byte) : Z :=
  match bs with
  | [] => 0
  | b :: bs' => Z.of_N (Byte.to_N b) + 256 * le_value bs'
  end%Z.

(** [np.frombuffer(buf, dtype)] for an unsigned type of [w] bytes: the
    buffer size must be a multiple of the element size *)
Definition np_frombuffer (w : nat) (buf : list byte) : result (list Z) :=
  if (length buf mod w =? 0)%nat
  then Ok (map le_value (chunk w (length buf / w) buf))
  else Raise ValueError.

(** [a.reshape((r, c))] and [a.reshape((p, r, c))] of a flat array *)
Definition reshape2 (r c : nat) (a : list Z) : result (list (list Z)) :=
  if (length a =? r * c)%nat then Ok (chunk c r a) else Raise ValueError.

Definition reshape3 (p r c : nat) (a : list Z)
  : result (list (list (list Z))) :=
  if (length a =? p * r * c)%nat
  then Ok (map (chunk c r) (chunk (r * c) p a))
  else Raise ValueError.

(* ================================================================== *)
(** ** The window *)

Record QTimer : Type := mkQTimer {
  timer_active : bool;
  timer_interval : Z;          (* milliseconds *)
  timer_single_shot : bool
}.

Definition QTimer_start (msec : Z) (t : QTimer) : QTimer :=
  {| timer_active := true; timer_interval := msec;
     timer_single_shot := timer_single_shot t |}.

Definition QTimer_stop (t : QTimer) : QTimer :=
  {| timer_active := false; timer_interval := timer_interval t;
     timer_single_shot := timer_single_shot t |}.

Record FEMB0Diagnostics : Type := mkFEMB0Diagnostics {
  config : string;
  views : list DataView;
  pulser_button : string;            (* the text of the button *)
  continuious_button : string;
  timer : QTimer;
  samples : option (list (list (list Z)));        (* unset until acquired *)
  timestamps : option (list (list Z))
}.

Definition set_views (v : list DataView) (w : FEMB0Diagnostics) :=
  {| config := config w; views := v; pulser_button := pulser_button w;
     continuious_button := continuious_button w; timer := timer w;
     samples := samples w; timestamps := timestamps w |}.

Definition set_pulser_text (s : string) (w : FEMB0Diagnostics) :=
  {| config := config w; views := views w; pulser_button := s;
     continuious_button := continuious_button w; timer := timer w;
     samples := samples w; timestamps := timestamps w |}.

Definition set_continuious_text (s : string) (w : FEMB0Diagnostics) :=
  {| config := config w; views := views w; pulser_button := pulser_button w;
     continuious_button := s; timer := timer w;
     samples := samples w; timestamps := timestamps w |}.

Definition set_timer (t : QTimer) (w : FEMB0Diagnostics) :=
  {| config := config w; views := views w; pulser_button := pulser_button w;
     continuious_button := continuious_button w; timer := t;
     samples := samples w; timestamps := timestamps w |}.

Definition set_samples (a : list (list (list Z))) (w : FEMB0Diagnostics) :=
  {| config := config w; views := views w; pulser_button := pulser_button w;
     continuious_button := continuious_button w; timer := timer w;
     samples := Some a; timestamps := timestamps w |}.

Definition set_timestamps (a : list (list Z)) (w : FEMB0Diagnostics) :=
  {| config := config w; views := views w; pulser_button := pulser_button w;
     continuious_button := continuious_button w; timer := timer w;
     samples := samples w; timestamps := Some a |}.

(** A method run on every view of the window, in order *)
Definition each_view (method : Eff DataView unit) : Eff FEMB0Diagnostics unit :=
  fun w =>
    let '(vs, ev, r) := for_views method (views w) in (set_views vs w, ev, r).

(** [plot] *)
Definition plot : Eff FEMB0Diagnostics unit := each_view plot_data.

(** [__init__]: the three views, the four buttons, the timer (created
    stopped, repeating), then a first [plot] *)
Definition FEMB0Diagnostics_init (config_path : string)
  : FEMB0Diagnostics * list event * result unit :=
  plot {| config := config_path;
          views := [VHist2D Hist2DView_init; VMeanRMS MeanRMSView_init;
                    VFFT FFTView_init];
          pulser_button := "Enable Pulser";
          continuious_button := "Continuous";
          timer := {| timer_active := false; timer_interval := 0;
                      timer_single_shot := false |};
          samples := None;
          timestamps := None |}.

(** [send_command]: the packed request goes out; the parsed reply is what
    the caller is given by the server *)
Definition send_command (req : command) : Eff FEMB0Diagnostics unit :=
  emit (EvSend req).

(** [toggle_continuous] *)
Definition toggle_continuous : Eff FEMB0Diagnostics unit :=
  (self <- get ;;
   if String.eqb (continuious_button self) "Continuous"
   then
     modify (set_continuious_text "Stop") ;;
     print [PStr "Starting continuous acquisition"] ;;
     modify (fun w => set_timer (QTimer_start 500 (timer w)) w)
   else
     modify (set_continuious_text "Continuous") ;;
     modify (fun w => set_timer (QTimer_stop (timer w)) w))%eff.

(** [acquire_data], given the server's reply [rep] *)
Definition acquire_data (rep : DeframedDaqSpy) : Eff FEMB0Diagnostics unit :=
  (print [PStr "Reading out WIB spy buffer"] ;;
   send_command (CmdReadDaqSpy {| buf0 := true; buf1 := false;
                                  deframe := true; channels := true |}) ;;
   print [PStr "Successful:"; PBool (success rep)] ;;
   let num := num_samples rep in
   print [PFmt "Acquired %i samples" num] ;;
   smp <- lift (flat <- np_frombuffer 2 (deframed_samples rep) ;;
                reshape3 4 128 num flat)%res ;;
   modify (set_samples smp) ;;
   ts <- lift (flat <- np_frombuffer 8 (deframed_timestamps rep) ;;
               reshape2 2 num flat)%res ;;
   modify (set_timestamps ts) ;;
   each_view (load_data ts smp) ;;
   plot)%eff.

(** [toggle_pulser] *)
Definition toggle_pulser : Eff FEMB0Diagnostics unit :=
  (self <- get ;;
   if String.eqb (pulser_button self) "Enable Pulser"
   then
     modify (set_pulser_text "Disable Pulser") ;;
     print [PStr "Starting pulser"] ;;
     send_command (CmdPulser true)
   else
     modify (set_pulser_text "Enable Pulser") ;;
     print [PStr "Stopping pulser"] ;;
     send_command (CmdPulser false))%eff.

Section Configure.

(** The type check the generated message class applies when a field is
    assigned (wib_pb2 is not part of this file) *)
Variable accepts : string -> json -> bool.

(** [json.load] on the bytes of a file *)
Variable json_load : list byte -> result json.

Definition assign (field : string) (v : json) : result json :=
  if accepts field v then Ok v else Raise TypeError.

(** [femb_conf.<field> = fconfig['<field>']] *)
Definition copy_field (fconfig : json) (field : string) : result json :=
  (v <- subscript_key fconfig field ;; assign field v)%res.

(** One turn of the loop of [configure_wib] *)
Definition femb_conf_of (cfg : json) (i : nat) : result FEMBConfig :=
  (ef <- subscript_key cfg "enabled_fembs" ;;
   e <- subscript_idx ef i ;;
   f_enabled <- assign "enabled" e ;;
   fc <- subscript_key cfg "femb_configs" ;;
   fconfig <- subscript_idx fc i ;;
   f_test_cap <- copy_field fconfig "test_cap" ;;
   f_gain <- copy_field fconfig "gain" ;;
   f_peak_time <- copy_field fconfig "peak_time" ;;
   f_baseline <- copy_field fconfig "baseline" ;;
   f_pulse_dac <- copy_field fconfig "pulse_dac" ;;
   f_leak <- copy_field fconfig "leak" ;;
   f_leak_10x <- copy_field fconfig "leak_10x" ;;
   f_ac_couple <- copy_field fconfig "ac_couple" ;;
   f_buffer <- copy_field fconfig "buffer" ;;
   f_strobe_skip <- copy_field fconfig "strobe_skip" ;;
   f_strobe_delay <- copy_field fconfig "strobe_delay" ;;
   f_strobe_length <- copy_field fconfig "strobe_length" ;;
   Ok {| enabled := f_enabled; test_cap := f_test_cap; gain := f_gain;
         peak_time := f_peak_time; baseline := f_baseline;
         pulse_dac := f_pulse_dac; leak := f_leak; leak_10x := f_leak_10x;
         ac_couple := f_ac_couple; buffer := f_buffer;
         strobe_skip := f_strobe_skip; strobe_delay := f_strobe_delay;
         strobe_length := f_strobe_length |})%res.

(** The request [configure_wib] builds from the loaded configuration *)
Definition build_request (cfg : json) : result ConfigureWIB :=
  (c <- subscript_key cfg "cold" ;;
   f_cold <- assign "cold" c ;;
   fs <- mapM (femb_conf_of cfg) (seq 0 4) ;;
   Ok {| cold := f_cold; fembs := fs |})%res.

(** [open(self.config, 'rb')] followed by [json.load], in a file system
    that maps a path to the bytes stored there *)
Definition load_config (fs : string -> option (list byte)) (path : string)
  : result json :=
  match fs path with
  | None => Raise OSError
  | Some bytes => json_load bytes
  end.

(** [configure_wib], given the file system and the success flag of the
    server's [Status] reply *)
Definition configure_wib (fs : string -> option (list byte))
           (rep_success : bool) : Eff FEMB0Diagnostics unit :=
  (print [PStr "Loading config"] ;;
   self <- get ;;
   match load_config fs (config self) with
   | Raise e => print [PStr "Failed to load config:"; PExn e]
   | Ok cfg =>
       print [PStr "Configuring FEMBs"] ;;
       req <- lift (build_request cfg) ;;
       print [PStr "Sending ConfigureWIB command"] ;;
       send_command (CmdConfigureWIB req) ;;
       print [PStr "Successful:"; PBool rep_success]
   end)%eff.

(** What the operator, the timer and the servers can make happen *)
Inductive action : Type :=
| ClickConfigure (fs : string -> option (list byte)) (rep_success : bool)
| ClickPulser
| ClickAcquire (rep : DeframedDaqSpy)
| ClickContinuous
| TimerTimeout (rep : DeframedDaqSpy).

(** The slot an action runs; a stopped timer does not fire *)
Definition slot (a : action) : Eff FEMB0Diagnostics unit :=
  match a with
  | ClickConfigure fs ok => configure_wib fs ok
  | ClickPulser => toggle_pulser
  | ClickAcquire rep => acquire_data rep
  | ClickContinuous => toggle_continuous
  | TimerTimeout rep =>
      fun w => if timer_active (timer w) then acquire_data rep w else ret tt w
  end.

(** The windows that can be observed: the one [__init__] builds, and any
    window left by a slot, whether it returned or raised *)
Inductive reachable : FEMB0Diagnostics -> Prop :=
| reach_init (path : string) : reachable (state_of (FEMB0Diagnostics_init path))
| reach_step (w : FEMB0Diagnostics) (a : action) :
    reachable w -> reachable (state_of (slot a w)).

End Configure.

(** The two states of the continuous mode *)
Inductive mode : Type := Idle | ContinuousPolling.

Definition mode_of (w : FEMB0Diagnostics) : mode :=
  if timer_active (timer w) then ContinuousPolling else Idle.

(* ================================================================== *)
(** ** What the specification says, in its own words *)

(** "16384 equal-width bins spanning the full 16-bit unsigned range":
    bins of width 65536 / 16384 = 4 *)
Definition spec_histogram (a : list Z) : list Z :=
  map (fun b => count (fun x => (4 * b <=? x) && (x <? 4 * (b + 1)))%Z a)
      (np_arange (Z.to_nat 16384)).

(** "the arithmetic mean" and "the population standard deviation" *)
Definition arithmetic_mean (x : list Z) : R :=
  (IZR (zsum x) / IZR (Z.of_nat (length x)))%R.

Definition population_std (x : list Z) : R :=
  sqrt (rsum (map (fun v => Rsqr (IZR v - arithmetic_mean x)) x)
        / IZR (Z.of_nat (length x)))%R.

(** What [__init__] fixes in a view and [load_data] never changes *)
Definition Hist2DView_ok (h : Hist2DView) : Prop :=
  hist_chan h = np_arange 128 /\ hist_samples h = np_arange (Z.to_nat 16385).

Definition FFTView_ok (f : FFTView) : Prop := fft_chan f = np_arange 128.

(** Sub-unit 0 of a sample array *)
Definition femb0 (smp : list (list (list Z))) : list (list Z) := nth 0 smp [].

(** All entries of a two-dimensional array lie in [lo, hi) *)
Definition in_range (lo hi : Z) (m : list (list Z)) : bool :=
  forallb (forallb (fun x => (lo <=? x) && (x <? hi))%Z) m.

(** The values bin [b] of the histogram view counts: the unit interval
    [b, b+1), closed on the right as well for the last bin *)
Definition unit_bin (b : nat) (x : Z) : bool :=
  if (Z.of_nat b =? 16383)%Z
  then ((16383 <=? x) && (x <=? 16384))%Z
  else ((Z.of_nat b <=? x) && (x <? Z.of_nat b + 1))%Z.

(** ** Sample arrays used as examples *)

(** Every channel of every sub-unit holds the same timesteps *)
Definition uniform_samples (row : list Z) : list (list (list Z)) :=
  repeat (repeat row 128) 4.

Definition samples_low : list (list (list Z)) := uniform_samples [0; 16383; 5]%Z.
Definition samples_high : list (list (list Z)) := uniform_samples [20000]%Z.

Definition samples_flat : list (list (list Z)) := uniform_samples [7; 7; 7]%Z.

(** The frequencies the spectrum view keeps for [n] timesteps:
    [k / (n * 320e-9)] for [k = 0 .. (n-1)//2] *)
Definition kept_freqs (n : nat) : list Q :=
  map (fun k => inject_Z (Z.of_nat k)
                * (1 / (inject_Z (Z.of_nat n) * sample_interval)))%Q
      (seq 0 ((n - 1) / 2 + 1)).

(** The power of a channel at the first [m] bins of its transform *)
Definition channel_power (row : list Z) (m : nat) : list R :=
  map (fun k => np_square (np_abs
                  (dft_sum row 0 (2 * PI * INR k / INR (length row))%R)))
      (seq 0 m).

Definition samples_ramp : list (list (list Z)) := uniform_samples [1; 2; 3; 4]%Z.
Definition samples_odd : list (list (list Z)) := uniform_samples [1; 2; 3]%Z.

(** Unit-spaced bin edges [s, s+1, ..., s+n+1] *)
Definition unit_edges (s : Z) (n : nat) : list Z := arange_from s (S (S n)).

(** Orders on indices by the value they select *)
Definition key_le (key : nat -> Q) (i j : nat) : Prop := (key i <= key j)%Q.
Definition key_lt (key : nat -> Q) (i j : nat) : Prop := (key i < key j)%Q.

(** An effectful computation keeps a property of the state *)
Definition preserves {S A} (P : S -> Prop) (m : Eff S A) : Prop :=
  forall s, P s -> P (state_of (m s)).

Definition MeanRMSView_ok (m : MeanRMSView) : Prop := mr_chan m = np_arange 128.

(** The events every acquisition starts with *)
Definition acquire_prologue (rep : DeframedDaqSpy) : list event :=
  [EvPrint [PStr "Reading out WIB spy buffer"];
   EvSend (CmdReadDaqSpy {| buf0 := true; buf1 := false;
                            deframe := true; channels := true |});
   EvPrint [PStr "Successful:"; PBool (success rep)];
   EvPrint [PFmt "Acquired %i samples" (num_samples rep)]].

(** The views after a load of [smp] *)
Definition loaded_views (smp : list (list (list Z))) (N : nat)
           (h : Hist2DView) (m : MeanRMSView) (f : FFTView) : list DataView :=
  [VHist2D (hist_set_counts
              (map (fun row => np_histogram row (hist_samples h)) (femb0 smp)) h);
   VMeanRMS {| mr_chan := mr_chan m; rms := map np_std (femb0 smp);
               mean := map np_mean (femb0 smp) |};
   VFFT {| fft_chan := fft_chan f; freq := kept_freqs N;
           fft := map (fun row => channel_power row ((N - 1) / 2 + 1))
                      (femb0 smp) |}].

(** ** Replies and windows used as examples *)

Definition with_success (b : bool) (rep : DeframedDaqSpy) : DeframedDaqSpy :=
  {| success := b; num_samples := num_samples rep;
     deframed_samples := deframed_samples rep;
     deframed_timestamps := deframed_timestamps rep |}.

(** A reply that reports failure but carries four well-formed timesteps *)
Definition failed_reply : DeframedDaqSpy :=
  {| success := false; num_samples := 4;
     deframed_samples := repeat x01 4096;
     deframed_timestamps := repeat x00 64 |}.

(** A reply whose sample payload is one byte short *)
Definition short_reply : DeframedDaqSpy :=
  {| success := true; num_samples := 1;
     deframed_samples := repeat x01 1023;
     deframed_timestamps := repeat x00 16 |}.

(** The window as [__init__] leaves it *)
Definition window0 : FEMB0Diagnostics :=
  state_of (FEMB0Diagnostics_init "femb0.json").

(** A view [plot_data] can draw: the Mean/RMS curves need as many points
    as there are channels *)
Definition drawable (v : DataView) : bool :=
  match v with
  | VMeanRMS m =>
      (length (mean m) =? length (mr_chan m))%nat
      && (length (rms m) =? length (mr_chan m))%nat
  | _ => true
  end.

(** The views [__init__] creates *)
Definition initial_views : list DataView :=
  [VHist2D Hist2DView_init; VMeanRMS MeanRMSView_init; VFFT FFTView_init].

(** What the payloads of [failed_reply] decode to *)
Definition failed_samples : list (list (list Z)) :=
  uniform_samples [257; 257; 257; 257]%Z.
Definition failed_timestamps : list (list Z) := [[0; 0; 0; 0]; [0; 0; 0; 0]]%Z.

(** The number of rows of the count matrix, for a histogram view *)
Definition hist_rows (v : DataView) : nat :=
  match v with
  | VHist2D h => length (counts h)
  | _ => 0
  end.

(** A property of the window that no assignment to the views, the stored
    arrays or the pulser button can change *)
Definition stable (P : FEMB0Diagnostics -> Prop) : Prop :=
  forall w, P w ->
    (forall vs, P (set_views vs w)) /\
    (forall a, P (set_samples a w)) /\
    (forall a, P (set_timestamps a w)) /\
    (forall s, P (set_pulser_text s w)).

(** The label of the Continuous button tells whether the timer runs; a
    running timer has a period of 500 ms and repeats *)
Definition continuous_inv (w : FEMB0Diagnostics) : Prop :=
  timer_single_shot (timer w) = false /\
  ((continuious_button w = "Continuous"%string /\ timer_active (timer w) = false) \/
   (continuious_button w = "Stop"%string /\ timer_active (timer w) = true /\
    timer_interval (timer w) = 500%Z)).

(** ** Well-formed configurations *)

Definition tuning_fields : list string :=
  ["test_cap"; "gain"; "peak_time"; "baseline"; "pulse_dac"; "leak";
   "leak_10x"; "ac_couple"; "buffer"; "strobe_skip"; "strobe_delay";
   "strobe_length"]%string.

Definition is_bool (j : json) : bool :=
  match j with JBool _ => true | _ => false end.

(** [fconfig[name]], or [None] where Python has no such member *)
Definition member (fconfig : json) (name : string) : json :=
  match subscript_key fconfig name with
  | Ok v => v
  | Raise _ => JNull
  end.

(** The record has the field and the schema takes its value *)
Definition has_field (accepts : string -> json -> bool) (fconfig : json)
           (name : string) : bool :=
  match subscript_key fconfig name with
  | Ok v => accepts name v
  | Raise _ => false
  end.

(** A boolean [cold], four boolean [enabled_fembs], four [femb_configs]
    records with every tuning field, all of them values the schema takes *)
Definition well_formed (accepts : string -> json -> bool) (cfg : json) : bool :=
  match subscript_key cfg "cold", subscript_key cfg "enabled_fembs",
        subscript_key cfg "femb_configs" with
  | Ok c, Ok (JArr en), Ok (JArr fcs) =>
      is_bool c && accepts "cold"%string c
      && (length en =? 4)%nat
      && forallb (fun e => is_bool e && accepts "enabled"%string e) en
      && (length fcs =? 4)%nat
      && forallb (fun fc => forallb (has_field accepts fc) tuning_fields) fcs
  | _, _, _ => false
  end.

(** The record [configure_wib] is to build for one sub-unit *)
Definition expected_femb (e fc : json) : FEMBConfig :=
  {| enabled := e;
     test_cap := member fc "test_cap"; gain := member fc "gain";
     peak_time := member fc "peak_time"; baseline := member fc "baseline";
     pulse_dac := member fc "pulse_dac"; leak := member fc "leak";
     leak_10x := member fc "leak_10x"; ac_couple := member fc "ac_couple";
     buffer := member fc "buffer"; strobe_skip := member fc "strobe_skip";
     strobe_delay := member fc "strobe_delay";
     strobe_length := member fc "strobe_length" |}.

(** ** A schema, a parser and configurations used as examples *)

(** Booleans for the flags, integers for the rest *)
Definition example_accepts (field : string) (v : json) : bool :=
  match v with
  | JBool _ => true
  | JInt z => negb (String.eqb field "cold") && negb (String.eqb field "enabled")
              && (0 <=? z)%Z
  | _ => false
  end.

Definition example_femb_config : json :=
  JObj [("test_cap", JBool false); ("gain", JInt 0); ("peak_time", JInt 3);
        ("baseline", JInt 0); ("pulse_dac", JInt 0); ("leak", JInt 0);
        ("leak_10x", JBool false); ("ac_couple", JBool false);
        ("buffer", JInt 0); ("strobe_skip", JInt 255);
        ("strobe_delay", JInt 255); ("strobe_length", JInt 255)]%string.

Definition example_config : json :=
  JObj [("cold", JBool false);
        ("enabled_fembs", JArr [JBool true; JBool false; JBool false; JBool false]);
        ("femb_configs", JArr (repeat example_femb_config 4))]%string.

(** A parser that knows two files: one byte [x01] holds [example_config],
    one byte [x02] holds the empty object; anything else is not JSON *)
Definition example_json_load (bytes : list byte) : result json :=
  match bytes with
  | [x01] => Ok example_config
  | [x02] => Ok (JObj [])
  | _ => Raise JSONDecodeError
  end.

Definition fs_good (path : string) : option (list byte) := Some [x01].
Definition fs_empty_object (path : string) : option (list byte) := Some [x02].
Definition fs_garbage (path : string) : option (list byte) := Some [x00].
Definition fs_missing (path : string) : option (list byte) := None.

(** Each view keeps the constants [__init__] gave it *)
Definition view_ok (v : DataView) : Prop :=
  match v with
  | VHist2D h => Hist2DView_ok h
  | VMeanRMS m => MeanRMSView_ok m
  | VFFT f => FFTView_ok f
  end.

Definition same_kind (v v' : DataView) : Prop :=
  match v, v' with
  | VHist2D _, VHist2D _ => True
  | VMeanRMS _, VMeanRMS _ => True
  | VFFT _, VFFT _ => True
  | _, _ => False
  end.

(** The window holds a histogram, a mean/RMS and a spectrum view, in this
    order *)
Definition views_inv (w : FEMB0Diagnostics) : Prop :=
  exists h m f,
    views w = [VHist2D h; VMeanRMS m; VFFT f] /\
    Hist2DView_ok h /\ MeanRMSView_ok m /\ FFTView_ok f.

(** ** Further notions used by the properties *)

(** All entries of a flat array lie in [lo, hi) *)
Definition all_in (lo hi : Z) (a : list Z) : bool :=
  forallb (fun x => (lo <=? x) && (x <? hi))%Z a.

(** The two bytes of sample [t] of channel [c] of sub-unit [f] in a sample
    payload for [n] timesteps per channel (row-major order) *)
Definition sample_bytes (buf : list byte) (n f c t : nat) : list byte :=
  firstn 2 (skipn (2 * ((f * 128 + c) * n + t)) buf).

(** Everything of the window but its views *)
Definition same_but_views (w w' : FEMB0Diagnostics) : Prop :=
  config w' = config w /\ pulser_button w' = pulser_button w /\
  continuious_button w' = continuious_button w /\ timer w' = timer w /\
  samples w' = samples w /\ timestamps w' = timestamps w.

(** A reply without timesteps, and one whose timestamps are one byte short *)
Definition empty_reply : DeframedDaqSpy :=
  {| success := true; num_samples := 0;
     deframed_samples := []; deframed_timestamps := [] |}.

Definition short_timestamps_reply : DeframedDaqSpy :=
  {| success := true; num_samples := 4;
     deframed_samples := repeat x01 4096;
     deframed_timestamps := repeat x00 63 |}.

(** A sample array with only three channels per sub-unit *)
Definition samples_three_channels : list (list (list Z)) :=
  repeat [[1; 2]; [3; 4]; [5; 6]]%Z 4.

(** The configuration path, the two buttons and the timer *)
Definition same_controls (w w' : FEMB0Diagnostics) : Prop :=
  config w' = config w /\ pulser_button w' = pulser_button w /\
  continuious_button w' = continuious_button w /\ timer w' = timer w.

(** The commands among the events of a call, in the order sent *)
Fixpoint sent (ev : list event) : list command :=
  match ev with
  | [] => []
  | EvSend c :: ev' => c :: sent ev'
  | _ :: ev' => sent ev'
  end.

(** A tuning field of a per-sub-unit record, by name *)
Definition FEMBConfig_get (name : string) (r : FEMBConfig) : json :=
  if String.eqb name "test_cap" then test_cap r
  else if String.eqb name "gain" then gain r
  else if String.eqb name "peak_time" then peak_time r
  else if String.eqb name "baseline" then baseline r
  else if String.eqb name "pulse_dac" then pulse_dac r
  else if String.eqb name "leak" then leak r
  else if String.eqb name "leak_10x" then leak_10x r
  else if String.eqb name "ac_couple" then ac_couple r
  else if String.eqb name "buffer" then buffer r
  else if String.eqb name "strobe_skip" then strobe_skip r
  else if String.eqb name "strobe_delay" then strobe_delay r
  else if String.eqb name "strobe_length" then strobe_length r
  else JNull.

(** The request holds what the configuration holds: [cold], and for each
    of exactly four sub-units [enabled_fembs[i]] and the twelve members of
    [femb_configs[i]], every value being one the schema takes *)
Definition request_matches (accepts : string -> json -> bool) (cfg : json)
           (req : ConfigureWIB) : Prop :=
  subscript_key cfg "cold" = Ok (cold req) /\
  accepts "cold"%string (cold req) = true /\
  length (fembs req) = 4%nat /\
  exists en fcs,
    subscript_key cfg "enabled_fembs" = Ok en /\
    subscript_key cfg "femb_configs" = Ok fcs /\
    forall i, (i < 4)%nat ->
      let r := nth i (fembs req) (expected_femb JNull JNull) in
      subscript_idx en i = Ok (enabled r) /\
      accepts "enabled"%string (enabled r) = true /\
      exists fc,
        subscript_idx fcs i = Ok fc /\
        forall name, In name tuning_fields ->
          subscript_key fc name = Ok (FEMBConfig_get name r) /\
          accepts name (FEMBConfig_get name r) = true.

(** File systems holding a JSON array, and objects short of members *)
Definition example_json_load2 (bytes : list byte) : result json :=
  match bytes with
  | [x01] => Ok example_config
  | [x02] => Ok (JObj [])
  | [x03] => Ok (JArr [])
  | [x04] => Ok (JObj [("cold"%string, JBool true);
                       ("enabled_fembs"%string, JArr [])])
  | _ => Raise JSONDecodeError
  end.

Definition fs_array (path : string) : option (list byte) := Some [x03].
Definition fs_no_fembs (path : string) : option (list byte) := Some [x04].

(** A computation that sends no command *)
Definition silent {S A} (m : Eff S A) : Prop :=
  forall s, sent (events_of (m s)) = [].

(** The pulser button carries one of its two labels *)
Definition pulser_inv (w : FEMB0Diagnostics) : Prop :=
  pulser_button w = "Enable Pulser"%string \/
  pulser_button w = "Disable Pulser"%string.

(* ================================================================== *)
(** ** DataView.get_state and DataView.set_state *)

(** A Python dict with string keys, in insertion order *)
Fixpoint dict_get {V} (k : string) (d : list (string * V)) : option V :=
  match d with
  | [] => None
  | (k', v) :: d' => if String.eqb k k' then Some v else dict_get k d'
  end.

(** [d[k] = v]: an existing key keeps its place, a new one goes last *)
Fixpoint dict_set {V} (k : string) (v : V) (d : list (string * V))
  : list (string * V) :=
  match d with
  | [] => [(k, v)]
  | (k', v') :: d' =>
      if String.eqb k k' then (k, v) :: d' else (k', v') :: dict_set k v d'
  end.

Section DataViewState.

(** The values attributes hold *)
Variable V : Type.

(** Iterating a value as [for prop in self.save_props] does: the strings
    it yields (an item that is no string is a key of no [__dict__] and is
    passed over), or the exception the iteration or the membership test
    raises *)
Variable names_of : V -> result (list string).

(** The [__dict__] of a view: [save_props], which [__init__] always
    binds, and the other attributes *)
Record view_dict : Type := mk_view_dict {
  save_props : V;
  other_attrs : list (string * V)
}.

(** [prop in self.__dict__] *)
Definition has_attr (self : view_dict) (prop : string) : bool :=
  String.eqb prop "save_props"
  || match dict_get prop (other_attrs self) with Some _ => true | None => false end.

(** [getattr(self, prop)] for an instance attribute *)
Definition getattr (self : view_dict) (prop : string) : option V :=
  if String.eqb prop "save_props" then Some (save_props self)
  else dict_get prop (other_attrs self).

(** [setattr(self, prop, val)] *)
Definition setattr (self : view_dict) (prop : string) (val : V) : view_dict :=
  if String.eqb prop "save_props"
  then {| save_props := val; other_attrs := other_attrs self |}
  else {| save_props := save_props self;
          other_attrs := dict_set prop val (other_attrs self) |}.

(** [get_state]: the dict of the attributes named in [save_props] *)
Definition get_state (self : view_dict) : result (list (string * V)) :=
  (props <- names_of (save_props self) ;;
   Ok (fold_left
         (fun acc prop =>
            if has_attr self prop
            then match getattr self prop with
                 | Some v => dict_set prop v acc
                 | None => acc
                 end
            else acc)
         props []))%res.

(** [set_state]: every item of [state] whose key is an attribute is
    assigned; the others are passed over *)
Definition set_state (state : list (string * V)) (self : view_dict) : view_dict :=
  fold_left
    (fun self item =>
       if has_attr self (fst item) then setattr self (fst item) (snd item)
       else self)
    state self.

(** The names bound in [__dict__] *)
Definition attr_names (self : view_dict) : list string :=
  "save_props"%string :: map fst (other_attrs self).

End DataViewState.

Arguments save_props {V} _.
Arguments other_attrs {V} _.
Arguments mk_view_dict {V} _ _.
Arguments has_attr {V} _ _.
Arguments getattr {V} _ _.
Arguments setattr {V} _ _ _.
Arguments get_state {V} _ _.
Arguments set_state {V} _ _.
Arguments attr_names {V} _.

(** A view as [DataView.__init__] leaves it, with attribute values
    written as JSON-like values: [save_props] is the empty list *)
Definition example_view_dict : view_dict json :=
  {| save_props := JArr [];
     other_attrs := [("last_lims", JNull); ("times", JNull); ("data", JNull)]%string |}.

(** Iterating such a value: the strings of a list (a list or dict among
    the items cannot be a key), the characters of a string, the keys of a
    dict; other values cannot be iterated *)
Definition example_names_of (v : json) : result (list string) :=
  match v with
  | JArr items =>
      (names <- mapM (fun j => match j with
                               | JStr s => Ok [s]
                               | JArr _ | JObj _ => Raise TypeError
                               | _ => Ok []
                               end) items ;;
       Ok (concat names))%res
  | JStr s => Ok (map (fun c => String c EmptyString) (list_ascii_of_string s))
  | JObj m => Ok (map fst m)
  | _ => Raise TypeError
  end.

Definition example_view_dict2 : view_dict json :=
  {| save_props := JArr [JStr "times"; JStr "missing"; JInt 3; JStr "data";
                         JStr "times"];
     other_attrs := [("last_lims", JNull); ("times", JInt 1); ("data", JInt 2)]%string |}.

(* ================================================================== *)
(** * Properties *)

(** ** The model at work on small inputs *)

Example np_histogram_doc :
  np_histogram [1; 2; 1]%Z [0; 1; 2; 3]%Z = [0; 2; 1]%Z.
Proof. reflexivity. Qed.

Example np_histogram_last_bin_closed :
  np_histogram [3; 4]%Z [0; 1; 2; 3]%Z = [0; 0; 1]%Z.
Proof. reflexivity. Qed.

Example fftfreq_results_8 :
  fftfreq_results 8 = [0; 1; 2; 3; -4; -3; -2; -1]%Z.
Proof. reflexivity. Qed.

Example fftfreq_results_7 :
  fftfreq_results 7 = [0; 1; 2; 3; -3; -2; -1]%Z.
Proof. reflexivity. Qed.

Example np_fftfreq_0 : np_fftfreq 0 sample_interval = Raise ZeroDivisionError.
Proof. reflexivity. Qed.

Example np_argsort_doc : np_argsort [3; 1; 2]%Q = [1; 2; 0]%nat.
Proof. reflexivity. Qed.

Example np_argsort_fftfreq_6 :
  match np_fftfreq 6 sample_interval with
  | Ok fr => np_argsort fr
  | Raise _ => []
  end = [3; 4; 5; 0; 1; 2]%nat.
Proof. vm_compute. reflexivity. Qed.

Example np_frombuffer_u16 :
  np_frombuffer 2 [x34; x12; xff; xff] = Ok [4660; 65535]%Z.
Proof. reflexivity. Qed.

Example np_frombuffer_odd : np_frombuffer 2 [x34; x12; xff] = Raise ValueError.
Proof. reflexivity. Qed.

Example reshape2_rows :
  reshape2 2 3 [1; 2; 3; 4; 5; 6]%Z = Ok [[1; 2; 3]; [4; 5; 6]]%Z.
Proof. reflexivity. Qed.

Example subscript_missing_key :
  subscript_key (JObj [("cold"%string, JBool true)]) "gain" = Raise KeyError.
Proof. reflexivity. Qed.

Example subscript_short_list :
  subscript_idx (JArr [JBool true; JBool false]) 2 = Raise IndexError.
Proof. reflexivity. Qed.

Example build_request_example :
  match build_request example_accepts example_config with
  | Ok req => (cold req, map enabled (fembs req), map peak_time (fembs req))
  | Raise _ => (JNull, [], [])
  end =
  (JBool false, [JBool true; JBool false; JBool false; JBool false],
   [JInt 3; JInt 3; JInt 3; JInt 3]).
Proof. reflexivity. Qed.

Example load_config_garbage :
  load_config example_json_load fs_garbage "femb0.json" = Raise JSONDecodeError.
Proof. reflexivity. Qed.

(** ** Running computations *)

Lemma bind_lift_ok {S A B} (a : A) (k : A -> Eff S B) (s : S) :
  bind (lift (Ok a)) k s = k a s.
Proof. unfold bind, lift. destruct (k a s) as [[s2 ev2] r]. reflexivity. Qed.

Lemma bind_lift_raise {S A B} (e : exn) (k : A -> Eff S B) (s : S) :
  bind (@lift S A (Raise e)) k s = (s, [], Raise e).
Proof. reflexivity. Qed.

Lemma bind_modify {S B} (f : S -> S) (k : unit -> Eff S B) (s : S) :
  bind (modify f) k s = k tt (f s).
Proof. unfold bind, modify. destruct (k tt (f s)) as [[s2 ev2] r]. reflexivity. Qed.

Lemma bind_get {S B} (k : S -> Eff S B) (s : S) :
  bind get k s = k s s.
Proof. unfold bind, get. destruct (k s s) as [[s2 ev2] r]. reflexivity. Qed.

Lemma bind_emit {S B} (e : event) (k : unit -> Eff S B) (s : S) :
  bind (emit e) k s =
  (state_of (k tt s), e :: events_of (k tt s), outcome_of (k tt s)).
Proof. unfold bind, emit. destruct (k tt s) as [[s2 ev2] r]. reflexivity. Qed.

(** ** Indexing *)

Lemma getitem_nth {A} (a : list A) (i : nat) (d : A) :
  (i < length a)%nat -> getitem a i = Ok (nth i a d).
Proof.
  intros H. unfold getitem.
  now rewrite (nth_error_nth' a d H).
Qed.

Lemma getitemZ_of_nat {A} (a : list A) (i : nat) (d : A) :
  (i < length a)%nat -> getitemZ a (Z.of_nat i) = Ok (nth i a d).
Proof.
  intros H. unfold getitemZ.
  assert (E : (Z.of_nat i <? 0)%Z = false) by (apply Z.ltb_ge; lia).
  rewrite E. cbv beta iota zeta. rewrite E, Nat2Z.id. now apply getitem_nth.
Qed.

Lemma map_nth_seq {A} (a : list A) (d : A) :
  map (fun i => nth i a d) (seq 0 (length a)) = a.
Proof.
  induction a as [|x a IH]; [reflexivity|].
  cbn [length seq map nth]. f_equal.
  rewrite <- seq_shift, map_map. exact IH.
Qed.

Lemma has_shape2_spec {A} (b c : nat) (m : list (list A)) :
  has_shape2 b c m = true ->
  length m = b /\ forall row, In row m -> length row = c.
Proof.
  unfold has_shape2. intros H. apply andb_prop in H as [H1 H2].
  split; [now apply Nat.eqb_eq|].
  intros row Hin. rewrite forallb_forall in H2.
  now apply Nat.eqb_eq, H2.
Qed.

Lemma has_shape3_femb0 {A} (a b c : nat) (t : list (list (list A))) :
  has_shape3 (S a) b c t = true ->
  exists f0, getitem t 0 = Ok f0 /\ nth 0 t [] = f0 /\ has_shape2 b c f0 = true.
Proof.
  unfold has_shape3. intros H. apply andb_prop in H as [H1 H2].
  destruct t as [|f0 t']; [discriminate|].
  exists f0. cbn in H2. apply andb_prop in H2 as [H2 _]. now repeat split.
Qed.

(** ** Counting and histograms *)

Lemma count_cons (p : Z -> bool) (x : Z) (a : list Z) :
  count p (x :: a) = ((if p x then 1 else 0) + count p a)%Z.
Proof. unfold count. cbn [filter]. destruct (p x); cbn [length]; lia. Qed.

Lemma count_nil (p : Z -> bool) : count p [] = 0%Z.
Proof. reflexivity. Qed.

Lemma count_ext (p q : Z -> bool) (a : list Z) :
  (forall x, In x a -> p x = q x) -> count p a = count q a.
Proof.
  induction a as [|x a IH]; intros H; [reflexivity|].
  rewrite !count_cons, IH, (H x) by (intros; apply H; now right) || now left.
  reflexivity.
Qed.

Lemma count_all (p : Z -> bool) (a : list Z) :
  (forall x, In x a -> p x = true) -> count p a = Z.of_nat (length a).
Proof.
  induction a as [|x a IH]; intros H; [reflexivity|].
  rewrite count_cons, IH, (H x) by (intros; apply H; now right) || now left.
  cbn [length]. lia.
Qed.

Lemma count_interval_split (lo mid hi : Z) (a : list Z) :
  (lo <= mid <= hi)%Z ->
  (count (fun x => (lo <=? x) && (x <? mid)) a
   + count (fun x => (mid <=? x) && (x <=? hi)) a
   = count (fun x => (lo <=? x) && (x <=? hi)) a)%Z.
Proof.
  intros H. induction a as [|x a IH]; [reflexivity|].
  rewrite !count_cons, <- IH.
  destruct (Z.leb_spec lo x), (Z.ltb_spec x mid), (Z.leb_spec mid x),
    (Z.leb_spec x hi); cbn [andb]; lia.
Qed.

Lemma np_histogram_two (a : list Z) (lo hi : Z) :
  np_histogram a [lo; hi] = [count (fun x => (lo <=? x) && (x <=? hi))%Z a].
Proof. reflexivity. Qed.

Lemma np_histogram_more (a : list Z) (lo hi e : Z) (rest : list Z) :
  np_histogram a (lo :: hi :: e :: rest) =
  count (fun x => (lo <=? x) && (x <? hi))%Z a :: np_histogram a (hi :: e :: rest).
Proof. reflexivity. Qed.

Lemma arange_from_seq (s n : nat) :
  arange_from (Z.of_nat s) n = map Z.of_nat (seq s n).
Proof.
  revert s. induction n as [|n IH]; intros s; [reflexivity|].
  cbn [arange_from seq map]. f_equal.
  rewrite <- IH. f_equal. lia.
Qed.

Lemma np_arange_seq (n : nat) : np_arange n = map Z.of_nat (seq 0 n).
Proof. exact (arange_from_seq 0 n). Qed.

Lemma unit_edges_S (s : Z) (n : nat) :
  unit_edges s (S n) = s :: unit_edges (s + 1) n.
Proof. reflexivity. Qed.

Lemma unit_edges_0 (s : Z) : unit_edges s 0 = [s; (s + 1)%Z].
Proof. reflexivity. Qed.

Lemma unit_edges_head (s : Z) (n : nat) :
  exists e rest, unit_edges s n = s :: e :: rest.
Proof. unfold unit_edges. cbn [arange_from]. eauto. Qed.

Lemma np_arange_unit_edges (n : nat) : np_arange (S (S n)) = unit_edges 0 n.
Proof. reflexivity. Qed.

Lemma np_histogram_length (a : list Z) (s : Z) (n : nat) :
  length (np_histogram a (unit_edges s n)) = S n.
Proof.
  revert s. induction n as [|n IH]; intros s; [reflexivity|].
  rewrite unit_edges_S.
  destruct (unit_edges_head (s + 1) n) as (e & rest & E).
  rewrite E, np_histogram_more, <- E. cbn [length]. now rewrite IH.
Qed.

(** The counts over all bins add up to the number of values within the
    outer edges *)
Lemma np_histogram_total (a : list Z) (s : Z) (n : nat) :
  zsum (np_histogram a (unit_edges s n)) =
  count (fun x => (s <=? x) && (x <=? s + Z.of_nat n + 1))%Z a.
Proof.
  revert s. induction n as [|n IH]; intros s.
  - rewrite unit_edges_0, np_histogram_two. cbn [zsum fold_right].
    rewrite Z.add_0_r. apply count_ext. intros x _.
    now replace (s + Z.of_nat 0 + 1)%Z with (s + 1)%Z by lia.
  - rewrite unit_edges_S.
    destruct (unit_edges_head (s + 1) n) as (e & rest & E).
    rewrite E, np_histogram_more, <- E.
    change (zsum (?c :: ?l)) with (c + zsum l)%Z.
    rewrite IH.
    replace (s + 1 + Z.of_nat n + 1)%Z with (s + Z.of_nat (S n) + 1)%Z by lia.
    apply count_interval_split. lia.
Qed.

(** Bin [b] holds the values in [s + b, s + b + 1); the last bin also
    holds the values equal to the last edge *)
Lemma np_histogram_nth (a : list Z) (s : Z) (n b : nat) :
  (b <= n)%nat ->
  nth b (np_histogram a (unit_edges s n)) 0%Z =
  if (b =? n)%nat
  then count (fun x => (s + Z.of_nat b <=? x) && (x <=? s + Z.of_nat b + 1))%Z a
  else count (fun x => (s + Z.of_nat b <=? x) && (x <? s + Z.of_nat b + 1))%Z a.
Proof.
  revert s b. induction n as [|n IH]; intros s b Hb.
  - replace b with 0%nat by lia. rewrite unit_edges_0, np_histogram_two.
    cbn [nth Nat.eqb]. apply count_ext. intros x _.
    now replace (s + Z.of_nat 0)%Z with s by lia.
  - rewrite unit_edges_S.
    destruct (unit_edges_head (s + 1) n) as (e & rest & E).
    rewrite E, np_histogram_more, <- E.
    destruct b as [|b].
    + cbn [nth Nat.eqb]. apply count_ext. intros x _.
      now replace (s + Z.of_nat 0)%Z with s by lia.
    + cbn [nth]. rewrite IH by lia.
      replace (s + 1 + Z.of_nat b)%Z with (s + Z.of_nat (S b))%Z by lia.
      reflexivity.
Qed.

(** ** Hist2DView.load_data *)

Lemma Hist2DView_load_loop (samples0 : list (list Z)) (ids : list nat)
      (self : Hist2DView) :
  (forall i, In i ids -> (i < length samples0)%nat) ->
  for_each (map Z.of_nat ids) (Hist2DView_load_channel samples0) self =
  (hist_set_counts
     (counts self ++
      map (fun i => np_histogram (nth i samples0 []) (hist_samples self)) ids) self,
   [], Ok tt).
Proof.
  revert self. induction ids as [|i ids IH]; intros self H.
  - cbn [map for_each]. unfold ret, hist_set_counts.
    rewrite app_nil_r. now destruct self.
  - cbn [map for_each]. unfold bind at 1.
    unfold Hist2DView_load_channel at 1.
    rewrite (getitemZ_of_nat samples0 i [] (H i (or_introl eq_refl))).
    rewrite bind_lift_ok. unfold modify at 1.
    rewrite IH by (intros; apply H; now right).
    cbn [app]. unfold hist_set_counts. cbn [counts hist_samples hist_chan].
    now rewrite <- app_assoc.
Qed.

(** On an array with 128 channels in sub-unit 0, [load_data] returns and
    leaves one histogram per channel *)
Lemma Hist2DView_load_data_run (ts : list (list Z)) (smp : list (list (list Z)))
      (N : nat) (self : Hist2DView) :
  has_shape3 4 128 N smp = true ->
  Hist2DView_ok self ->
  Hist2DView_load_data ts smp self =
  (hist_set_counts
     (map (fun row => np_histogram row (hist_samples self)) (femb0 smp)) self,
   [], Ok tt).
Proof.
  intros Hs [Hc He].
  destruct (has_shape3_femb0 _ _ _ _ Hs) as (f0 & G & E & S2).
  destruct (has_shape2_spec _ _ _ S2) as [L _].
  unfold Hist2DView_load_data, femb0. rewrite G, E, bind_lift_ok, bind_modify, bind_get.
  cbn [hist_set_counts hist_chan]. rewrite Hc, np_arange_seq.
  rewrite Hist2DView_load_loop by (intros i Hi; apply in_seq in Hi; lia).
  cbn [counts hist_samples hist_set_counts app].
  rewrite <- L at 1.
  rewrite <- (map_nth_seq f0 []) at 2. rewrite map_map. reflexivity.
Qed.

Lemma hist_edges : np_arange (Z.to_nat 16385) = unit_edges 0 (Z.to_nat 16383).
Proof.
  replace (Z.to_nat 16385) with (S (S (Z.to_nat 16383))) by lia.
  apply np_arange_unit_edges.
Qed.

Lemma nth_map_in {A B} (f : A -> B) (l : list A) (i : nat) (d : A) (d' : B) :
  (i < length l)%nat -> nth i (map f l) d' = f (nth i l d).
Proof.
  intros H. rewrite (nth_indep (map f l) d' (f d)) by now rewrite length_map.
  apply map_nth.
Qed.

Lemma Hist2DView_row (ts : list (list Z)) (smp : list (list (list Z)))
      (N : nat) (self : Hist2DView) (c : nat) :
  has_shape3 4 128 N smp = true ->
  Hist2DView_ok self ->
  (c < 128)%nat ->
  nth c (counts (state_of (Hist2DView_load_data ts smp self))) [] =
  np_histogram (nth c (femb0 smp) []) (unit_edges 0 (Z.to_nat 16383)).
Proof.
  intros Hs Hok Hc. rewrite (Hist2DView_load_data_run ts smp N self Hs Hok).
  unfold state_of. cbn [fst hist_set_counts counts].
  destruct Hok as [_ He]. rewrite He, hist_edges.
  destruct (has_shape3_femb0 _ _ _ _ Hs) as (f0 & _ & E & S2).
  destruct (has_shape2_spec _ _ _ S2) as [L _].
  unfold femb0. rewrite E.
  rewrite nth_map_in with (d := []) by lia. reflexivity.
Qed.

Lemma femb0_row_length (smp : list (list (list Z))) (N c : nat) :
  has_shape3 4 128 N smp = true -> (c < 128)%nat ->
  In (nth c (femb0 smp) []) (femb0 smp) /\ length (nth c (femb0 smp) []) = N.
Proof.
  intros Hs Hc.
  destruct (has_shape3_femb0 _ _ _ _ Hs) as (f0 & _ & E & S2).
  destruct (has_shape2_spec _ _ _ S2) as [L R].
  unfold femb0. rewrite E.
  assert (I : In (nth c f0 []) f0) by (apply nth_In; lia).
  split; [exact I | now apply R].
Qed.

Lemma in_range_spec (lo hi : Z) (m : list (list Z)) (row : list Z) (x : Z) :
  in_range lo hi m = true -> In row m -> In x row -> (lo <= x < hi)%Z.
Proof.
  unfold in_range. intros H Hr Hx.
  rewrite forallb_forall in H. specialize (H row Hr).
  rewrite forallb_forall in H. specialize (H x Hx).
  apply andb_prop in H as [H1 H2].
  apply Z.leb_le in H1. apply Z.ltb_lt in H2. lia.
Qed.

(** C5. Histogram view: when every value of sub-unit 0 lies in
    [0, 16384), [load_data] returns and, for each of the 128 channels,
    the counts over all bins add up to the number N of timesteps: no
    sample is dropped. *)
Theorem Hist2DView_no_sample_dropped (N : nat) (ts : list (list Z))
        (smp : list (list (list Z))) (self : Hist2DView) :
  has_shape3 4 128 N smp = true ->
  Hist2DView_ok self ->
  in_range 0 16384 (femb0 smp) = true ->
  outcome_of (Hist2DView_load_data ts smp self) = Ok tt /\
  forall c, (c < 128)%nat ->
    zsum (nth c (counts (state_of (Hist2DView_load_data ts smp self))) []) =
    Z.of_nat N.
Proof.
  intros Hs Hok Hr. split.
  - now rewrite (Hist2DView_load_data_run ts smp N self Hs Hok).
  - intros c Hc. rewrite (Hist2DView_row ts smp N self c Hs Hok Hc).
    rewrite np_histogram_total.
    destruct (femb0_row_length smp N c Hs Hc) as [I L].
    rewrite <- L. apply count_all. intros x Hx.
    pose proof (in_range_spec _ _ _ _ _ Hr I Hx) as B.
    apply andb_true_intro. split; [apply Z.leb_le | apply Z.leb_le]; lia.
Qed.

Lemma Hist2DView_no_sample_dropped_witness :
  has_shape3 4 128 3 samples_low = true /\
  Hist2DView_ok Hist2DView_init /\
  in_range 0 16384 (femb0 samples_low) = true /\
  outcome_of (Hist2DView_load_data [] samples_low Hist2DView_init) = Ok tt /\
  forall c, (c < 128)%nat ->
    zsum (nth c (counts (state_of
            (Hist2DView_load_data [] samples_low Hist2DView_init))) []) = 3%Z.
Proof.
  assert (S3 : has_shape3 4 128 3 samples_low = true) by reflexivity.
  assert (OK : Hist2DView_ok Hist2DView_init) by (split; reflexivity).
  assert (IR : in_range 0 16384 (femb0 samples_low) = true) by reflexivity.
  split; [exact S3 | split; [exact OK | split; [exact IR |]]].
  exact (Hist2DView_no_sample_dropped 3 [] samples_low Hist2DView_init S3 OK IR).
Defined.

(** C2 (as the code has it). Histogram view: for a (4,128,N) array
    [load_data] returns a 128 x 16384 count matrix whose bins have width 1
    and edges 0, 1, ..., 16384: bin b of channel c counts the timesteps of
    channel c of sub-unit 0 whose value lies in [b, b+1), the last bin
    (16383) also counting the value 16384.  The bins of a channel together
    hold exactly the values in [0, 16384]; larger values are in no bin. *)
Theorem Hist2DView_unit_bins (N : nat) (ts : list (list Z))
        (smp : list (list (list Z))) (self : Hist2DView) :
  has_shape3 4 128 N smp = true ->
  Hist2DView_ok self ->
  let r := Hist2DView_load_data ts smp self in
  outcome_of r = Ok tt /\
  length (counts (state_of r)) = 128%nat /\
  forall c, (c < 128)%nat ->
    length (nth c (counts (state_of r)) []) = Z.to_nat 16384 /\
    (forall b, (b < Z.to_nat 16384)%nat ->
       nth b (nth c (counts (state_of r)) []) 0%Z =
       count (unit_bin b) (nth c (femb0 smp) [])) /\
    zsum (nth c (counts (state_of r)) []) =
    count (fun x => (0 <=? x) && (x <=? 16384))%Z (nth c (femb0 smp) []).
Proof.
  intros Hs Hok r. subst r. split; [|split].
  - now rewrite (Hist2DView_load_data_run ts smp N self Hs Hok).
  - rewrite (Hist2DView_load_data_run ts smp N self Hs Hok).
    unfold state_of. cbn [fst hist_set_counts counts]. rewrite length_map.
    destruct (has_shape3_femb0 _ _ _ _ Hs) as (f0 & _ & E & S2).
    destruct (has_shape2_spec _ _ _ S2) as [L _].
    unfold femb0. now rewrite E.
  - intros c Hc. rewrite (Hist2DView_row ts smp N self c Hs Hok Hc).
    split; [|split].
    + rewrite np_histogram_length. lia.
    + intros b Hb. rewrite np_histogram_nth by lia.
      unfold unit_bin.
      destruct (Nat.eqb_spec b (Z.to_nat 16383)) as [->|Hne].
      * rewrite Z2Nat.id by lia. reflexivity.
      * replace (Z.of_nat b =? 16383)%Z with false
          by (symmetry; apply Z.eqb_neq; lia).
        reflexivity.
    + rewrite np_histogram_total. apply count_ext. intros x _.
      replace (0 + Z.of_nat (Z.to_nat 16383) + 1)%Z with 16384%Z by lia.
      reflexivity.
Qed.

Lemma Hist2DView_unit_bins_witness :
  has_shape3 4 128 3 samples_low = true /\
  Hist2DView_ok Hist2DView_init /\
  length (counts (state_of
            (Hist2DView_load_data [] samples_low Hist2DView_init))) = 128%nat.
Proof.
  assert (S3 : has_shape3 4 128 3 samples_low = true) by reflexivity.
  assert (OK : Hist2DView_ok Hist2DView_init) by (split; reflexivity).
  split; [exact S3 | split; [exact OK |]].
  exact (proj1 (proj2 (Hist2DView_unit_bins 3 [] samples_low Hist2DView_init S3 OK))).
Defined.

(** C2 (as the specification words it) fails: with bins of width 4 over
    [0, 65536) a sample of value 20000 would be counted in bin 5000, but
    the view counts it in no bin at all. *)
Lemma Hist2DView_full_range_counterexample :
  has_shape3 4 128 1 samples_high = true /\
  counts (state_of (Hist2DView_load_data [] samples_high Hist2DView_init))
  <> map spec_histogram (femb0 samples_high).
Proof.
  assert (S3 : has_shape3 4 128 1 samples_high = true) by reflexivity.
  assert (OK : Hist2DView_ok Hist2DView_init) by (split; reflexivity).
  split; [exact S3|]. intros H.
  apply (f_equal (fun m => zsum (nth 0 m []))) in H.
  rewrite (Hist2DView_row [] samples_high 1 Hist2DView_init 0 S3 OK) in H by lia.
  rewrite np_histogram_total in H.
  assert (L : (0 < length (femb0 samples_high))%nat)
    by (apply Nat.ltb_lt; vm_compute; reflexivity).
  rewrite (nth_map_in spec_histogram (femb0 samples_high) 0 [] [] L) in H.
  assert (E0 : nth 0 (femb0 samples_high) [] = [20000%Z]) by reflexivity.
  rewrite E0 in H.
  assert (A : zsum (spec_histogram [20000%Z]) = 1%Z) by (vm_compute; reflexivity).
  rewrite A, count_cons, count_nil in H.
  replace (0 + Z.of_nat (Z.to_nat 16383) + 1)%Z with 16384%Z in H by lia.
  cbn in H. discriminate H.
Qed.

(** ** MeanRMSView.load_data *)

Lemma rsum_IZR (x : list Z) : rsum (map IZR x) = IZR (zsum x).
Proof.
  induction x as [|v x IH]; [reflexivity|].
  cbn [map rsum zsum fold_right]. rewrite plus_IZR. f_equal. exact IH.
Qed.

Lemma np_mean_arithmetic (x : list Z) :
  x <> [] -> np_mean x = Fin (arithmetic_mean x).
Proof.
  destruct x as [|v x]; [congruence|]. intros _.
  unfold np_mean, arithmetic_mean. now rewrite rsum_IZR, INR_IZR_INZ.
Qed.

Lemma np_std_population (x : list Z) :
  x <> [] -> np_std x = Fin (population_std x).
Proof.
  destruct x as [|v x]; [congruence|]. intros _.
  unfold np_std, population_std, arithmetic_mean.
  rewrite map_map, rsum_IZR, !INR_IZR_INZ. reflexivity.
Qed.

Lemma zsum_constant (k : Z) (x : list Z) :
  forallb (Z.eqb k) x = true -> zsum x = (k * Z.of_nat (length x))%Z.
Proof.
  induction x as [|v x IH]; intros H; [cbn; lia|].
  cbn [forallb] in H. apply andb_prop in H as [E H]. apply Z.eqb_eq in E.
  subst v. cbn [zsum fold_right length]. fold (zsum x). rewrite IH by exact H. lia.
Qed.

Lemma arithmetic_mean_constant (k : Z) (x : list Z) :
  x <> [] -> forallb (Z.eqb k) x = true -> arithmetic_mean x = IZR k.
Proof.
  intros Hne H. unfold arithmetic_mean. rewrite (zsum_constant k x H), mult_IZR.
  assert (IZR (Z.of_nat (length x)) <> 0%R).
  { apply not_0_IZR. destruct x; [congruence | cbn [length]; lia]. }
  now field.
Qed.

Lemma rsum_deviation_constant (k : Z) (m : R) (x : list Z) :
  m = IZR k -> forallb (Z.eqb k) x = true ->
  rsum (map (fun v => Rsqr (IZR v - m)) x) = 0%R.
Proof.
  intros -> H. induction x as [|v x IH]; [reflexivity|].
  cbn [forallb] in H. apply andb_prop in H as [E H]. apply Z.eqb_eq in E.
  subst v. cbn [map rsum fold_right]. fold (rsum (map (fun v => Rsqr (IZR v - IZR k)) x)).
  rewrite IH by exact H. unfold Rsqr. ring.
Qed.

Lemma population_std_constant (k : Z) (x : list Z) :
  x <> [] -> forallb (Z.eqb k) x = true -> population_std x = 0%R.
Proof.
  intros Hne H. unfold population_std.
  rewrite (rsum_deviation_constant k _ x (arithmetic_mean_constant k x Hne H) H).
  unfold Rdiv. rewrite Rmult_0_l. exact sqrt_0.
Qed.

Lemma MeanRMSView_load_data_run (ts : list (list Z)) (smp : list (list (list Z)))
      (f0 : list (list Z)) (self : MeanRMSView) :
  getitem smp 0 = Ok f0 ->
  MeanRMSView_load_data ts smp self =
  ({| mr_chan := mr_chan self; rms := map np_std f0; mean := map np_mean f0 |},
   [], Ok tt).
Proof.
  intros G. unfold MeanRMSView_load_data.
  rewrite G, bind_lift_ok, bind_modify. reflexivity.
Qed.

Lemma MeanRMSView_load_data_fl_run (rnd : R -> R) (fsum : list R -> R)
      (ts : list (list Z)) (smp : list (list (list Z)))
      (f0 : list (list Z)) (self : MeanRMSView) :
  getitem smp 0 = Ok f0 ->
  MeanRMSView_load_data_fl rnd fsum ts smp self =
  ({| mr_chan := mr_chan self; rms := map (np_std_fl rnd fsum) f0;
      mean := map (np_mean_fl rnd fsum) f0 |},
   [], Ok tt).
Proof.
  intros G. unfold MeanRMSView_load_data_fl.
  rewrite G, bind_lift_ok, bind_modify. reflexivity.
Qed.

(** Without rounding, the float64 functions are the idealised ones the
    window uses *)
Lemma MeanRMSView_load_data_fl_exact (ts : list (list Z))
      (smp : list (list (list Z))) (self : MeanRMSView) :
  MeanRMSView_load_data_fl (fun r => r) rsum ts smp self =
  MeanRMSView_load_data ts smp self.
Proof. reflexivity. Qed.

Lemma exact_on_integers_0 (rnd : R -> R) :
  exact_on_integers rnd -> rnd 0%R = 0%R.
Proof. intros H. apply (H 0%Z). cbn. lia. Qed.

(** The samples of a channel of 16-bit values add up to less than 2^53
    as long as there are at most 2^37 of them *)
Lemma zsum_abs_uint16 (row : list Z) :
  (forall x, In x row -> (0 <= x < 65536)%Z) ->
  (0 <= zsum (map Z.abs row) <= 65535 * Z.of_nat (length row))%Z.
Proof.
  induction row as [|v row IH]; intros H; [cbn; lia|].
  cbn [map zsum fold_right length]. fold (zsum (map Z.abs row)).
  pose proof (H v (or_introl eq_refl)).
  pose proof (IH (fun x Hx => H x (or_intror Hx))).
  rewrite Nat2Z.inj_succ. lia.
Qed.

Lemma np_mean_fl_rounded (rnd : R -> R) (fsum : list R -> R) (x : list Z) :
  exact_integer_sums fsum ->
  x <> [] -> (zsum (map Z.abs x) <= 2 ^ 53)%Z ->
  np_mean_fl rnd fsum x = Fin (rnd (arithmetic_mean x)).
Proof.
  intros Hsum Hne Hx. destruct x as [|v x]; [congruence|].
  unfold np_mean_fl, arithmetic_mean. now rewrite (Hsum _ Hx), INR_IZR_INZ.
Qed.

Lemma np_std_fl_rounded (rnd : R -> R) (fsum : list R -> R) (x : list Z) :
  exact_integer_sums fsum ->
  x <> [] -> (zsum (map Z.abs x) <= 2 ^ 53)%Z ->
  np_std_fl rnd fsum x =
  Fin (rnd (sqrt (rnd (fsum (map (fun v =>
                               rnd (Rsqr (rnd (IZR v - rnd (arithmetic_mean x)))))
                             x)
                       / INR (length x)))))%R.
Proof.
  intros Hsum Hne Hx. destruct x as [|v x]; [congruence|].
  unfold np_std_fl, arithmetic_mean. cbv zeta.
  rewrite map_map, (Hsum _ Hx), !INR_IZR_INZ. reflexivity.
Qed.

(** The rounded squared deviations of a constant channel from its own
    value are all zero *)
Lemma deviations_constant (rnd : R -> R) (k : Z) (x : list Z) :
  exact_on_integers rnd ->
  forallb (Z.eqb k) x = true ->
  map (fun v => rnd (Rsqr (rnd (IZR v - IZR k)))%R) x
  = map IZR (map (fun _ => 0%Z) x).
Proof.
  intros Hr H. pose proof (exact_on_integers_0 rnd Hr) as R0.
  rewrite map_map. apply map_ext_in. intros v Hv.
  rewrite forallb_forall in H. specialize (H v Hv). apply Z.eqb_eq in H.
  subst v. unfold Rminus. rewrite Rplus_opp_r, R0.
  unfold Rsqr. rewrite Rmult_0_l. exact R0.
Qed.

Lemma zsum_zeros {A} (x : list A) :
  zsum (map Z.abs (map (fun _ => 0%Z) x)) = 0%Z /\
  zsum (map (fun _ => 0%Z) x) = 0%Z.
Proof.
  induction x as [|v x [IH1 IH2]]; [now split|].
  cbn [map zsum fold_right].
  fold (zsum (map Z.abs (map (fun _ => 0%Z) x))).
  fold (zsum (map (fun _ : A => 0%Z) x)). rewrite IH1, IH2. now split.
Qed.

(** C3. Mean/RMS view, with the float64 arithmetic of NumPy written out:
    for a (4,128,N) array of 16-bit samples with 1 <= N <= 2^37 (and any
    timestamps), [load_data] returns with [mean] and [rms] of length
    128; [mean[c]] is the arithmetic mean of channel c of sub-unit 0
    over its timesteps, rounded once; [rms[c]] is the population
    standard deviation of that channel (divisor N, no correction) as
    float64 evaluates it: the deviations from that mean, their squares,
    the sum divided by N and the root, each rounded.  A channel whose
    timesteps all hold the value k has [rms[c] = 0] and [mean[c] = k]
    exactly; and were the arithmetic exact, [mean[c]] and [rms[c]] would
    be the arithmetic mean and the population standard deviation
    themselves. *)
Theorem MeanRMSView_load_data_mean_rms (rnd : R -> R) (fsum : list R -> R)
        (N : nat) (ts : list (list Z))
        (smp : list (list (list Z))) (self : MeanRMSView) :
  exact_on_integers rnd ->
  exact_integer_sums fsum ->
  (1 <= N)%nat ->
  (Z.of_nat N <= 2 ^ 37)%Z ->
  has_shape3 4 128 N smp = true ->
  in_range 0 65536 (femb0 smp) = true ->
  let r := MeanRMSView_load_data_fl rnd fsum ts smp self in
  outcome_of r = Ok tt /\
  length (mean (state_of r)) = 128%nat /\
  length (rms (state_of r)) = 128%nat /\
  forall c, (c < 128)%nat ->
    let row := nth c (femb0 smp) [] in
    let mu := rnd (arithmetic_mean row) in
    nth c (mean (state_of r)) NaN = Fin mu /\
    nth c (rms (state_of r)) NaN =
      Fin (rnd (sqrt (rnd (fsum (map (fun v => rnd (Rsqr (rnd (IZR v - mu))))
                                  row)
                            / INR N))))%R /\
    (forall k, forallb (Z.eqb k) row = true ->
       nth c (rms (state_of r)) NaN = Fin 0%R /\
       nth c (mean (state_of r)) NaN = Fin (IZR k)) /\
    ((forall x, rnd x = x) -> (forall l, fsum l = rsum l) ->
       nth c (mean (state_of r)) NaN = Fin (arithmetic_mean row) /\
       nth c (rms (state_of r)) NaN = Fin (population_std row)).
Proof.
  intros Hr Hsum HN HN37 Hs Hrange r. subst r.
  destruct (has_shape3_femb0 _ _ _ _ Hs) as (f0 & G & E & S2).
  destruct (has_shape2_spec _ _ _ S2) as [L R].
  rewrite (MeanRMSView_load_data_fl_run rnd fsum ts smp f0 self G).
  unfold state_of, outcome_of, femb0 in *. cbn [fst snd mean rms].
  rewrite E in *. rewrite !length_map.
  split; [reflexivity|]. split; [exact L|]. split; [exact L|].
  intros c Hc. set (row := nth c f0 []). set (mu := rnd (arithmetic_mean row)).
  assert (Hin : In row f0) by (apply nth_In; lia).
  assert (Hl : length row = N) by now apply R.
  assert (Hne : row <> [])
    by (intros Z0; rewrite Z0 in Hl; cbn in Hl; lia).
  assert (Hu : forall x, In x row -> (0 <= x < 65536)%Z)
    by (intros x Hx; exact (in_range_spec 0 65536 f0 row x Hrange Hin Hx)).
  assert (Hb : (zsum (map Z.abs row) <= 2 ^ 53)%Z).
  { pose proof (zsum_abs_uint16 row Hu) as B. rewrite Hl in B.
    change (2 ^ 53)%Z with (65536 * 2 ^ 37)%Z. lia. }
  assert (Em : nth c (map (np_mean_fl rnd fsum) f0) NaN = Fin mu).
  { rewrite (nth_map_in (np_mean_fl rnd fsum) f0 c [] NaN) by lia.
    now apply np_mean_fl_rounded. }
  assert (Es : nth c (map (np_std_fl rnd fsum) f0) NaN =
               Fin (rnd (sqrt (rnd (fsum (map (fun v =>
                                             rnd (Rsqr (rnd (IZR v - mu)))) row)
                                     / INR N))))%R).
  { rewrite (nth_map_in (np_std_fl rnd fsum) f0 c [] NaN) by lia.
    fold row. rewrite (np_std_fl_rounded rnd fsum row Hsum Hne Hb), Hl.
    reflexivity. }
  split; [exact Em|]. split; [exact Es|]. split.
  - intros k Hk.
    assert (Hmu : mu = IZR k).
    { unfold mu. rewrite (arithmetic_mean_constant k row Hne Hk).
      apply Hr. destruct row as [|v row']; [congruence|].
      cbn [forallb] in Hk. apply andb_prop in Hk as [Ek _].
      apply Z.eqb_eq in Ek. subst v.
      pose proof (Hu k (or_introl eq_refl)). lia. }
    pose proof (exact_on_integers_0 rnd Hr) as R0.
    split; [|now rewrite Em, Hmu].
    rewrite Es, Hmu, (deviations_constant rnd k row Hr Hk).
    destruct (zsum_zeros row) as [Z1 Z2].
    rewrite (Hsum (map (fun _ => 0%Z) row)) by (rewrite Z1; lia).
    rewrite Z2. unfold Rdiv. rewrite Rmult_0_l, R0, sqrt_0, R0. reflexivity.
  - intros Xr Xs. split.
    + rewrite Em. unfold mu. now rewrite Xr.
    + rewrite Es. unfold mu. rewrite !Xr, Xs.
      unfold population_std. rewrite Hl, INR_IZR_INZ. do 4 f_equal.
      apply map_ext. intros v. now rewrite !Xr.
Qed.

Lemma MeanRMSView_load_data_mean_rms_witness :
  exact_on_integers (fun r => r) /\
  exact_integer_sums rsum /\
  (1 <= 3)%nat /\ (Z.of_nat 3 <= 2 ^ 37)%Z /\
  has_shape3 4 128 3 samples_flat = true /\
  in_range 0 65536 (femb0 samples_flat) = true /\
  forallb (Z.eqb 7) (nth 0 (femb0 samples_flat) []) = true /\
  nth 0 (rms (state_of (MeanRMSView_load_data_fl (fun r => r) rsum []
                          samples_flat MeanRMSView_init)))
      NaN = Fin 0%R /\
  nth 0 (mean (state_of (MeanRMSView_load_data_fl (fun r => r) rsum []
                           samples_flat MeanRMSView_init)))
      NaN = Fin 7%R.
Proof.
  assert (Hr : exact_on_integers (fun r => r)) by (intros z _; reflexivity).
  assert (Hsum : exact_integer_sums rsum) by (intros zs _; apply rsum_IZR).
  assert (HN : (1 <= 3)%nat) by lia.
  assert (HN37 : (Z.of_nat 3 <= 2 ^ 37)%Z) by (cbn; lia).
  assert (S3 : has_shape3 4 128 3 samples_flat = true) by reflexivity.
  assert (IR : in_range 0 65536 (femb0 samples_flat) = true) by reflexivity.
  assert (C : forallb (Z.eqb 7) (nth 0 (femb0 samples_flat) []) = true)
    by reflexivity.
  split; [exact Hr | split; [exact Hsum | split; [exact HN | split; [exact HN37 |
    split; [exact S3 | split; [exact IR | split; [exact C |]]]]]]].
  destruct (MeanRMSView_load_data_mean_rms (fun r => r) rsum 3 [] samples_flat
              MeanRMSView_init Hr Hsum HN HN37 S3 IR)
    as (_ & _ & _ & P).
  destruct (P 0%nat ltac:(lia)) as (_ & _ & Q & _).
  exact (Q 7%Z C).
Defined.

(** ** Sorting indices by key *)

Section ArgSort.

Variable key : nat -> Q.

Lemma insert_by_perm (i : nat) (l : list nat) :
  Permutation (insert_by key i l) (i :: l).
Proof.
  induction l as [|j l IH]; [apply Permutation_refl|].
  cbn [insert_by]. destruct (Qle_bool (key i) (key j)).
  - apply Permutation_refl.
  - apply perm_trans with (j :: i :: l); [now apply perm_skip | apply perm_swap].
Qed.

Lemma insert_by_sorted (i : nat) (l : list nat) :
  StronglySorted (key_le key) l -> StronglySorted (key_le key) (insert_by key i l).
Proof.
  induction l as [|j l IH]; intros Hs.
  - cbn. constructor; constructor.
  - cbn [insert_by]. destruct (Qle_bool (key i) (key j)) eqn:E.
    + apply Qle_bool_iff in E. constructor; [exact Hs|].
      constructor; [exact E|].
      apply StronglySorted_inv in Hs as [_ Hj].
      eapply Forall_impl; [|exact Hj]. intros k Hk.
      unfold key_le in *. now apply Qle_trans with (key j).
    + assert (Hji : (key_le key) j i).
      { unfold key_le. apply Qlt_le_weak, Qnot_le_lt. intros C.
        apply Qle_bool_iff in C. congruence. }
      apply StronglySorted_inv in Hs as [Hl Hj].
      constructor; [now apply IH|].
      apply Forall_forall. intros k Hk.
      apply (Permutation_in _ (insert_by_perm i l)) in Hk.
      destruct Hk as [<-|Hk]; [exact Hji|].
      rewrite Forall_forall in Hj. now apply Hj.
Qed.

Lemma sort_by_perm (l : list nat) :
  Permutation (fold_right (insert_by key) [] l) l.
Proof.
  induction l as [|i l IH]; [apply Permutation_refl|].
  cbn [fold_right].
  apply perm_trans with (i :: fold_right (insert_by key) [] l).
  - apply insert_by_perm.
  - now apply perm_skip.
Qed.

Lemma sort_by_sorted (l : list nat) :
  StronglySorted (key_le key) (fold_right (insert_by key) [] l).
Proof.
  induction l as [|i l IH]; [constructor|].
  cbn [fold_right]. now apply insert_by_sorted.
Qed.

(** A list sorted by [<=] on keys is the only one with its elements that
    is strictly sorted *)
Lemma sorted_unique (l l' : list nat) :
  StronglySorted (key_le key) l -> StronglySorted (key_lt key) l' ->
  Permutation l l' -> l = l'.
Proof.
  revert l'. induction l as [|a l IH]; intros l' Hs Hs' P.
  - now apply Permutation_nil in P.
  - destruct l' as [|b l'].
    { apply Permutation_sym, Permutation_nil in P. discriminate. }
    apply StronglySorted_inv in Hs as [Hl Ha].
    apply StronglySorted_inv in Hs' as [Hl' Hb].
    rewrite Forall_forall in Ha, Hb.
    assert (E : a = b).
    { assert (Ia : In a (b :: l')) by (apply (Permutation_in _ P); now left).
      assert (Ib : In b (a :: l))
        by (apply (Permutation_in _ (Permutation_sym P)); now left).
      destruct Ia as [->|Ia]; [reflexivity|].
      destruct Ib as [->|Ib]; [reflexivity|].
      exfalso. apply (Qlt_not_le _ _ (Hb a Ia)). exact (Ha b Ib). }
    subst b. f_equal. apply IH; [exact Hl | exact Hl' |].
    now apply Permutation_cons_inv with a.
Qed.

End ArgSort.

Lemma StronglySorted_seq (R : nat -> nat -> Prop) (s k : nat) :
  (forall i j, (s <= i)%nat -> (i < j)%nat -> (j < s + k)%nat -> R i j) ->
  StronglySorted R (seq s k).
Proof.
  revert s. induction k as [|k IH]; intros s H; [constructor|].
  cbn [seq]. constructor.
  - apply IH. intros i j H1 H2 H3. apply H; lia.
  - apply Forall_forall. intros j Hj. apply in_seq in Hj. apply H; lia.
Qed.

Lemma StronglySorted_app (R : nat -> nat -> Prop) (l1 l2 : list nat) :
  StronglySorted R l1 -> StronglySorted R l2 ->
  (forall i j, In i l1 -> In j l2 -> R i j) ->
  StronglySorted R (l1 ++ l2).
Proof.
  induction l1 as [|a l1 IH]; intros H1 H2 H; [exact H2|].
  apply StronglySorted_inv in H1 as [H1 Ha].
  cbn [app]. constructor.
  - apply IH; [exact H1 | exact H2 |]. intros i j Hi Hj. apply H; [now right | exact Hj].
  - apply Forall_app. split; [exact Ha|].
    apply Forall_forall. intros j Hj. apply H; [now left | exact Hj].
Qed.

Lemma take_seq {A} (a : list A) (s k : nat) :
  (s + k <= length a)%nat ->
  take a (seq s k) = Ok (firstn k (skipn s a)).
Proof.
  unfold take. revert s. induction k as [|k IH]; intros s H; [reflexivity|].
  cbn [seq mapM].
  destruct (skipn s a) as [|x rest] eqn:E.
  { apply (f_equal (@length A)) in E. rewrite length_skipn in E. cbn in E. lia. }
  assert (G : getitem a s = Ok x).
  { unfold getitem. rewrite <- (firstn_skipn s a), E.
    rewrite nth_error_app2 by (rewrite length_firstn; lia).
    rewrite length_firstn. replace (s - Nat.min s (length a))%nat with 0%nat by lia.
    reflexivity. }
  rewrite G. cbn [rbind]. rewrite IH by lia. cbn [rbind firstn].
  do 3 f_equal.
  replace (S s) with (1 + s)%nat by lia. rewrite <- skipn_skipn, E. reflexivity.
Qed.

(** ** The frequency axis *)

Lemma halves (n : nat) :
  (1 <= n)%nat -> ((n - 1) / 2 + 1 + n / 2 = n)%nat.
Proof.
  intros H.
  pose proof (Nat.div_mod_eq n 2) as E1.
  pose proof (Nat.div_mod_eq (n - 1) 2) as E2.
  pose proof (Nat.mod_upper_bound n 2 ltac:(lia)) as B1.
  pose proof (Nat.mod_upper_bound (n - 1) 2 ltac:(lia)) as B2.
  destruct (Nat.eq_dec (n mod 2) 0) as [Z0|Z1].
  - assert ((n - 1) mod 2 = 1)%nat.
    { destruct (Nat.eq_dec ((n - 1) mod 2) 1) as [|C]; [assumption|]. lia. }
    lia.
  - assert ((n - 1) mod 2 = 0)%nat.
    { destruct (Nat.eq_dec ((n - 1) mod 2) 0) as [|C]; [assumption|]. lia. }
    lia.
Qed.

Lemma fftfreq_results_length (n : nat) :
  (1 <= n)%nat -> length (fftfreq_results n) = n.
Proof.
  intros H. unfold fftfreq_results.
  rewrite length_app, !length_map, !length_seq. now apply halves.
Qed.

Lemma fftfreq_results_low (n i : nat) :
  (i < (n - 1) / 2 + 1)%nat -> nth i (fftfreq_results n) 0%Z = Z.of_nat i.
Proof.
  intros H. unfold fftfreq_results.
  rewrite app_nth1 by now rewrite length_map, length_seq.
  rewrite (nth_map_in Z.of_nat _ i 0%nat 0%Z) by now rewrite length_seq.
  now rewrite seq_nth.
Qed.

Lemma fftfreq_results_high (n i : nat) :
  ((n - 1) / 2 + 1 <= i)%nat -> (i < n)%nat ->
  (nth i (fftfreq_results n) 0 < 0)%Z /\
  nth i (fftfreq_results n) 0%Z =
  (Z.of_nat (i - ((n - 1) / 2 + 1)) - Z.of_nat (n / 2))%Z.
Proof.
  intros H1 H2. pose proof (halves n ltac:(lia)) as Hh.
  unfold fftfreq_results.
  rewrite app_nth2 by (rewrite length_map, length_seq; lia).
  rewrite length_map, length_seq.
  rewrite (nth_map_in (fun k => (Z.of_nat k - Z.of_nat (n / 2))%Z) _ _ 0%nat 0%Z)
    by (rewrite length_seq; lia).
  rewrite seq_nth by lia. cbn [Nat.add]. split; [lia | reflexivity].
Qed.

Lemma val_pos (n : nat) :
  (1 <= n)%nat -> (0 < 1 / (inject_Z (Z.of_nat n) * sample_interval))%Q.
Proof.
  intros H. unfold Qdiv. rewrite Qmult_1_l.
  apply Qinv_lt_0_compat, Qmult_lt_0_compat.
  - unfold Qlt. cbn. lia.
  - reflexivity.
Qed.

Lemma scaled_lt (a b : Z) (val : Q) :
  (0 < val)%Q -> (a < b)%Z -> (inject_Z a * val < inject_Z b * val)%Q.
Proof.
  intros Hv H. apply Qmult_lt_compat_r; [exact Hv|]. now rewrite <- Zlt_Qlt.
Qed.

(** The indices of the sorted frequencies: those of the negative
    frequencies, then those of the non-negative ones *)
Lemma np_argsort_fftfreq (n : nat) (val : Q) :
  (1 <= n)%nat -> (0 < val)%Q ->
  np_argsort (map (fun k => (inject_Z k * val)%Q) (fftfreq_results n)) =
  seq ((n - 1) / 2 + 1) (n / 2) ++ seq 0 ((n - 1) / 2 + 1).
Proof.
  intros Hn Hv. pose proof (halves n Hn) as Hh.
  set (fr := map (fun k => (inject_Z k * val)%Q) (fftfreq_results n)).
  assert (Lfr : length fr = n)
    by (unfold fr; rewrite length_map; now apply fftfreq_results_length).
  assert (K : forall i, (i < n)%nat ->
            nth i fr 0%Q = (inject_Z (nth i (fftfreq_results n) 0%Z) * val)%Q).
  { intros i Hi. unfold fr.
    apply (nth_map_in (fun k => (inject_Z k * val)%Q)).
    now rewrite fftfreq_results_length. }
  unfold np_argsort.
  apply sorted_unique with (key := fun i => nth i fr 0%Q).
  - apply sort_by_sorted.
  - apply StronglySorted_app.
    + apply StronglySorted_seq. intros i j H1 H2 H3. unfold key_lt.
      rewrite !K by lia. apply scaled_lt; [exact Hv|].
      destruct (fftfreq_results_high n i) as [_ ->]; [lia | lia |].
      destruct (fftfreq_results_high n j) as [_ ->]; [lia | lia |]. lia.
    + apply StronglySorted_seq. intros i j H1 H2 H3. unfold key_lt.
      rewrite !K by lia. apply scaled_lt; [exact Hv|].
      rewrite !fftfreq_results_low by lia. lia.
    + intros i j Hi Hj. apply in_seq in Hi, Hj. unfold key_lt.
      rewrite !K by lia. apply scaled_lt; [exact Hv|].
      destruct (fftfreq_results_high n i) as [Neg _]; [lia | lia |].
      rewrite (fftfreq_results_low n j) by lia. lia.
  - eapply perm_trans; [apply sort_by_perm|].
    rewrite Lfr. rewrite <- Hh at 1. rewrite seq_app.
    apply Permutation_app_comm.
Qed.

(** What [load_data] keeps of the frequency axis *)
Lemma fftfreq_kept (n : nat) :
  (1 <= n)%nat ->
  exists fr,
    np_fftfreq n sample_interval = Ok fr /\
    skipn (length fr / 2) (np_argsort fr) = seq 0 ((n - 1) / 2 + 1) /\
    take fr (seq 0 ((n - 1) / 2 + 1)) = Ok (kept_freqs n).
Proof.
  intros Hn. pose proof (halves n Hn) as Hh.
  unfold np_fftfreq. replace (n =? 0)%nat with false
    by (symmetry; apply Nat.eqb_neq; lia).
  eexists. split; [reflexivity|].
  rewrite length_map, fftfreq_results_length by exact Hn.
  rewrite np_argsort_fftfreq by (exact Hn || now apply val_pos).
  split.
  - rewrite skipn_app, length_seq, Nat.sub_diag.
    rewrite skipn_all2 by (rewrite length_seq; lia). reflexivity.
  - rewrite take_seq
      by (rewrite length_map, fftfreq_results_length by exact Hn; lia).
    f_equal. cbn [skipn]. rewrite firstn_map.
    unfold fftfreq_results.
    rewrite firstn_app, length_map, length_seq, Nat.sub_diag.
    cbn [firstn]. rewrite app_nil_r.
    rewrite firstn_all2 by (rewrite length_map, length_seq; lia).
    unfold kept_freqs. now rewrite map_map.
Qed.

Lemma half_facts (x : nat) :
  (x = 2 * (x / 2) + x mod 2 /\ x mod 2 < 2)%nat.
Proof.
  split; [apply Nat.div_mod_eq | apply Nat.mod_upper_bound; lia].
Qed.

Lemma half_even (n : nat) :
  (1 <= n)%nat -> Nat.even n = true -> ((n - 1) / 2 + 1 = n / 2)%nat.
Proof.
  intros H E. apply Nat.even_spec in E as [m E].
  pose proof (half_facts n). pose proof (half_facts (n - 1)). lia.
Qed.

Lemma half_odd (n : nat) :
  Nat.odd n = true ->
  ((n - 1) / 2 + 1 = (n + 1) / 2 /\ (n + 1) / 2 = S (n / 2) /\ 1 <= n)%nat.
Proof.
  intros E. apply Nat.odd_spec in E as [m E].
  pose proof (half_facts n). pose proof (half_facts (n - 1)).
  pose proof (half_facts (n + 1)). lia.
Qed.

Lemma kept_freqs_length (n : nat) :
  length (kept_freqs n) = ((n - 1) / 2 + 1)%nat.
Proof. unfold kept_freqs. now rewrite length_map, length_seq. Qed.

Lemma kept_freqs_nth (n i : nat) (d : Q) :
  (i < (n - 1) / 2 + 1)%nat ->
  nth i (kept_freqs n) d =
  (inject_Z (Z.of_nat i) * (1 / (inject_Z (Z.of_nat n) * sample_interval)))%Q.
Proof.
  intros H. unfold kept_freqs.
  rewrite (nth_map_in _ _ i 0%nat d) by now rewrite length_seq.
  now rewrite seq_nth.
Qed.

Lemma scaled_seq_sorted (val : Q) (s m : nat) :
  (0 < val)%Q ->
  StronglySorted Qlt
    (map (fun k => (inject_Z (Z.of_nat k) * val)%Q) (seq s m)).
Proof.
  intros Hv. revert s. induction m as [|m IH]; intros s; [constructor|].
  cbn [seq map]. constructor; [apply IH|].
  apply Forall_forall. intros q Hq.
  apply in_map_iff in Hq as (k & <- & Hk). apply in_seq in Hk.
  apply scaled_lt; [exact Hv | lia].
Qed.

Lemma kept_freqs_sorted (n : nat) :
  (1 <= n)%nat -> StronglySorted Qlt (kept_freqs n).
Proof. intros H. apply scaled_seq_sorted. now apply val_pos. Qed.

(** ** The Fourier transform *)

Lemma channel_power_length (row : list Z) (m : nat) :
  length (channel_power row m) = m.
Proof. unfold channel_power. now rewrite length_map, length_seq. Qed.

(** ** FFTView.load_data *)

Lemma firstn_seq_min (k s n : nat) :
  firstn k (seq s n) = seq s (Nat.min k n).
Proof.
  revert k s. induction n as [|n IH]; intros k s.
  - rewrite Nat.min_0_r. now destruct k.
  - destruct k as [|k]; [reflexivity|].
    cbn [seq firstn Nat.min]. now rewrite IH.
Qed.

Lemma FFTView_load_channel_run (samples0 : list (list Z)) (m i : nat)
      (self : FFTView) :
  (i < length samples0)%nat ->
  (1 <= length (nth i samples0 []))%nat ->
  (m <= length (nth i samples0 []))%nat ->
  FFTView_load_channel samples0 (seq 0 m) (Z.of_nat i) self =
  (fft_set_fft (fft self ++ [channel_power (nth i samples0 []) m]) self,
   [], Ok tt).
Proof.
  intros Hi H1 Hm. unfold FFTView_load_channel.
  rewrite (getitemZ_of_nat samples0 i [] Hi), bind_lift_ok.
  set (row := nth i samples0 []) in *.
  destruct row as [|v row'] eqn:E; [cbn in H1; lia|].
  cbn [np_fft]. rewrite bind_lift_ok.
  rewrite take_seq by (rewrite length_map, length_seq; lia).
  rewrite bind_lift_ok. unfold modify.
  cbn [skipn]. rewrite firstn_map, firstn_seq_min.
  replace (Nat.min m (length (v :: row'))) with m by lia.
  unfold channel_power. now rewrite map_map.
Qed.

Lemma FFTView_load_loop (samples0 : list (list Z)) (m : nat) (ids : list nat)
      (self : FFTView) :
  (forall i, In i ids ->
     (i < length samples0)%nat /\ (1 <= length (nth i samples0 []))%nat /\
     (m <= length (nth i samples0 []))%nat) ->
  for_each (map Z.of_nat ids) (FFTView_load_channel samples0 (seq 0 m)) self =
  (fft_set_fft
     (fft self ++ map (fun i => channel_power (nth i samples0 []) m) ids) self,
   [], Ok tt).
Proof.
  revert self. induction ids as [|i ids IH]; intros self H.
  - cbn [map for_each]. unfold ret, fft_set_fft.
    rewrite app_nil_r. now destruct self.
  - cbn [map for_each]. unfold bind at 1.
    destruct (H i (or_introl eq_refl)) as (H1 & H2 & H3).
    rewrite (FFTView_load_channel_run samples0 m i self H1 H2 H3).
    rewrite IH by (intros; apply H; now right).
    cbn [app]. unfold fft_set_fft. cbn [fft freq fft_chan].
    now rewrite <- app_assoc.
Qed.

(** On an array with N >= 1 timesteps, [load_data] prints the shape,
    returns, and leaves the frequencies for N timesteps and the power of
    each channel at those frequencies *)
Lemma FFTView_load_data_run (ts : list (list Z)) (smp : list (list (list Z)))
      (N : nat) (self : FFTView) :
  (1 <= N)%nat ->
  has_shape3 4 128 N smp = true ->
  FFTView_ok self ->
  FFTView_load_data ts smp self =
  ({| fft_chan := fft_chan self;
      freq := kept_freqs N;
      fft := map (fun row => channel_power row ((N - 1) / 2 + 1)) (femb0 smp) |},
   [EvPrint [PShape (shape_of smp)]], Ok tt).
Proof.
  intros HN Hs Hok.
  destruct (has_shape3_femb0 _ _ _ _ Hs) as (f0 & G & E & S2).
  destruct (has_shape2_spec _ _ _ S2) as [L R].
  pose proof (halves N HN) as Hh.
  assert (L0 : length (nth 0 f0 []) = N) by (apply R, nth_In; lia).
  destruct (fftfreq_kept N HN) as (fr & F1 & F2 & F3).
  unfold FFTView_load_data, femb0, print. rewrite bind_emit, G, E, bind_lift_ok.
  rewrite (getitem_nth f0 0 []) by lia. rewrite bind_lift_ok.
  rewrite L0, F1, bind_lift_ok. cbv zeta. rewrite F2, F3, bind_lift_ok.
  rewrite !bind_modify, bind_get.
  cbn [fft_set_fft fft_chan freq fft]. rewrite Hok, np_arange_seq.
  rewrite FFTView_load_loop.
  - unfold state_of, events_of, outcome_of. cbn [fst snd fft_set_fft fft freq fft_chan app].
    rewrite <- L at 1.
    rewrite <- (map_nth_seq f0 []) at 2. rewrite map_map. reflexivity.
  - intros i Hi. apply in_seq in Hi.
    assert (Li : length (nth i f0 []) = N) by (apply R, nth_In; lia).
    rewrite Li. lia.
Qed.

(** C10. Spectrum view: for odd N >= 1 and a (4,128,N) array,
    [load_data] returns with a frequency axis of (N+1)//2 entries, one
    more than N//2, whose first entry is frequency 0, and with a spectrum
    of shape (128, (N+1)//2). *)
Theorem FFTView_load_data_odd (N : nat) (ts : list (list Z))
        (smp : list (list (list Z))) (self : FFTView) :
  Nat.odd N = true ->
  has_shape3 4 128 N smp = true ->
  FFTView_ok self ->
  let r := FFTView_load_data ts smp self in
  outcome_of r = Ok tt /\
  length (freq (state_of r)) = ((N + 1) / 2)%nat /\
  ((N + 1) / 2 = S (N / 2))%nat /\
  (nth 0 (freq (state_of r)) 1 == 0)%Q /\
  has_shape2 128 ((N + 1) / 2) (fft (state_of r)) = true.
Proof.
  intros Ho Hs Hok r. subst r.
  destruct (half_odd N Ho) as (Hh & Hs1 & H1).
  rewrite (FFTView_load_data_run ts smp N self H1 Hs Hok).
  unfold state_of, outcome_of. cbn [fst snd freq fft].
  split; [reflexivity|]. split; [now rewrite kept_freqs_length|].
  split; [exact Hs1|]. split.
  - rewrite kept_freqs_nth by lia. apply Qmult_0_l.
  - destruct (has_shape3_femb0 _ _ _ _ Hs) as (f0 & _ & E & S2).
    destruct (has_shape2_spec _ _ _ S2) as [L _].
    unfold femb0, has_shape2. rewrite E, length_map, L. cbn [Nat.eqb andb].
    apply forallb_forall. intros row Hr.
    apply in_map_iff in Hr as (x & <- & _).
    rewrite channel_power_length, Hh. apply Nat.eqb_refl.
Qed.

Lemma FFTView_load_data_odd_witness :
  Nat.odd 3 = true /\
  has_shape3 4 128 3 samples_odd = true /\
  FFTView_ok FFTView_init /\
  length (freq (state_of (FFTView_load_data [] samples_odd FFTView_init)))
  = 2%nat.
Proof.
  assert (Ho : Nat.odd 3 = true) by reflexivity.
  assert (S3 : has_shape3 4 128 3 samples_odd = true) by reflexivity.
  assert (OK : FFTView_ok FFTView_init) by reflexivity.
  split; [exact Ho | split; [exact S3 | split; [exact OK |]]].
  exact (proj1 (proj2
    (FFTView_load_data_odd 3 [] samples_odd FFTView_init Ho S3 OK))).
Defined.

(** ** Decoding *)

Lemma chunk_length {A} (w n : nat) (l : list A) : length (chunk w n l) = n.
Proof.
  revert l. induction n as [|n IH]; intros l; [reflexivity|].
  cbn [chunk length]. now rewrite IH.
Qed.

Lemma chunk_widths {A} (w n : nat) (l : list A) :
  length l = (n * w)%nat ->
  forallb (fun c => (length c =? w)%nat) (chunk w n l) = true.
Proof.
  revert l. induction n as [|n IH]; intros l H; [reflexivity|].
  cbn [chunk forallb]. apply andb_true_intro. split.
  - apply Nat.eqb_eq. rewrite length_firstn. lia.
  - apply IH. rewrite length_skipn. lia.
Qed.

Lemma reshape2_shape (r c : nat) (a : list Z) (m : list (list Z)) :
  reshape2 r c a = Ok m -> has_shape2 r c m = true.
Proof.
  unfold reshape2, has_shape2.
  destruct (Nat.eqb_spec (length a) (r * c)) as [E|]; [|discriminate].
  intros [= <-]. rewrite chunk_length, Nat.eqb_refl. now apply chunk_widths.
Qed.

Lemma reshape3_shape (p r c : nat) (a : list Z) (t : list (list (list Z))) :
  reshape3 p r c a = Ok t -> has_shape3 p r c t = true.
Proof.
  unfold reshape3, has_shape3.
  destruct (Nat.eqb_spec (length a) (p * r * c)) as [E|]; [|discriminate].
  intros [= <-]. rewrite length_map, chunk_length, Nat.eqb_refl. cbn [andb].
  assert (W : forallb (fun s => (length s =? r * c)%nat) (chunk (r * c) p a) = true)
    by (apply chunk_widths; lia).
  rewrite forallb_forall in W. apply forallb_forall. intros m Hm.
  apply in_map_iff in Hm as (s & <- & Hs).
  specialize (W s Hs). apply Nat.eqb_eq in W.
  unfold has_shape2. rewrite chunk_length, Nat.eqb_refl.
  apply chunk_widths. lia.
Qed.

(** A payload whose length is not [w] bytes times the number of elements
    asked for cannot be decoded: either [frombuffer] or [reshape] raises *)
Lemma decode_length_mismatch {T} (w k : nat) (buf : list byte)
      (reshape : list Z -> result T) :
  (0 < w)%nat ->
  (forall a, length a <> k -> reshape a = Raise ValueError) ->
  length buf <> (w * k)%nat ->
  (flat <- np_frombuffer w buf ;; reshape flat)%res = Raise ValueError.
Proof.
  intros Hw Hr Hl. unfold np_frombuffer.
  destruct (Nat.eqb_spec (length buf mod w) 0) as [E|]; [|reflexivity].
  cbn [rbind]. apply Hr. rewrite length_map, chunk_length.
  pose proof (Nat.div_mod_eq (length buf) w) as D. rewrite E in D.
  intros C. rewrite C in D. lia.
Qed.

Lemma reshape3_mismatch (p r c : nat) (a : list Z) :
  length a <> (p * r * c)%nat -> reshape3 p r c a = Raise ValueError.
Proof.
  intros H. unfold reshape3.
  now destruct (Nat.eqb_spec (length a) (p * r * c)).
Qed.

Lemma reshape2_mismatch (r c : nat) (a : list Z) :
  length a <> (r * c)%nat -> reshape2 r c a = Raise ValueError.
Proof.
  intros H. unfold reshape2.
  now destruct (Nat.eqb_spec (length a) (r * c)).
Qed.

(** ** acquire_data *)

(** The head of every acquisition: two prints around the command sent *)
Lemma acquire_data_unfold (rep : DeframedDaqSpy) (w : FEMB0Diagnostics) :
  acquire_data rep w =
  let rest :=
    (smp <- lift (flat <- np_frombuffer 2 (deframed_samples rep) ;;
                  reshape3 4 128 (num_samples rep) flat)%res ;;
     modify (set_samples smp) ;;
     ts <- lift (flat <- np_frombuffer 8 (deframed_timestamps rep) ;;
                 reshape2 2 (num_samples rep) flat)%res ;;
     modify (set_timestamps ts) ;;
     each_view (load_data ts smp) ;;
     plot)%eff w in
  (state_of rest, acquire_prologue rep ++ events_of rest, outcome_of rest).
Proof.
  unfold acquire_data, print, send_command.
  repeat (rewrite bind_emit; cbv beta zeta).
  unfold state_of, events_of, outcome_of. cbn [fst snd]. reflexivity.
Qed.

(** C7. Acquisition cycle: when the samples payload is not 2 bytes times
    4*128*N long, or the timestamps payload not 8 bytes times 2*N (N the
    reported sample count), [acquire_data] raises [ValueError] while
    decoding: the views are left as they were, and nothing was emitted
    but the start-of-cycle prints and the command: no view printed or
    drew anything. *)
Theorem acquire_data_decode_error (rep : DeframedDaqSpy) (w : FEMB0Diagnostics) :
  length (deframed_samples rep) <> (2 * (4 * 128 * num_samples rep))%nat \/
  length (deframed_timestamps rep) <> (8 * (2 * num_samples rep))%nat ->
  let r := acquire_data rep w in
  outcome_of r = Raise ValueError /\
  views (state_of r) = views w /\
  events_of r = acquire_prologue rep /\
  forall v, ~ In (EvDraw v) (events_of r).
Proof.
  intros H r. subst r. rewrite acquire_data_unfold. cbv zeta.
  assert (NoDraw : forall v, ~ In (EvDraw v) (acquire_prologue rep)).
  { intros v [C|[C|[C|[C|[]]]]]; discriminate C. }
  destruct (Nat.eq_dec (length (deframed_samples rep))
                       (2 * (4 * 128 * num_samples rep))) as [Es|Ns].
  - destruct H as [H|H]; [contradiction|].
    destruct (flat <- np_frombuffer 2 (deframed_samples rep) ;;
              reshape3 4 128 (num_samples rep) flat)%res as [smp|e] eqn:D.
    + rewrite bind_lift_ok, bind_modify.
      rewrite (decode_length_mismatch 8 (2 * num_samples rep)); try lia.
      * rewrite bind_lift_raise. unfold state_of, events_of, outcome_of.
        cbn [fst snd]. rewrite app_nil_r. repeat split; auto.
      * intros a Ha. now apply reshape2_mismatch.
    + exfalso. unfold np_frombuffer in D. rewrite Es in D.
      replace (2 * (4 * 128 * num_samples rep))%nat
        with ((4 * 128 * num_samples rep) * 2)%nat in D by lia.
      rewrite Nat.Div0.mod_mul, Nat.div_mul in D by lia.
      cbn [Nat.eqb rbind] in D. unfold reshape3 in D.
      rewrite length_map, chunk_length, Nat.eqb_refl in D. discriminate D.
  - rewrite (decode_length_mismatch 2 (4 * 128 * num_samples rep)); try lia.
    + rewrite bind_lift_raise. unfold state_of, events_of, outcome_of.
      cbn [fst snd]. rewrite app_nil_r. repeat split; auto.
    + intros a Ha. now apply reshape3_mismatch.
Qed.

Lemma acquire_data_decode_error_witness :
  (length (deframed_samples short_reply) <> (2 * (4 * 128 * num_samples short_reply))%nat \/
   length (deframed_timestamps short_reply) <> (8 * (2 * num_samples short_reply))%nat) /\
  outcome_of (acquire_data short_reply window0) = Raise ValueError /\
  views (state_of (acquire_data short_reply window0)) = views window0.
Proof.
  assert (H : length (deframed_samples short_reply)
              <> (2 * (4 * 128 * num_samples short_reply))%nat \/
              length (deframed_timestamps short_reply)
              <> (8 * (2 * num_samples short_reply))%nat).
  { left. vm_compute. lia. }
  split; [exact H|].
  destruct (acquire_data_decode_error short_reply window0 H) as (A & B & _).
  split; [exact A | exact B].
Defined.

(** ** Loading and drawing all views *)

Lemma plot_data_drawable (v : DataView) :
  drawable v = true -> plot_data v = (v, [EvDraw v], Ok tt).
Proof.
  destruct v as [h|m|f]; intros D; cbn [plot_data]; unfold on_view.
  - unfold Hist2DView_plot_data. now rewrite bind_get.
  - unfold MeanRMSView_plot_data. rewrite bind_get.
    cbn [drawable] in D. now rewrite D.
  - unfold FFTView_plot_data. now rewrite bind_get.
Qed.

Lemma for_views_plot (vs : list DataView) :
  forallb drawable vs = true ->
  for_views plot_data vs = (vs, map EvDraw vs, Ok tt).
Proof.
  induction vs as [|v vs IH]; intros D; [reflexivity|].
  cbn [forallb] in D. apply andb_prop in D as [Dv D].
  cbn [for_views]. rewrite (plot_data_drawable v Dv), (IH D). reflexivity.
Qed.

Lemma for_views_load (ts : list (list Z)) (smp : list (list (list Z)))
      (N : nat) (h : Hist2DView) (m : MeanRMSView) (f : FFTView) :
  (1 <= N)%nat ->
  has_shape3 4 128 N smp = true ->
  Hist2DView_ok h -> FFTView_ok f ->
  for_views (load_data ts smp) [VHist2D h; VMeanRMS m; VFFT f] =
  (loaded_views smp N h m f, [EvPrint [PShape (shape_of smp)]], Ok tt).
Proof.
  intros HN Hs Hh Hf.
  destruct (has_shape3_femb0 _ _ _ _ Hs) as (f0 & G & E & _).
  cbn [for_views load_data]. unfold on_view.
  rewrite (Hist2DView_load_data_run ts smp N h Hs Hh).
  rewrite (MeanRMSView_load_data_run ts smp f0 m G).
  rewrite (FFTView_load_data_run ts smp N f HN Hs Hf).
  unfold loaded_views, femb0. rewrite E. reflexivity.
Qed.

Lemma loaded_views_drawable (smp : list (list (list Z))) (N : nat)
      (h : Hist2DView) (m : MeanRMSView) (f : FFTView) :
  has_shape3 4 128 N smp = true ->
  MeanRMSView_ok m ->
  forallb drawable (loaded_views smp N h m f) = true.
Proof.
  intros Hs Hm.
  destruct (has_shape3_femb0 _ _ _ _ Hs) as (f0 & _ & E & S2).
  destruct (has_shape2_spec _ _ _ S2) as [L _].
  unfold loaded_views, femb0. rewrite E.
  cbn [forallb drawable mean rms mr_chan]. rewrite Hm, !length_map, L.
  reflexivity.
Qed.

(** A cycle whose payloads decode, with at least one timestep, on a
    window holding the three views: the arrays are stored, every view is
    loaded, every view is drawn *)
Lemma acquire_data_run (rep : DeframedDaqSpy) (w : FEMB0Diagnostics)
      (smp : list (list (list Z))) (ts : list (list Z))
      (h : Hist2DView) (m : MeanRMSView) (f : FFTView) :
  (flat <- np_frombuffer 2 (deframed_samples rep) ;;
   reshape3 4 128 (num_samples rep) flat)%res = Ok smp ->
  (flat <- np_frombuffer 8 (deframed_timestamps rep) ;;
   reshape2 2 (num_samples rep) flat)%res = Ok ts ->
  (1 <= num_samples rep)%nat ->
  views w = [VHist2D h; VMeanRMS m; VFFT f] ->
  Hist2DView_ok h -> MeanRMSView_ok m -> FFTView_ok f ->
  acquire_data rep w =
  (set_views (loaded_views smp (num_samples rep) h m f)
     (set_timestamps ts (set_samples smp w)),
   acquire_prologue rep
   ++ EvPrint [PShape (shape_of smp)]
      :: map EvDraw (loaded_views smp (num_samples rep) h m f),
   Ok tt).
Proof.
  intros Ds Dt HN Hv Hh Hm Hf.
  assert (Hs : has_shape3 4 128 (num_samples rep) smp = true).
  { unfold rbind in Ds. destruct (np_frombuffer 2 (deframed_samples rep));
      [|discriminate]. now apply reshape3_shape in Ds. }
  rewrite acquire_data_unfold. cbv zeta.
  rewrite Ds, bind_lift_ok, bind_modify, Dt, bind_lift_ok, bind_modify.
  unfold bind, each_view, plot, each_view.
  cbn [views set_timestamps set_samples]. rewrite Hv.
  rewrite (for_views_load ts smp (num_samples rep) h m f HN Hs Hh Hf).
  cbn [views set_views].
  rewrite (for_views_plot _ (loaded_views_drawable smp _ h m f Hs Hm)).
  unfold state_of, events_of, outcome_of. cbn [fst snd app set_views views
    config pulser_button continuious_button timer samples timestamps
    set_timestamps set_samples].
  reflexivity.
Qed.

Lemma initial_window (path : string) :
  FEMB0Diagnostics_init path =
  ({| config := path; views := initial_views;
      pulser_button := "Enable Pulser"; continuious_button := "Continuous";
      timer := {| timer_active := false; timer_interval := 0;
                  timer_single_shot := false |};
      samples := None; timestamps := None |},
   map EvDraw initial_views, Ok tt).
Proof.
  unfold FEMB0Diagnostics_init, plot, each_view. cbn [views].
  change [VHist2D Hist2DView_init; VMeanRMS MeanRMSView_init; VFFT FFTView_init]
    with initial_views.
  rewrite for_views_plot by reflexivity. reflexivity.
Qed.

Lemma failed_reply_decodes :
  (flat <- np_frombuffer 2 (deframed_samples failed_reply) ;;
   reshape3 4 128 (num_samples failed_reply) flat)%res = Ok failed_samples /\
  (flat <- np_frombuffer 8 (deframed_timestamps failed_reply) ;;
   reshape2 2 (num_samples failed_reply) flat)%res = Ok failed_timestamps.
Proof. split; vm_compute; reflexivity. Qed.

Lemma window0_views : views window0 = initial_views.
Proof. unfold window0. now rewrite initial_window. Qed.

Lemma initial_views_ok :
  Hist2DView_ok Hist2DView_init /\ MeanRMSView_ok MeanRMSView_init /\
  FFTView_ok FFTView_init.
Proof. repeat split. Qed.

Lemma initial_views_rows (v : DataView) :
  In v initial_views -> hist_rows v <> 128%nat.
Proof.
  intros [<-|[<-|[<-|[]]]].
  - unfold hist_rows, Hist2DView_init, counts, np_full2.
    rewrite repeat_length. lia.
  - unfold hist_rows. lia.
  - unfold hist_rows. lia.
Qed.

Lemma loaded_views_rows (smp : list (list (list Z))) (N : nat)
      (h : Hist2DView) (m : MeanRMSView) (f : FFTView) :
  has_shape3 4 128 N smp = true ->
  exists v rest, loaded_views smp N h m f = v :: rest /\ hist_rows v = 128%nat.
Proof.
  intros Hs.
  destruct (has_shape3_femb0 _ _ _ _ Hs) as (f0 & _ & E & S2).
  destruct (has_shape2_spec _ _ _ S2) as [L _].
  unfold loaded_views. do 2 eexists. split; [reflexivity|].
  unfold hist_rows, hist_set_counts, counts, femb0.
  now rewrite length_map, E.
Qed.

(** C1 (as the specification words it) fails: a reply with
    [success = false] and well-formed payloads does not abort the cycle.
    On the initial window the call returns normally, the sample and
    timestamp arrays are stored, the views hold new derived state, and a
    view with that new state is drawn. *)
Lemma acquire_data_failed_reply_counterexample :
  success failed_reply = false /\
  outcome_of (acquire_data failed_reply window0) = Ok tt /\
  samples (state_of (acquire_data failed_reply window0)) <> samples window0 /\
  timestamps (state_of (acquire_data failed_reply window0)) <> timestamps window0 /\
  views (state_of (acquire_data failed_reply window0)) <> views window0 /\
  exists v, In v (views (state_of (acquire_data failed_reply window0))) /\
            ~ In v (views window0) /\
            In (EvDraw v) (events_of (acquire_data failed_reply window0)).
Proof.
  destruct failed_reply_decodes as [Ds Dt].
  destruct initial_views_ok as (Hh & Hm & Hf).
  assert (HN : (1 <= num_samples failed_reply)%nat) by (cbn [num_samples failed_reply]; lia).
  assert (Hs : has_shape3 4 128 4 failed_samples = true) by reflexivity.
  pose proof (acquire_data_run failed_reply window0 failed_samples
                failed_timestamps Hist2DView_init MeanRMSView_init FFTView_init
                Ds Dt HN window0_views Hh Hm Hf) as Run.
  destruct (loaded_views_rows failed_samples 4 Hist2DView_init MeanRMSView_init
              FFTView_init Hs) as (v & rest & Ev & Rv).
  change (num_samples failed_reply) with 4%nat in Run.
  rewrite Run, Ev. unfold state_of, events_of, outcome_of.
  cbn [fst snd samples timestamps views set_views set_timestamps set_samples].
  rewrite window0_views.
  assert (S0 : samples window0 = None /\ timestamps window0 = None).
  { unfold window0. rewrite initial_window. split; reflexivity. }
  destruct S0 as [-> ->].
  split; [reflexivity|]. split; [reflexivity|].
  split; [intros C; inversion C|]. split; [intros C; inversion C|]. split.
  - intros C. apply (initial_views_rows v); [|exact Rv].
    rewrite <- C. now left.
  - exists v. split; [now left|]. split.
    + intros C. now apply (initial_views_rows v).
    + apply in_or_app. right. right. now left.
Qed.

(** ** What the slots leave alone *)

Lemma preserves_bind {S A B} (P : S -> Prop) (m : Eff S A) (k : A -> Eff S B) :
  preserves P m -> (forall a, preserves P (k a)) -> preserves P (bind m k).
Proof.
  intros Hm Hk s Hs. unfold bind. specialize (Hm s Hs). unfold state_of in *.
  destruct (m s) as [[s1 ev1] [a|e]]; cbn [fst] in *; [|exact Hm].
  specialize (Hk a s1 Hm). unfold state_of in Hk.
  destruct (k a s1) as [[s2 ev2] r]. exact Hk.
Qed.

Lemma preserves_emit {S} (P : S -> Prop) (e : event) : preserves P (emit e).
Proof. intros s Hs. exact Hs. Qed.

Lemma preserves_lift {S A} (P : S -> Prop) (r : result A) : preserves P (lift r).
Proof. intros s Hs. exact Hs. Qed.

Lemma preserves_get {S} (P : S -> Prop) : preserves P (@get S).
Proof. intros s Hs. exact Hs. Qed.

Lemma preserves_modify {S} (P : S -> Prop) (f : S -> S) :
  (forall s, P s -> P (f s)) -> preserves P (modify f).
Proof. intros H s Hs. now apply H. Qed.

Lemma preserves_each_view (P : FEMB0Diagnostics -> Prop) (m : Eff DataView unit) :
  stable P -> preserves P (each_view m).
Proof.
  intros St w Hw. unfold each_view, state_of.
  destruct (for_views m (views w)) as [[vs ev] r]. cbn [fst].
  now apply (St w Hw).
Qed.

Lemma acquire_data_preserves (P : FEMB0Diagnostics -> Prop) (rep : DeframedDaqSpy) :
  stable P -> preserves P (acquire_data rep).
Proof.
  intros St. unfold acquire_data, print, send_command, plot.
  repeat (first
    [ apply preserves_bind; [|intros ?]
    | apply preserves_emit | apply preserves_lift
    | apply preserves_each_view; exact St
    | apply preserves_modify; intros s Hs; now apply (St s Hs) ]).
Qed.

Lemma toggle_pulser_preserves (P : FEMB0Diagnostics -> Prop) :
  stable P -> preserves P toggle_pulser.
Proof.
  intros St. unfold toggle_pulser, print, send_command.
  apply preserves_bind; [apply preserves_get|]. intros self.
  destruct (String.eqb (pulser_button self) "Enable Pulser");
    repeat (first
      [ apply preserves_bind; [|intros ?]
      | apply preserves_emit
      | apply preserves_modify; intros s Hs; now apply (St s Hs) ]).
Qed.

Lemma configure_wib_preserves (accepts : string -> json -> bool)
      (json_load : list byte -> result json)
      (P : FEMB0Diagnostics -> Prop) (fs : string -> option (list byte))
      (ok : bool) :
  preserves P (configure_wib accepts json_load fs ok).
Proof.
  unfold configure_wib, print, send_command.
  apply preserves_bind; [apply preserves_emit|]. intros _.
  apply preserves_bind; [apply preserves_get|]. intros self.
  destruct (load_config json_load fs (config self));
    repeat (first
      [ apply preserves_bind; [|intros ?]
      | apply preserves_emit | apply preserves_lift ]).
Qed.

Lemma continuous_inv_stable : stable continuous_inv.
Proof. intros w H. split; [|split; [|split]]; intros; exact H. Qed.

Lemma toggle_continuous_run (w : FEMB0Diagnostics) :
  toggle_continuous w =
  if String.eqb (continuious_button w) "Continuous"
  then (set_timer (QTimer_start 500 (timer w)) (set_continuious_text "Stop" w),
        [EvPrint [PStr "Starting continuous acquisition"]], Ok tt)
  else (set_timer (QTimer_stop (timer w)) (set_continuious_text "Continuous" w),
        [], Ok tt).
Proof.
  unfold toggle_continuous. rewrite bind_get.
  destruct (String.eqb (continuious_button w) "Continuous").
  - unfold print. now rewrite bind_modify, bind_emit.
  - now rewrite bind_modify.
Qed.

Lemma toggle_continuous_preserves : preserves continuous_inv toggle_continuous.
Proof.
  intros w [Hs H]. rewrite toggle_continuous_run.
  destruct H as [(Hb & Ha)|(Hb & Ha & Hi)]; rewrite Hb; cbn [String.eqb];
    unfold state_of, continuous_inv; cbn; auto.
Qed.

Lemma reachable_continuous_inv (accepts : string -> json -> bool)
      (json_load : list byte -> result json) (w : FEMB0Diagnostics) :
  reachable accepts json_load w -> continuous_inv w.
Proof.
  induction 1 as [path|w a Hw IH].
  - rewrite initial_window. unfold state_of, continuous_inv. cbn. auto.
  - destruct a as [fs ok| |rep| |rep]; cbn [slot].
    + now apply configure_wib_preserves.
    + now apply toggle_pulser_preserves; [apply continuous_inv_stable|].
    + now apply acquire_data_preserves; [apply continuous_inv_stable|].
    + now apply toggle_continuous_preserves.
    + destruct (timer_active (timer w)); [|exact IH].
      now apply acquire_data_preserves; [apply continuous_inv_stable|].
Qed.

(** C6. Continuous mode: the window starts in Idle with the button
    labelled "Continuous"; on every window that can be reached, the
    Continuous action takes Idle to ContinuousPolling, starting the
    repeating timer with a period of 500 ms and relabelling the button
    "Stop", and takes ContinuousPolling to Idle, stopping the timer and
    relabelling the button "Continuous"; starting and then stopping from
    the initial window ends in Idle with the timer inactive. *)
Theorem toggle_continuous_state_machine (accepts : string -> json -> bool)
        (json_load : list byte -> result json) :
  (forall path,
     let w0 := state_of (FEMB0Diagnostics_init path) in
     mode_of w0 = Idle /\ continuious_button w0 = "Continuous"%string) /\
  (forall w, reachable accepts json_load w ->
     let r := toggle_continuous w in
     outcome_of r = Ok tt /\
     (mode_of w = Idle ->
        continuious_button w = "Continuous"%string /\
        mode_of (state_of r) = ContinuousPolling /\
        timer (state_of r) =
          {| timer_active := true; timer_interval := 500;
             timer_single_shot := false |} /\
        continuious_button (state_of r) = "Stop"%string) /\
     (mode_of w = ContinuousPolling ->
        continuious_button w = "Stop"%string /\
        mode_of (state_of r) = Idle /\
        timer_active (timer (state_of r)) = false /\
        continuious_button (state_of r) = "Continuous"%string)) /\
  (forall path,
     let w0 := state_of (FEMB0Diagnostics_init path) in
     let w2 := state_of (toggle_continuous (state_of (toggle_continuous w0))) in
     mode_of w2 = Idle /\ timer_active (timer w2) = false /\
     continuious_button w2 = "Continuous"%string).
Proof.
  split; [|split].
  - intros path w0. subst w0. rewrite initial_window. split; reflexivity.
  - intros w Hw r. subst r.
    destruct (reachable_continuous_inv accepts json_load w Hw)
      as [Hs [(Hb & Ha)|(Hb & Ha & Hi)]];
      rewrite toggle_continuous_run, Hb.
    + rewrite String.eqb_refl.
      unfold state_of, outcome_of, mode_of, QTimer_start.
      cbn [fst snd timer set_timer set_continuious_text continuious_button
           timer_active].
      rewrite Ha, Hs.
      repeat split; intros; try reflexivity; try discriminate.
    + change ("Stop" =? "Continuous")%string with false.
      unfold state_of, outcome_of, mode_of, QTimer_stop.
      cbn [fst snd timer set_timer set_continuious_text continuious_button
           timer_active].
      rewrite Ha.
      repeat split; intros; try reflexivity; try discriminate.
  - intros path w0 w2. subst w0 w2. rewrite initial_window.
    unfold state_of. cbn [fst]. rewrite !toggle_continuous_run.
    cbn. repeat split.
Qed.

Lemma toggle_continuous_state_machine_witness :
  reachable example_accepts example_json_load window0 /\
  mode_of window0 = Idle /\
  mode_of (state_of (toggle_continuous window0)) = ContinuousPolling.
Proof.
  assert (R : reachable example_accepts example_json_load window0)
    by apply reach_init.
  assert (I : mode_of window0 = Idle)
    by (unfold window0; rewrite initial_window; reflexivity).
  split; [exact R | split; [exact I|]].
  destruct (toggle_continuous_state_machine example_accepts example_json_load)
    as (_ & T & _).
  destruct (T window0 R) as (_ & Start & _).
  exact (proj1 (proj2 (Start I))).
Defined.

(** ** configure_wib *)

Section ConfigureProperties.

Variable accepts : string -> json -> bool.
Variable json_load : list byte -> result json.

Lemma copy_field_ok (fc : json) (name : string) :
  has_field accepts fc name = true ->
  copy_field accepts fc name = Ok (member fc name) /\
  subscript_key fc name = Ok (member fc name).
Proof.
  unfold has_field, copy_field, member, assign.
  destruct (subscript_key fc name) as [v|e]; [|discriminate].
  intros H. cbn [rbind]. now rewrite H.
Qed.

Lemma femb_conf_of_ok (cfg : json) (en fcs : list json) (i : nat) :
  subscript_key cfg "enabled_fembs" = Ok (JArr en) ->
  subscript_key cfg "femb_configs" = Ok (JArr fcs) ->
  (i < length en)%nat -> (i < length fcs)%nat ->
  forallb (fun e => is_bool e && accepts "enabled" e) en = true ->
  forallb (fun fc => forallb (has_field accepts fc) tuning_fields) fcs = true ->
  femb_conf_of accepts cfg i = Ok (expected_femb (nth i en JNull) (nth i fcs JNull)).
Proof.
  intros He Hf Li Lf Be Bf.
  rewrite forallb_forall in Be, Bf.
  assert (Ae : accepts "enabled" (nth i en JNull) = true).
  { specialize (Be (nth i en JNull) (nth_In en JNull Li)).
    now apply andb_prop in Be. }
  specialize (Bf (nth i fcs JNull) (nth_In fcs JNull Lf)).
  rewrite forallb_forall in Bf.
  assert (F : forall name, In name tuning_fields ->
            copy_field accepts (nth i fcs JNull) name
            = Ok (member (nth i fcs JNull) name)).
  { intros name Hn. exact (proj1 (copy_field_ok _ _ (Bf name Hn))). }
  unfold femb_conf_of. rewrite He, Hf. cbn [rbind subscript_idx].
  rewrite (getitem_nth en i JNull Li), (getitem_nth fcs i JNull Lf).
  cbn [rbind]. unfold assign at 1. rewrite Ae. cbn [rbind].
  rewrite !F by (unfold tuning_fields; cbn [In]; tauto).
  reflexivity.
Qed.

Lemma configure_wib_unfold (fs : string -> option (list byte)) (ok : bool)
      (w : FEMB0Diagnostics) :
  configure_wib accepts json_load fs ok w =
  match load_config json_load fs (config w) with
  | Raise e =>
      (w, [EvPrint [PStr "Loading config"];
           EvPrint [PStr "Failed to load config:"; PExn e]], Ok tt)
  | Ok cfg =>
      match build_request accepts cfg with
      | Raise e =>
          (w, [EvPrint [PStr "Loading config"];
               EvPrint [PStr "Configuring FEMBs"]], Raise e)
      | Ok req =>
          (w, [EvPrint [PStr "Loading config"];
               EvPrint [PStr "Configuring FEMBs"];
               EvPrint [PStr "Sending ConfigureWIB command"];
               EvSend (CmdConfigureWIB req);
               EvPrint [PStr "Successful:"; PBool ok]], Ok tt)
      end
  end.
Proof.
  unfold configure_wib, print, send_command.
  rewrite bind_emit, bind_get.
  destruct (load_config json_load fs (config w)) as [cfg|e]; [|reflexivity].
  rewrite bind_emit.
  destruct (build_request accepts cfg) as [req|e].
  - rewrite bind_lift_ok. repeat (rewrite bind_emit; cbv beta). reflexivity.
  - rewrite bind_lift_raise. reflexivity.
Qed.

(** C8. Configure: for a well-formed configuration (boolean [cold], four
    boolean [enabled_fembs], four [femb_configs] records) the action
    builds one ConfigureWIB request and sends it exactly once; its [cold]
    is the input's, it has exactly 4 per-sub-unit records, and record i
    has [enabled = enabled_fembs[i]] and each of the twelve tuning fields
    equal to the field of that name of [femb_configs[i]]. *)
Theorem configure_wib_builds_request (fs : string -> option (list byte))
        (ok : bool) (w : FEMB0Diagnostics) (bytes : list byte) (cfg : json) :
  fs (config w) = Some bytes ->
  json_load bytes = Ok cfg ->
  well_formed accepts cfg = true ->
  exists b en fcs req,
    subscript_key cfg "cold" = Ok (JBool b) /\
    subscript_key cfg "enabled_fembs" = Ok (JArr en) /\
    subscript_key cfg "femb_configs" = Ok (JArr fcs) /\
    configure_wib accepts json_load fs ok w =
      (w, [EvPrint [PStr "Loading config"];
           EvPrint [PStr "Configuring FEMBs"];
           EvPrint [PStr "Sending ConfigureWIB command"];
           EvSend (CmdConfigureWIB req);
           EvPrint [PStr "Successful:"; PBool ok]], Ok tt) /\
    cold req = JBool b /\
    length (fembs req) = 4%nat /\
    forall i, (i < 4)%nat ->
      nth i (fembs req) (expected_femb JNull JNull) =
        expected_femb (nth i en JNull) (nth i fcs JNull) /\
      enabled (nth i (fembs req) (expected_femb JNull JNull)) = nth i en JNull /\
      forall name, In name tuning_fields ->
        subscript_key (nth i fcs JNull) name = Ok (member (nth i fcs JNull) name).
Proof.
  intros Hfs Hload Hwf. unfold well_formed in Hwf.
  destruct (subscript_key cfg "cold") as [c|] eqn:Ec; [|discriminate].
  destruct (subscript_key cfg "enabled_fembs") as [[| | | | |en|]|] eqn:Ee;
    try discriminate.
  destruct (subscript_key cfg "femb_configs") as [[| | | | |fcs|]|] eqn:Ef;
    try discriminate.
  apply andb_prop in Hwf as [Hwf Bf]. apply andb_prop in Hwf as [Hwf Lfc].
  apply andb_prop in Hwf as [Hwf Be]. apply andb_prop in Hwf as [Hwf Len].
  apply andb_prop in Hwf as [Hb Ac].
  destruct c as [|b| | | | |]; try discriminate.
  apply Nat.eqb_eq in Len, Lfc.
  assert (FC : forall i, (i < 4)%nat ->
            femb_conf_of accepts cfg i
            = Ok (expected_femb (nth i en JNull) (nth i fcs JNull))).
  { intros i Hi. apply femb_conf_of_ok; auto; lia. }
  assert (B : build_request accepts cfg =
              Ok {| cold := JBool b;
                    fembs := map (fun i => expected_femb (nth i en JNull)
                                                         (nth i fcs JNull))
                                 (seq 0 4) |}).
  { unfold build_request. rewrite Ec. cbn [rbind]. unfold assign.
    rewrite Ac.
    cbn [rbind seq mapM]. rewrite !FC by lia. reflexivity. }
  exists b, en, fcs. eexists. split; [reflexivity|]. split; [reflexivity|].
  split; [reflexivity|]. split.
  - rewrite configure_wib_unfold. unfold load_config. rewrite Hfs, Hload, B.
    reflexivity.
  - cbn [cold fembs]. split; [reflexivity|]. split; [reflexivity|].
    intros i Hi.
    assert (N : nth i (map (fun i => expected_femb (nth i en JNull) (nth i fcs JNull))
                           (seq 0 4)) (expected_femb JNull JNull)
                = expected_femb (nth i en JNull) (nth i fcs JNull)).
    { rewrite (nth_map_in _ (seq 0 4) i 0%nat) by (cbn; lia).
      now rewrite seq_nth. }
    rewrite N. split; [reflexivity|]. split; [reflexivity|].
    intros name Hn.
    assert (Li : (i < length fcs)%nat) by lia.
    rewrite forallb_forall in Bf.
    specialize (Bf (nth i fcs JNull) (nth_In fcs JNull Li)).
    rewrite forallb_forall in Bf.
    exact (proj2 (copy_field_ok _ _ (Bf name Hn))).
Qed.

(** C9 (as the code has it). Configure: when the configuration file is
    missing or does not parse, the failure is printed, no command is
    built or sent, the window is unchanged and the action returns
    normally.  When the file parses but the request cannot be built from
    it (a missing or ill-typed field), nothing is reported and the
    exception leaves the action; still no command is sent and the window
    is unchanged. *)
Theorem configure_wib_failure (fs : string -> option (list byte)) (ok : bool)
        (w : FEMB0Diagnostics) :
  (fs (config w) = None ->
   configure_wib accepts json_load fs ok w =
     (w, [EvPrint [PStr "Loading config"];
          EvPrint [PStr "Failed to load config:"; PExn OSError]], Ok tt)) /\
  (forall bytes e,
     fs (config w) = Some bytes -> json_load bytes = Raise e ->
     configure_wib accepts json_load fs ok w =
       (w, [EvPrint [PStr "Loading config"];
            EvPrint [PStr "Failed to load config:"; PExn e]], Ok tt)) /\
  (forall bytes cfg e,
     fs (config w) = Some bytes -> json_load bytes = Ok cfg ->
     build_request accepts cfg = Raise e ->
     configure_wib accepts json_load fs ok w =
       (w, [EvPrint [PStr "Loading config"];
            EvPrint [PStr "Configuring FEMBs"]], Raise e)).
Proof.
  split; [|split].
  - intros H. rewrite configure_wib_unfold. unfold load_config. now rewrite H.
  - intros bytes e H1 H2. rewrite configure_wib_unfold. unfold load_config.
    now rewrite H1, H2.
  - intros bytes cfg e H1 H2 H3. rewrite configure_wib_unfold.
    unfold load_config. now rewrite H1, H2, H3.
Qed.

End ConfigureProperties.

Lemma configure_wib_builds_request_witness :
  fs_good (config window0) = Some [x01] /\
  example_json_load [x01] = Ok example_config /\
  well_formed example_accepts example_config = true /\
  exists req,
    events_of (configure_wib example_accepts example_json_load fs_good true window0)
    = [EvPrint [PStr "Loading config"];
       EvPrint [PStr "Configuring FEMBs"];
       EvPrint [PStr "Sending ConfigureWIB command"];
       EvSend (CmdConfigureWIB req);
       EvPrint [PStr "Successful:"; PBool true]] /\
    length (fembs req) = 4%nat.
Proof.
  assert (H1 : fs_good (config window0) = Some [x01]) by reflexivity.
  assert (H2 : example_json_load [x01] = Ok example_config) by reflexivity.
  assert (H3 : well_formed example_accepts example_config = true) by reflexivity.
  split; [exact H1 | split; [exact H2 | split; [exact H3 |]]].
  destruct (configure_wib_builds_request example_accepts example_json_load
              fs_good true window0 [x01] example_config H1 H2 H3)
    as (b & en & fcs & req & _ & _ & _ & Run & _ & L & _).
  exists req. rewrite Run. split; [reflexivity | exact L].
Defined.

Lemma configure_wib_failure_witness :
  fs_missing (config window0) = None /\
  outcome_of (configure_wib example_accepts example_json_load fs_missing true
                window0) = Ok tt.
Proof.
  assert (H : fs_missing (config window0) = None) by reflexivity.
  split; [exact H|].
  rewrite (proj1 (configure_wib_failure example_accepts example_json_load
                    fs_missing true window0) H).
  reflexivity.
Defined.

(** C9 (as the specification words it) fails for a file lacking required
    fields: when the file holds the empty object, the action prints no
    failure, sends nothing, and ends with an uncaught [KeyError]. *)
Lemma configure_wib_missing_field_counterexample :
  load_config example_json_load fs_empty_object (config window0) = Ok (JObj []) /\
  configure_wib example_accepts example_json_load fs_empty_object true window0 =
  (window0,
   [EvPrint [PStr "Loading config"]; EvPrint [PStr "Configuring FEMBs"]],
   Raise KeyError).
Proof.
  split; [reflexivity|].
  rewrite configure_wib_unfold. reflexivity.
Qed.

(** ** The views of a reachable window *)

Lemma preserves_for_each {S X} (P : S -> Prop) (l : list X)
      (body : X -> Eff S unit) :
  (forall x, preserves P (body x)) -> preserves P (for_each l body).
Proof.
  intros H. induction l as [|x l IH].
  - intros s Hs. exact Hs.
  - cbn [for_each]. apply preserves_bind; [apply H | intros _; exact IH].
Qed.

Ltac preserves_steps :=
  repeat (first
    [ progress cbv zeta
    | apply preserves_bind; [|intros ?]
    | apply preserves_emit | apply preserves_lift | apply preserves_get
    | apply preserves_for_each; intros ? ]).

Lemma Hist2DView_load_data_ok (ts : list (list Z)) (smp : list (list (list Z))) :
  preserves Hist2DView_ok (Hist2DView_load_data ts smp).
Proof.
  unfold Hist2DView_load_data, Hist2DView_load_channel. preserves_steps;
    apply preserves_modify; intros s Hs; exact Hs.
Qed.

Lemma MeanRMSView_load_data_ok (ts : list (list Z)) (smp : list (list (list Z))) :
  preserves MeanRMSView_ok (MeanRMSView_load_data ts smp).
Proof.
  unfold MeanRMSView_load_data. preserves_steps;
    apply preserves_modify; intros s Hs; exact Hs.
Qed.

Lemma FFTView_load_data_ok (ts : list (list Z)) (smp : list (list (list Z))) :
  preserves FFTView_ok (FFTView_load_data ts smp).
Proof.
  unfold FFTView_load_data, FFTView_load_channel, print. preserves_steps;
    apply preserves_modify; intros s Hs; exact Hs.
Qed.

Lemma load_data_view_ok (ts : list (list Z)) (smp : list (list (list Z)))
      (v : DataView) :
  view_ok v ->
  view_ok (state_of (load_data ts smp v)) /\
  same_kind v (state_of (load_data ts smp v)).
Proof.
  destruct v as [h|m|f]; intros H; cbn [load_data]; unfold on_view.
  - pose proof (Hist2DView_load_data_ok ts smp h H) as K. unfold state_of in *.
    destruct (Hist2DView_load_data ts smp h) as [[h' ev] r]. now split.
  - pose proof (MeanRMSView_load_data_ok ts smp m H) as K. unfold state_of in *.
    destruct (MeanRMSView_load_data ts smp m) as [[m' ev] r]. now split.
  - pose proof (FFTView_load_data_ok ts smp f H) as K. unfold state_of in *.
    destruct (FFTView_load_data ts smp f) as [[f' ev] r]. now split.
Qed.

Lemma plot_data_state (v : DataView) : state_of (plot_data v) = v.
Proof.
  destruct v as [h|m|f]; cbn [plot_data]; unfold on_view.
  - unfold Hist2DView_plot_data. now rewrite bind_get.
  - unfold MeanRMSView_plot_data. rewrite bind_get.
    now destruct ((length (mean m) =? length (mr_chan m))%nat
                  && (length (rms m) =? length (mr_chan m))%nat).
  - unfold FFTView_plot_data. now rewrite bind_get.
Qed.

Lemma plot_data_view_ok (v : DataView) :
  view_ok v ->
  view_ok (state_of (plot_data v)) /\ same_kind v (state_of (plot_data v)).
Proof. intros H. rewrite plot_data_state. split; [exact H | now destruct v]. Qed.

Lemma for_views_kinds (method : Eff DataView unit) (vs vs' : list DataView)
      (ev : list event) (r : result unit) :
  (forall v, view_ok v ->
     view_ok (state_of (method v)) /\ same_kind v (state_of (method v))) ->
  for_views method vs = (vs', ev, r) ->
  Forall view_ok vs ->
  Forall2 (fun v v' => same_kind v v' /\ view_ok v') vs vs'.
Proof.
  intros Hm. revert vs' ev r.
  induction vs as [|v vs IH]; intros vs' ev r E F.
  - cbn in E. injection E as <- _ _. constructor.
  - apply Forall_cons_iff in F as [Fv F]. cbn [for_views] in E.
    destruct (Hm v Fv) as [Ok1 K1]. unfold state_of in Ok1, K1.
    destruct (method v) as [[v1 ev1] [[]|e]]; cbn [fst] in Ok1, K1.
    + destruct (for_views method vs) as [[vs1 ev2] r1] eqn:E1.
      injection E as <- _ _. constructor; [now split|].
      now apply (IH vs1 ev2 r1).
    + injection E as <- _ _. constructor; [now split|].
      clear IH. induction F as [|u us Fu F IH]; constructor; [|exact IH].
      split; [now destruct u | exact Fu].
Qed.

Lemma each_view_views_inv (method : Eff DataView unit) :
  (forall v, view_ok v ->
     view_ok (state_of (method v)) /\ same_kind v (state_of (method v))) ->
  preserves views_inv (each_view method).
Proof.
  intros Hm w (h & m & f & Hv & Hh & Hmr & Hf).
  unfold each_view, state_of.
  destruct (for_views method (views w)) as [[vs' ev] r] eqn:E. cbn [fst].
  rewrite Hv in E.
  assert (F : Forall view_ok [VHist2D h; VMeanRMS m; VFFT f]).
  { constructor; [exact Hh|]. constructor; [exact Hmr|].
    constructor; [exact Hf|]. constructor. }
  pose proof (for_views_kinds method _ vs' ev r Hm E F) as K.
  inversion K as [|a a' l l' [Ka Oa] K1]; subst.
  inversion K1 as [|b b' l0 l0' [Kb Ob] K2]; subst.
  inversion K2 as [|c c' l1 l1' [Kc Oc] K3]; subst.
  inversion K3; subst.
  destruct a' as [h'| |]; try contradiction.
  destruct b' as [|m'|]; try contradiction.
  destruct c' as [| |f']; try contradiction.
  exists h', m', f'.
  split; [reflexivity|]. split; [exact Oa|]. split; [exact Ob | exact Oc].
Qed.

Lemma acquire_data_views_inv (rep : DeframedDaqSpy) :
  preserves views_inv (acquire_data rep).
Proof.
  unfold acquire_data, print, send_command, plot.
  repeat (first
    [ progress cbv zeta
    | apply preserves_bind; [|intros ?]
    | apply preserves_emit | apply preserves_lift
    | apply each_view_views_inv; intros v Hv;
      first [ now apply load_data_view_ok | now apply plot_data_view_ok ]
    | apply preserves_modify; intros s Hs; exact Hs ]).
Qed.

Lemma toggle_pulser_views_inv : preserves views_inv toggle_pulser.
Proof.
  unfold toggle_pulser, print, send_command.
  apply preserves_bind; [apply preserves_get|]. intros self.
  destruct (String.eqb (pulser_button self) "Enable Pulser");
    repeat (first
      [ apply preserves_bind; [|intros ?]
      | apply preserves_emit
      | apply preserves_modify; intros s Hs; exact Hs ]).
Qed.

Lemma toggle_continuous_views_inv : preserves views_inv toggle_continuous.
Proof.
  intros w H. rewrite toggle_continuous_run.
  destruct (String.eqb (continuious_button w) "Continuous"); exact H.
Qed.

Lemma reachable_views_inv (accepts : string -> json -> bool)
      (json_load : list byte -> result json) (w : FEMB0Diagnostics) :
  reachable accepts json_load w -> views_inv w.
Proof.
  induction 1 as [path|w a Hw IH].
  - rewrite initial_window. unfold state_of. cbn [fst].
    exists Hist2DView_init, MeanRMSView_init, FFTView_init.
    split; [reflexivity | exact initial_views_ok].
  - destruct a as [fs ok| |rep| |rep]; cbn [slot].
    + now apply configure_wib_preserves.
    + now apply toggle_pulser_views_inv.
    + now apply acquire_data_views_inv.
    + now apply toggle_continuous_views_inv.
    + destruct (timer_active (timer w)); [|exact IH].
      now apply acquire_data_views_inv.
Qed.

(** ** A failed acquisition *)

(** C1 (as the code has it). Acquisition cycle: a reply with
    [success = false] has its flag printed and is otherwise treated
    exactly like the same reply with [success = true]: same final window,
    same outcome, same events but for the printed flag.  On any window
    that can be reached, when its payloads decode (N >= 1) the arrays
    are stored and every view holds the derived state [load_data]
    computes from them. *)
Theorem acquire_data_ignores_success (rep : DeframedDaqSpy)
        (w : FEMB0Diagnostics) :
  success rep = false ->
  let r := acquire_data rep w in
  let r' := acquire_data (with_success true rep) w in
  (state_of r = state_of r' /\ outcome_of r = outcome_of r' /\
   exists e1 e2 rest,
     events_of r =
       e1 :: e2 :: EvPrint [PStr "Successful:"; PBool false] :: rest /\
     events_of r' =
       e1 :: e2 :: EvPrint [PStr "Successful:"; PBool true] :: rest) /\
  forall accepts json_load smp ts,
    reachable accepts json_load w ->
    (flat <- np_frombuffer 2 (deframed_samples rep) ;;
     reshape3 4 128 (num_samples rep) flat)%res = Ok smp ->
    (flat <- np_frombuffer 8 (deframed_timestamps rep) ;;
     reshape2 2 (num_samples rep) flat)%res = Ok ts ->
    (1 <= num_samples rep)%nat ->
    samples (state_of r) = Some smp /\
    timestamps (state_of r) = Some ts /\
    exists h m f,
      views w = [VHist2D h; VMeanRMS m; VFFT f] /\
      views (state_of r) = loaded_views smp (num_samples rep) h m f.
Proof.
  intros Hf r r'. subst r r'. split.
  - rewrite !acquire_data_unfold. cbv zeta.
    unfold state_of, events_of, outcome_of, acquire_prologue, with_success.
    cbn [fst snd success num_samples deframed_samples deframed_timestamps app].
    rewrite Hf. split; [reflexivity|]. split; [reflexivity|].
    do 3 eexists. split; reflexivity.
  - intros accepts json_load smp ts Hw Ds Dt HN.
    destruct (reachable_views_inv accepts json_load w Hw)
      as (h & m & f & Hv & Hh & Hm & Hff).
    rewrite (acquire_data_run rep w smp ts h m f Ds Dt HN Hv Hh Hm Hff).
    unfold state_of, events_of, outcome_of.
    cbn [fst snd samples timestamps views set_views set_timestamps set_samples].
    split; [reflexivity|]. split; [reflexivity|].
    exists h, m, f. now split.
Qed.

Lemma acquire_data_ignores_success_witness :
  success failed_reply = false /\
  state_of (acquire_data failed_reply window0) =
  state_of (acquire_data (with_success true failed_reply) window0).
Proof.
  assert (H : success failed_reply = false) by reflexivity.
  split; [exact H|].
  exact (proj1 (proj1 (acquire_data_ignores_success failed_reply window0 H))).
Defined.

(* ================================================================== *)
(** * Further properties of the code *)

(** ** What [acquire_data] decodes *)

Lemma le_value_bound (bs : list byte) :
  (0 <= le_value bs < 256 ^ Z.of_nat (length bs))%Z.
Proof.
  induction bs as [|b bs IH]; [cbn; lia|].
  cbn [le_value length]. rewrite Nat2Z.inj_succ, Z.pow_succ_r by lia.
  pose proof (to_N_bounded b). lia.
Qed.

Lemma forallb_firstn {A} (p : A -> bool) (n : nat) (l : list A) :
  forallb p l = true -> forallb p (firstn n l) = true.
Proof.
  revert l. induction n as [|n IH]; intros [|x l] H; try reflexivity.
  cbn [firstn forallb] in *. apply andb_prop in H as [H1 H2].
  now rewrite H1, IH.
Qed.

Lemma forallb_skipn {A} (p : A -> bool) (n : nat) (l : list A) :
  forallb p l = true -> forallb p (skipn n l) = true.
Proof.
  revert l. induction n as [|n IH]; intros [|x l] H; try reflexivity; [exact H|].
  cbn [skipn forallb] in *. apply andb_prop in H as [H1 H2]. now apply IH.
Qed.

Lemma forallb_chunk {A} (p : A -> bool) (w n : nat) (l : list A) :
  forallb p l = true -> forallb (forallb p) (chunk w n l) = true.
Proof.
  revert l. induction n as [|n IH]; intros l H; [reflexivity|].
  cbn [chunk forallb]. rewrite forallb_firstn by exact H.
  apply IH. now apply forallb_skipn.
Qed.

Lemma np_frombuffer_exact (w k : nat) (buf : list byte) :
  (0 < w)%nat -> length buf = (w * k)%nat ->
  np_frombuffer w buf = Ok (map le_value (chunk w k buf)) /\
  all_in 0 (256 ^ Z.of_nat w) (map le_value (chunk w k buf)) = true.
Proof.
  intros Hw Hl. split.
  - unfold np_frombuffer. rewrite Hl, Nat.mul_comm, Nat.Div0.mod_mul.
    rewrite Nat.div_mul by lia. reflexivity.
  - unfold all_in. apply forallb_forall. intros x Hx.
    apply in_map_iff in Hx as (c & <- & Hc).
    assert (W : forallb (fun c => (length c =? w)%nat) (chunk w k buf) = true)
      by (apply chunk_widths; lia).
    rewrite forallb_forall in W. specialize (W c Hc). apply Nat.eqb_eq in W.
    pose proof (le_value_bound c) as B. rewrite W in B.
    apply andb_true_intro. split; [apply Z.leb_le | apply Z.ltb_lt]; lia.
Qed.

Lemma each_view_same_but_views (m : Eff DataView unit) (w0 : FEMB0Diagnostics) :
  preserves (same_but_views w0) (each_view m).
Proof.
  intros w H. unfold each_view, state_of.
  destruct (for_views m (views w)) as [[vs ev] r]. exact H.
Qed.

Lemma load_and_plot_same_but_views (ts : list (list Z))
      (smp : list (list (list Z))) (w : FEMB0Diagnostics) :
  same_but_views w (state_of ((each_view (load_data ts smp) ;; plot)%eff w)).
Proof.
  apply (preserves_bind (same_but_views w)).
  - apply each_view_same_but_views.
  - intros _. apply each_view_same_but_views.
  - repeat split.
Qed.

(** X1. When both payloads have exactly the length the reported sample
    count N asks for, [acquire_data] stores a (4,128,N) sample array of
    values in [0, 65536) and a (2,N) timestamp array of values in
    [0, 2^64), whatever happens afterwards in the views. *)
Theorem acquire_data_stores_decoded (rep : DeframedDaqSpy) (w : FEMB0Diagnostics) :
  length (deframed_samples rep) = (2 * (4 * 128 * num_samples rep))%nat ->
  length (deframed_timestamps rep) = (8 * (2 * num_samples rep))%nat ->
  exists smp ts,
    samples (state_of (acquire_data rep w)) = Some smp /\
    timestamps (state_of (acquire_data rep w)) = Some ts /\
    has_shape3 4 128 (num_samples rep) smp = true /\
    has_shape2 2 (num_samples rep) ts = true /\
    forallb (in_range 0 65536) smp = true /\
    in_range 0 (2 ^ 64) ts = true.
Proof.
  intros Ls Lt.
  destruct (np_frombuffer_exact 2 (4 * 128 * num_samples rep)
              (deframed_samples rep) ltac:(lia) Ls) as [Fs Bs].
  destruct (np_frombuffer_exact 8 (2 * num_samples rep)
              (deframed_timestamps rep) ltac:(lia) Lt) as [Ft Bt].
  set (fs := map le_value (chunk 2 (4 * 128 * num_samples rep) (deframed_samples rep))) in *.
  set (ft := map le_value (chunk 8 (2 * num_samples rep) (deframed_timestamps rep))) in *.
  assert (Lfs : length fs = (4 * 128 * num_samples rep)%nat)
    by (unfold fs; now rewrite length_map, chunk_length).
  assert (Lft : length ft = (2 * num_samples rep)%nat)
    by (unfold ft; now rewrite length_map, chunk_length).
  assert (Rs : reshape3 4 128 (num_samples rep) fs
               = Ok (map (chunk (num_samples rep) 128) (chunk (128 * num_samples rep) 4 fs))).
  { unfold reshape3. rewrite Lfs, Nat.eqb_refl. reflexivity. }
  assert (Rt : reshape2 2 (num_samples rep) ft = Ok (chunk (num_samples rep) 2 ft)).
  { unfold reshape2. rewrite Lft, Nat.eqb_refl. reflexivity. }
  eexists. eexists.
  rewrite acquire_data_unfold. cbv zeta.
  rewrite Fs. cbn [rbind]. rewrite Rs, bind_lift_ok, bind_modify.
  rewrite Ft. cbn [rbind]. rewrite Rt, bind_lift_ok, bind_modify.
  unfold state_of at 1 3. cbn [fst].
  match goal with |- context [state_of (?m ?w0)] =>
    destruct (load_and_plot_same_but_views
                (chunk (num_samples rep) 2 ft)
                (map (chunk (num_samples rep) 128) (chunk (128 * num_samples rep) 4 fs))
                w0) as (_ & _ & _ & _ & Hs & Ht) end.
  split; [rewrite Hs; reflexivity|]. split; [rewrite Ht; reflexivity|].
  split; [now apply reshape3_shape in Rs|]. split; [now apply reshape2_shape in Rt|].
  split.
  - apply forallb_forall. intros m Hm. apply in_map_iff in Hm as (c & <- & Hc).
    unfold in_range. apply forallb_chunk.
    assert (A : forallb (forallb (fun x => (0 <=? x) && (x <? 65536))%Z)
                  (chunk (128 * num_samples rep) 4 fs) = true)
      by (apply forallb_chunk; exact Bs).
    rewrite forallb_forall in A. now apply A.
  - unfold in_range. apply forallb_chunk. exact Bt.
Qed.

Lemma acquire_data_stores_decoded_witness :
  length (deframed_samples failed_reply) = (2 * (4 * 128 * num_samples failed_reply))%nat /\
  length (deframed_timestamps failed_reply) = (8 * (2 * num_samples failed_reply))%nat /\
  exists smp ts,
    samples (state_of (acquire_data failed_reply window0)) = Some smp /\
    timestamps (state_of (acquire_data failed_reply window0)) = Some ts.
Proof.
  assert (H1 : length (deframed_samples failed_reply)
               = (2 * (4 * 128 * num_samples failed_reply))%nat) by reflexivity.
  assert (H2 : length (deframed_timestamps failed_reply)
               = (8 * (2 * num_samples failed_reply))%nat) by reflexivity.
  split; [exact H1 | split; [exact H2|]].
  destruct (acquire_data_stores_decoded failed_reply window0 H1 H2)
    as (smp & ts & A & B & _).
  exists smp, ts. split; [exact A | exact B].
Defined.

Lemma chunk_nth {A} (w n i : nat) (l : list A) :
  (i < n)%nat -> nth i (chunk w n l) [] = firstn w (skipn (i * w) l).
Proof.
  revert i l. induction n as [|n IH]; intros i l H; [lia|].
  destruct i as [|i]; [reflexivity|].
  cbn [chunk nth]. rewrite IH by lia. rewrite skipn_skipn.
  do 2 f_equal. lia.
Qed.

Lemma acquire_data_samples_stored (rep : DeframedDaqSpy) (w : FEMB0Diagnostics)
      (smp : list (list (list Z))) :
  (flat <- np_frombuffer 2 (deframed_samples rep) ;;
   reshape3 4 128 (num_samples rep) flat)%res = Ok smp ->
  samples (state_of (acquire_data rep w)) = Some smp.
Proof.
  intros Ds. rewrite acquire_data_unfold. cbv zeta.
  rewrite Ds, bind_lift_ok, bind_modify.
  destruct (flat <- np_frombuffer 8 (deframed_timestamps rep) ;;
            reshape2 2 (num_samples rep) flat)%res as [ts|e].
  - rewrite bind_lift_ok, bind_modify. unfold state_of at 1. cbn [fst].
    match goal with |- context [state_of (?m ?w0)] =>
      destruct (load_and_plot_same_but_views ts smp w0)
        as (_ & _ & _ & _ & Hs & _) end.
    now rewrite Hs.
  - now rewrite bind_lift_raise.
Qed.

(** X2. The sample payload is read in row-major order: when it has the
    length N asks for, the stored [samples[f][c][t]] is the unsigned
    little-endian value of the two bytes at offset
    [2 * ((f * 128 + c) * N + t)]. *)
Theorem acquire_data_sample_layout (rep : DeframedDaqSpy) (w : FEMB0Diagnostics) :
  length (deframed_samples rep) = (2 * (4 * 128 * num_samples rep))%nat ->
  exists smp,
    samples (state_of (acquire_data rep w)) = Some smp /\
    forall f c t, (f < 4)%nat -> (c < 128)%nat -> (t < num_samples rep)%nat ->
      nth t (nth c (nth f smp []) []) 0%Z =
      le_value (sample_bytes (deframed_samples rep) (num_samples rep) f c t).
Proof.
  intros Ls. set (N := num_samples rep) in *.
  destruct (np_frombuffer_exact 2 (4 * 128 * N) (deframed_samples rep)
              ltac:(lia) Ls) as [Fs _].
  set (fs := map le_value (chunk 2 (4 * 128 * N) (deframed_samples rep))) in *.
  assert (Lfs : length fs = (4 * 128 * N)%nat)
    by (unfold fs; now rewrite length_map, chunk_length).
  assert (Ds : (flat <- np_frombuffer 2 (deframed_samples rep) ;;
                reshape3 4 128 N flat)%res
               = Ok (map (chunk N 128) (chunk (128 * N) 4 fs))).
  { rewrite Fs. cbn [rbind]. unfold reshape3. now rewrite Lfs, Nat.eqb_refl. }
  eexists. split; [exact (acquire_data_samples_stored rep w _ Ds)|].
  intros f c t Hf Hc Ht.
  rewrite (nth_map_in (chunk N 128) _ f [] []) by (rewrite chunk_length; lia).
  rewrite (chunk_nth (128 * N) 4 f fs Hf).
  rewrite (chunk_nth N 128 c _ Hc).
  rewrite nth_firstn. replace (t <? N)%nat with true
    by (symmetry; apply Nat.ltb_lt; lia).
  rewrite nth_skipn, nth_firstn.
  assert (Hin : (c * N + t < 128 * N)%nat) by nia.
  replace (c * N + t <? 128 * N)%nat with true
    by (symmetry; apply Nat.ltb_lt; exact Hin).
  rewrite nth_skipn.
  unfold fs. rewrite (nth_map_in le_value _ _ [] 0%Z)
    by (rewrite chunk_length; nia).
  rewrite chunk_nth by nia.
  unfold sample_bytes. do 3 f_equal. nia.
Qed.

Lemma acquire_data_sample_layout_witness :
  length (deframed_samples failed_reply)
  = (2 * (4 * 128 * num_samples failed_reply))%nat /\
  exists smp,
    samples (state_of (acquire_data failed_reply window0)) = Some smp /\
    nth 3 (nth 127 (nth 3 smp []) []) 0%Z =
    le_value (sample_bytes (deframed_samples failed_reply) 4 3 127 3).
Proof.
  assert (H : length (deframed_samples failed_reply)
              = (2 * (4 * 128 * num_samples failed_reply))%nat) by reflexivity.
  split; [exact H|].
  destruct (acquire_data_sample_layout failed_reply window0 H) as (smp & A & B).
  exists smp. split; [exact A|].
  apply (B 3%nat 127%nat 3%nat); cbn [num_samples failed_reply]; lia.
Defined.

(** X3. The two stored arrays are not replaced together: when the sample
    payload decodes and the timestamp payload has the wrong length,
    [acquire_data] raises [ValueError] after [self.samples] has been
    replaced by the new array, while [self.timestamps] and the views
    keep their previous values. *)
Theorem acquire_data_bad_timestamps (rep : DeframedDaqSpy) (w : FEMB0Diagnostics) :
  length (deframed_samples rep) = (2 * (4 * 128 * num_samples rep))%nat ->
  length (deframed_timestamps rep) <> (8 * (2 * num_samples rep))%nat ->
  exists smp,
    acquire_data rep w =
      (set_samples smp w, acquire_prologue rep, Raise ValueError) /\
    has_shape3 4 128 (num_samples rep) smp = true /\
    timestamps (set_samples smp w) = timestamps w /\
    views (set_samples smp w) = views w.
Proof.
  intros Ls Lt.
  destruct (np_frombuffer_exact 2 (4 * 128 * num_samples rep)
              (deframed_samples rep) ltac:(lia) Ls) as [Fs _].
  set (fs := map le_value (chunk 2 (4 * 128 * num_samples rep) (deframed_samples rep))) in *.
  assert (Lfs : length fs = (4 * 128 * num_samples rep)%nat)
    by (unfold fs; now rewrite length_map, chunk_length).
  assert (Rs : reshape3 4 128 (num_samples rep) fs
               = Ok (map (chunk (num_samples rep) 128) (chunk (128 * num_samples rep) 4 fs))).
  { unfold reshape3. rewrite Lfs, Nat.eqb_refl. reflexivity. }
  exists (map (chunk (num_samples rep) 128) (chunk (128 * num_samples rep) 4 fs)).
  split; [|split; [now apply reshape3_shape in Rs | split; reflexivity]].
  rewrite acquire_data_unfold. cbv zeta.
  rewrite Fs. cbn [rbind]. rewrite Rs, bind_lift_ok, bind_modify.
  rewrite (decode_length_mismatch 8 (2 * num_samples rep)); try lia.
  - rewrite bind_lift_raise. unfold state_of, events_of, outcome_of.
    cbn [fst snd]. now rewrite app_nil_r.
  - intros a Ha. now apply reshape2_mismatch.
Qed.

Lemma acquire_data_bad_timestamps_witness :
  length (deframed_samples short_timestamps_reply)
  = (2 * (4 * 128 * num_samples short_timestamps_reply))%nat /\
  length (deframed_timestamps short_timestamps_reply)
  <> (8 * (2 * num_samples short_timestamps_reply))%nat /\
  outcome_of (acquire_data short_timestamps_reply window0) = Raise ValueError /\
  samples (state_of (acquire_data short_timestamps_reply window0)) <> None.
Proof.
  assert (H1 : length (deframed_samples short_timestamps_reply)
               = (2 * (4 * 128 * num_samples short_timestamps_reply))%nat)
    by reflexivity.
  assert (H2 : length (deframed_timestamps short_timestamps_reply)
               <> (8 * (2 * num_samples short_timestamps_reply))%nat)
    by (vm_compute; lia).
  split; [exact H1 | split; [exact H2|]].
  destruct (acquire_data_bad_timestamps short_timestamps_reply window0 H1 H2)
    as (smp & Run & _).
  rewrite Run. split; [reflexivity | discriminate].
Defined.

(** ** Arrays the views cannot take *)

Lemma FFTView_load_data_empty_rows (ts : list (list Z))
      (smp : list (list (list Z))) (self : FFTView) :
  has_shape3 4 128 0 smp = true ->
  FFTView_load_data ts smp self =
  (self, [EvPrint [PShape (shape_of smp)]], Raise ZeroDivisionError).
Proof.
  intros Hs.
  destruct (has_shape3_femb0 _ _ _ _ Hs) as (f0 & G & E & S2).
  destruct (has_shape2_spec _ _ _ S2) as [L R].
  assert (L0 : length (nth 0 f0 []) = 0%nat) by (apply R, nth_In; lia).
  unfold FFTView_load_data, print. rewrite bind_emit, G, bind_lift_ok.
  rewrite (getitem_nth f0 0 []) by lia. rewrite bind_lift_ok, L0.
  reflexivity.
Qed.

(** X4. Spectrum view without timesteps: on a (4,128,0) array
    [load_data] prints the shape and raises [ZeroDivisionError] (from
    [fftfreq]) before anything of the view is changed. *)
Theorem FFTView_load_data_no_timesteps (ts : list (list Z))
        (smp : list (list (list Z))) (self : FFTView) :
  has_shape3 4 128 0 smp = true ->
  FFTView_load_data ts smp self =
  (self, [EvPrint [PShape (shape_of smp)]], Raise ZeroDivisionError).
Proof. exact (FFTView_load_data_empty_rows ts smp self). Qed.

Lemma FFTView_load_data_no_timesteps_witness :
  has_shape3 4 128 0 (uniform_samples []) = true /\
  outcome_of (FFTView_load_data [] (uniform_samples []) FFTView_init)
  = Raise ZeroDivisionError.
Proof.
  assert (H : has_shape3 4 128 0 (uniform_samples []) = true) by reflexivity.
  split; [exact H|].
  now rewrite (FFTView_load_data_no_timesteps [] (uniform_samples []) FFTView_init H).
Defined.

(** X5. An array without sub-units: [samples[0]] raises [IndexError] in
    every view's [load_data], and the view is left as it was. *)
Theorem load_data_no_subunit (ts : list (list Z)) (v : DataView) :
  state_of (load_data ts [] v) = v /\
  outcome_of (load_data ts [] v) = Raise IndexError /\
  forall u, ~ In (EvDraw u) (events_of (load_data ts [] v)).
Proof.
  destruct v as [h|m|f]; cbn [load_data]; unfold on_view.
  - unfold Hist2DView_load_data. cbn [getitem nth_error].
    rewrite bind_lift_raise. repeat split. intros u [].
  - unfold MeanRMSView_load_data. cbn [getitem nth_error].
    rewrite bind_lift_raise. repeat split. intros u [].
  - unfold FFTView_load_data, print. rewrite bind_emit.
    cbn [getitem nth_error]. rewrite bind_lift_raise.
    unfold state_of, events_of, outcome_of. cbn [fst snd].
    repeat split. intros u [C|[]]. discriminate C.
Qed.

Lemma for_each_app {S X} (l1 l2 : list X) (body : X -> Eff S unit)
      (s s1 : S) (ev1 : list event) :
  for_each l1 body s = (s1, ev1, Ok tt) ->
  for_each (l1 ++ l2) body s =
  (state_of (for_each l2 body s1), ev1 ++ events_of (for_each l2 body s1),
   outcome_of (for_each l2 body s1)).
Proof.
  revert s s1 ev1. induction l1 as [|x l1 IH]; intros s s1 ev1 H.
  - cbn in H. injection H as <- <-. cbn [app].
    now destruct (for_each l2 body s) as [[s2 ev2] r].
  - cbn [for_each app] in *. unfold bind in *.
    destruct (body x s) as [[sa eva] [[]|e]]; [|discriminate].
    destruct (for_each l1 body sa) as [[sb evb] rb] eqn:E.
    injection H as -> <- ->.
    rewrite (IH sa s1 evb E). unfold state_of, events_of, outcome_of.
    cbn [fst snd]. now rewrite app_assoc.
Qed.

(** X6. Histogram view with too few channels: when sub-unit 0 has only
    k < 128 channels, [load_data] raises [IndexError] at channel k and
    leaves [counts] as the list of the k histograms built so far. *)
Theorem Hist2DView_load_data_few_channels (ts : list (list Z))
        (smp : list (list (list Z))) (samples0 : list (list Z))
        (self : Hist2DView) :
  getitem smp 0 = Ok samples0 ->
  (length samples0 < 128)%nat ->
  Hist2DView_ok self ->
  Hist2DView_load_data ts smp self =
  (hist_set_counts
     (map (fun row => np_histogram row (hist_samples self)) samples0) self,
   [], Raise IndexError).
Proof.
  intros G Hk [Hc He]. set (k := length samples0) in *.
  unfold Hist2DView_load_data. rewrite G, bind_lift_ok, bind_modify, bind_get.
  cbn [hist_set_counts hist_chan]. rewrite Hc, np_arange_seq.
  assert (Out : getitemZ samples0 (Z.of_nat k) = Raise IndexError).
  { unfold getitemZ.
    assert (E : (Z.of_nat k <? 0)%Z = false) by (apply Z.ltb_ge; lia).
    rewrite E. cbv beta iota zeta. rewrite E, Nat2Z.id. unfold getitem.
    now rewrite (proj2 (nth_error_None samples0 k)) by (unfold k; lia). }
  assert (Tail : forall s,
            for_each (map Z.of_nat (seq k (128 - k)))
                     (Hist2DView_load_channel samples0) s
            = (s, [], Raise IndexError)).
  { intros s. replace (128 - k)%nat with (S (128 - k - 1)) by lia.
    cbn [seq map for_each]. unfold bind.
    unfold Hist2DView_load_channel at 1. rewrite Out, bind_lift_raise.
    reflexivity. }
  replace 128%nat with (k + (128 - k))%nat at 1 by lia.
  rewrite seq_app, map_app.
  erewrite for_each_app
    by (apply Hist2DView_load_loop; intros i Hi; apply in_seq in Hi; lia).
  cbn [Nat.add]. rewrite Tail.
  assert (M : map (fun i => np_histogram (nth i samples0 []) (hist_samples self))
                  (seq 0 k)
              = map (fun row => np_histogram row (hist_samples self)) samples0).
  { transitivity (map (fun row => np_histogram row (hist_samples self))
                      (map (fun i => nth i samples0 []) (seq 0 k))).
    - now rewrite map_map.
    - unfold k. now rewrite map_nth_seq. }
  unfold state_of, events_of, outcome_of.
  cbn [fst snd app counts hist_samples hist_set_counts hist_chan].
  now rewrite M.
Qed.

Lemma Hist2DView_load_data_few_channels_witness :
  getitem samples_three_channels 0 = Ok [[1; 2]; [3; 4]; [5; 6]]%Z /\
  (length [[1; 2]; [3; 4]; [5; 6]]%Z < 128)%nat /\
  Hist2DView_ok Hist2DView_init /\
  outcome_of (Hist2DView_load_data [] samples_three_channels Hist2DView_init)
  = Raise IndexError /\
  length (counts (state_of
            (Hist2DView_load_data [] samples_three_channels Hist2DView_init)))
  = 3%nat.
Proof.
  assert (G : getitem samples_three_channels 0 = Ok [[1; 2]; [3; 4]; [5; 6]]%Z)
    by reflexivity.
  assert (K : (length [[1; 2]; [3; 4]; [5; 6]]%Z < 128)%nat) by (cbn; lia).
  assert (OK : Hist2DView_ok Hist2DView_init) by (split; reflexivity).
  split; [exact G | split; [exact K | split; [exact OK|]]].
  rewrite (Hist2DView_load_data_few_channels [] samples_three_channels _
             Hist2DView_init G K OK).
  split; reflexivity.
Defined.

(** ** An acquisition without timesteps *)

Lemma np_histogram_empty (s : Z) (n : nat) :
  np_histogram [] (unit_edges s n) = repeat 0%Z (S n).
Proof.
  revert s. induction n as [|n IH]; intros s; [reflexivity|].
  rewrite unit_edges_S.
  destruct (unit_edges_head (s + 1) n) as (e & rest & E).
  rewrite E, np_histogram_more, <- E, IH. reflexivity.
Qed.

(** X7. An acquisition with [num_samples = 0] and empty payloads, on any
    window that can be reached: the empty arrays are stored, the
    histogram view is loaded with all-zero counts and the mean/RMS view
    with [nan] for every channel, then the spectrum view raises
    [ZeroDivisionError]; it keeps its previous spectrum, and nothing is
    drawn. *)
Theorem acquire_data_no_timesteps (accepts : string -> json -> bool)
        (json_load : list byte -> result json)
        (rep : DeframedDaqSpy) (w : FEMB0Diagnostics) :
  reachable accepts json_load w ->
  num_samples rep = 0%nat ->
  deframed_samples rep = [] ->
  deframed_timestamps rep = [] ->
  exists h m f,
    views w = [VHist2D h; VMeanRMS m; VFFT f] /\
    acquire_data rep w =
    (set_views
       [VHist2D (hist_set_counts (np_full2 128 (Z.to_nat 16384) 0%Z) h);
        VMeanRMS {| mr_chan := mr_chan m; rms := repeat NaN 128;
                    mean := repeat NaN 128 |};
        VFFT f]
       (set_timestamps [[]; []] (set_samples (uniform_samples []) w)),
     acquire_prologue rep ++ [EvPrint [PShape [4; 128; 0]%nat]],
     Raise ZeroDivisionError).
Proof.
  intros Hw HN Hs Ht.
  destruct (reachable_views_inv accepts json_load w Hw)
    as (h & m & f & Hv & Hh & Hm & Hf).
  exists h, m, f. split; [exact Hv|].
  assert (S3 : has_shape3 4 128 0 (uniform_samples []) = true) by reflexivity.
  rewrite acquire_data_unfold. cbv zeta. rewrite HN, Hs, Ht.
  change (flat <- np_frombuffer 2 [] ;; reshape3 4 128 0 flat)%res
    with (Ok (uniform_samples [])).
  rewrite bind_lift_ok, bind_modify.
  change (flat <- np_frombuffer 8 [] ;; reshape2 2 0 flat)%res
    with (@Ok (list (list Z)) [[]; []]).
  rewrite bind_lift_ok, bind_modify.
  unfold bind, each_view. cbn [views set_timestamps set_samples]. rewrite Hv.
  cbn [for_views load_data]. unfold on_view.
  rewrite (Hist2DView_load_data_run _ _ 0 h S3 Hh).
  rewrite (MeanRMSView_load_data_run _ (uniform_samples []) (repeat [] 128) m eq_refl).
  rewrite (FFTView_load_data_empty_rows _ _ f S3).
  destruct Hh as [_ He]. rewrite He, hist_edges.
  change (femb0 (uniform_samples [])) with (@repeat (list Z) [] 128).
  rewrite !map_repeat, np_histogram_empty.
  replace (S (Z.to_nat 16383)) with (Z.to_nat 16384) by lia.
  unfold state_of, events_of, outcome_of. cbn [fst snd app].
  change (np_mean []) with NaN. change (np_std []) with NaN.
  reflexivity.
Qed.

Lemma acquire_data_no_timesteps_witness :
  reachable example_accepts example_json_load window0 /\
  num_samples empty_reply = 0%nat /\
  deframed_samples empty_reply = [] /\
  deframed_timestamps empty_reply = [] /\
  outcome_of (acquire_data empty_reply window0) = Raise ZeroDivisionError.
Proof.
  assert (R : reachable example_accepts example_json_load window0)
    by apply reach_init.
  split; [exact R|]. split; [reflexivity|]. split; [reflexivity|].
  split; [reflexivity|].
  destruct (acquire_data_no_timesteps example_accepts example_json_load
              empty_reply window0 R eq_refl eq_refl eq_refl)
    as (h & m & f & _ & Run).
  now rewrite Run.
Defined.

(** ** What an acquisition leaves alone *)

Lemma each_view_same_controls (m : Eff DataView unit) (w0 : FEMB0Diagnostics) :
  preserves (same_controls w0) (each_view m).
Proof.
  intros w H. unfold each_view, state_of.
  destruct (for_views m (views w)) as [[vs ev] r]. exact H.
Qed.

Lemma acquire_data_same_controls (rep : DeframedDaqSpy) (w0 : FEMB0Diagnostics) :
  preserves (same_controls w0) (acquire_data rep).
Proof.
  unfold acquire_data, print, send_command, plot.
  repeat (first
    [ progress cbv zeta
    | apply preserves_bind; [|intros ?]
    | apply preserves_emit | apply preserves_lift
    | apply each_view_same_controls
    | apply preserves_modify; intros s Hs; exact Hs ]).
Qed.

Lemma same_controls_refl (w : FEMB0Diagnostics) : same_controls w w.
Proof. repeat split. Qed.

Lemma sent_app (e1 e2 : list event) : sent (e1 ++ e2) = sent e1 ++ sent e2.
Proof.
  induction e1 as [|[a|c|d] e1 IH]; cbn [app sent]; try exact IH.
  - reflexivity.
  - now rewrite IH.
Qed.

Lemma silent_bind {S A B} (m : Eff S A) (k : A -> Eff S B) :
  silent m -> (forall a, silent (k a)) -> silent (bind m k).
Proof.
  intros Hm Hk s. unfold bind. specialize (Hm s). unfold events_of in *.
  destruct (m s) as [[s1 ev1] [a|e]]; cbn [fst snd] in *; [|exact Hm].
  specialize (Hk a s1). unfold events_of in Hk.
  destruct (k a s1) as [[s2 ev2] r]. cbn [fst snd] in *.
  now rewrite sent_app, Hm, Hk.
Qed.

Lemma silent_lift {S A} (r : result A) : silent (@lift S A r).
Proof. intros s. reflexivity. Qed.

Lemma silent_get {S} : silent (@get S).
Proof. intros s. reflexivity. Qed.

Lemma silent_modify {S} (f : S -> S) : silent (modify f).
Proof. intros s. reflexivity. Qed.

Lemma silent_print {S} (args : list printed) : silent (@print S args).
Proof. intros s. reflexivity. Qed.

Lemma silent_draw {S} (v : DataView) : silent (@emit S (EvDraw v)).
Proof. intros s. reflexivity. Qed.

Lemma silent_for_each {S X} (l : list X) (body : X -> Eff S unit) :
  (forall x, silent (body x)) -> silent (for_each l body).
Proof.
  intros H. induction l as [|x l IH]; [intros s; reflexivity|].
  cbn [for_each]. apply silent_bind; [apply H | intros _; exact IH].
Qed.

Ltac silent_steps :=
  repeat (first
    [ progress cbv zeta
    | apply silent_bind; [|intros ?]
    | apply silent_lift | apply silent_get | apply silent_modify
    | apply silent_print | apply silent_draw
    | apply silent_for_each; intros ?
    | match goal with |- silent (if ?b then _ else _) => destruct b end ]).

Lemma silent_on_view {V} (inj : V -> DataView) (m : Eff V unit) (v : V) :
  silent m -> sent (events_of (on_view inj m v)) = [].
Proof.
  intros H. specialize (H v). unfold on_view, events_of in *.
  now destruct (m v) as [[v' ev] r].
Qed.

Lemma load_data_silent (ts : list (list Z)) (smp : list (list (list Z))) :
  silent (load_data ts smp).
Proof.
  intros [h|m|f]; cbn [load_data]; apply silent_on_view.
  - unfold Hist2DView_load_data, Hist2DView_load_channel. silent_steps.
  - unfold MeanRMSView_load_data. silent_steps.
  - unfold FFTView_load_data, FFTView_load_channel. silent_steps.
Qed.

Lemma plot_data_silent : silent plot_data.
Proof.
  intros [h|m|f]; cbn [plot_data]; apply silent_on_view.
  - unfold Hist2DView_plot_data. silent_steps.
  - unfold MeanRMSView_plot_data. silent_steps.
  - unfold FFTView_plot_data. silent_steps.
Qed.

Lemma each_view_silent (m : Eff DataView unit) : silent m -> silent (each_view m).
Proof.
  intros Hm w. unfold each_view, events_of.
  generalize (views w). intros vs.
  assert (Q : sent (events_of (for_views m vs)) = []).
  { induction vs as [|v vs IH]; [reflexivity|].
    cbn [for_views]. specialize (Hm v). unfold events_of in *.
    destruct (m v) as [[v' ev] [[]|e]]; cbn [fst snd] in *; [|exact Hm].
    destruct (for_views m vs) as [[vs' ev'] r]. cbn [fst snd] in *.
    now rewrite sent_app, Hm, IH. }
  unfold events_of in Q. now destruct (for_views m vs) as [[vs' ev'] r].
Qed.

(** X8. Whatever the reply, and whether it returns or raises,
    [acquire_data] changes nothing but the stored arrays and the views:
    the configuration path, the labels of both buttons and the timer are
    as before, so an acquisition never starts or stops the continuous
    mode; and it sends exactly one command, the fixed ReadDaqSpy request
    for buffer 0, deframed, split by channel. *)
Theorem acquire_data_keeps_controls (rep : DeframedDaqSpy) (w : FEMB0Diagnostics) :
  same_controls w (state_of (acquire_data rep w)) /\
  mode_of (state_of (acquire_data rep w)) = mode_of w /\
  sent (events_of (acquire_data rep w)) =
    [CmdReadDaqSpy {| buf0 := true; buf1 := false;
                      deframe := true; channels := true |}].
Proof.
  pose proof (acquire_data_same_controls rep w w (same_controls_refl w)) as K.
  split; [exact K|]. split.
  - destruct K as (_ & _ & _ & Kt). unfold mode_of. now rewrite Kt.
  - rewrite acquire_data_unfold. cbv zeta. unfold events_of at 1. cbn [fst snd].
    rewrite sent_app. unfold acquire_prologue at 1. cbn [sent app].
    f_equal.
    match goal with |- sent (events_of (?m w)) = [] =>
      assert (Q : silent m); [|exact (Q w)] end.
    unfold plot. silent_steps;
      first [ apply each_view_silent;
              first [apply load_data_silent | apply plot_data_silent] ].
Qed.

(** ** More on configure_wib *)

Lemma mapM_inv {A B} (f : A -> result B) (l : list A) (ys : list B) :
  mapM f l = Ok ys ->
  length ys = length l /\
  forall i d d', (i < length l)%nat -> f (nth i l d) = Ok (nth i ys d').
Proof.
  revert ys. induction l as [|x l IH]; intros ys H.
  - cbn in H. injection H as <-. split; [reflexivity|]. intros i d d' Hi.
    cbn in Hi. lia.
  - cbn [mapM] in H. destruct (f x) as [y|e] eqn:Ex; [|discriminate].
    cbn [rbind] in H. destruct (mapM f l) as [ys'|e] eqn:El; [|discriminate].
    cbn [rbind] in H. injection H as <-.
    destruct (IH ys' eq_refl) as [L N]. split; [cbn [length]; now rewrite L|].
    intros [|i] d d' Hi; [exact Ex|]. cbn [nth]. apply N. cbn [length] in Hi. lia.
Qed.

Lemma copy_field_inv (accepts : string -> json -> bool) (fc : json)
      (name : string) (v : json) :
  copy_field accepts fc name = Ok v ->
  subscript_key fc name = Ok v /\ accepts name v = true.
Proof.
  unfold copy_field, assign. destruct (subscript_key fc name) as [u|e];
    [|discriminate].
  cbn [rbind]. destruct (accepts name u) eqn:E; [|discriminate].
  intros [= <-]. now split.
Qed.

Ltac rbind_inv H :=
  repeat match type of H with
  | rbind ?r _ = Ok _ =>
      let E := fresh "E" in
      destruct r eqn:E; [cbn [rbind] in H | discriminate H]
  end.

Lemma femb_conf_of_inv (accepts : string -> json -> bool) (cfg : json)
      (i : nat) (r : FEMBConfig) :
  femb_conf_of accepts cfg i = Ok r ->
  exists en fcs fc,
    subscript_key cfg "enabled_fembs" = Ok en /\
    subscript_key cfg "femb_configs" = Ok fcs /\
    subscript_idx en i = Ok (enabled r) /\
    accepts "enabled"%string (enabled r) = true /\
    subscript_idx fcs i = Ok fc /\
    forall name, In name tuning_fields ->
      subscript_key fc name = Ok (FEMBConfig_get name r) /\
      accepts name (FEMBConfig_get name r) = true.
Proof.
  unfold femb_conf_of. intros H.
  destruct (subscript_key cfg "enabled_fembs") as [en|] eqn:He;
    [cbn [rbind] in H | discriminate H].
  destruct (subscript_idx en i) as [e|] eqn:Hi; [cbn [rbind] in H | discriminate H].
  unfold assign at 1 in H.
  destruct (accepts "enabled"%string e) eqn:Acc; [cbn [rbind] in H | discriminate H].
  destruct (subscript_key cfg "femb_configs") as [fcs|] eqn:Hf;
    [cbn [rbind] in H | discriminate H].
  destruct (subscript_idx fcs i) as [fc|] eqn:Hj; [cbn [rbind] in H | discriminate H].
  rbind_inv H. injection H as <-.
  exists en, fcs, fc. cbn [enabled].
  split; [first [exact He | reflexivity]|].
  split; [first [exact Hf | reflexivity]|].
  split; [first [exact Hi | reflexivity]|]. split; [exact Acc|].
  split; [first [exact Hj | reflexivity]|].
  intros name Hn. unfold tuning_fields in Hn. cbn [In] in Hn.
  repeat (destruct Hn as [<-|Hn];
          [apply copy_field_inv; assumption|]).
  contradiction.
Qed.

Lemma build_request_inv (accepts : string -> json -> bool) (cfg : json)
      (req : ConfigureWIB) :
  build_request accepts cfg = Ok req -> request_matches accepts cfg req.
Proof.
  unfold build_request. intros H.
  destruct (subscript_key cfg "cold") as [c|] eqn:Hc;
    [cbn [rbind] in H | discriminate H].
  unfold assign at 1 in H.
  destruct (accepts "cold"%string c) eqn:Acc; [cbn [rbind] in H | discriminate H].
  destruct (mapM (femb_conf_of accepts cfg) (seq 0 4)) as [fs|] eqn:Hm;
    [cbn [rbind] in H | discriminate H].
  injection H as <-.
  destruct (mapM_inv _ _ _ Hm) as [L N].
  unfold request_matches. cbn [cold fembs].
  split; [exact Hc|]. split; [exact Acc|]. split; [exact L|].
  destruct (femb_conf_of_inv accepts cfg 0 _ (N 0%nat 0%nat (expected_femb JNull JNull)
              ltac:(cbn; lia))) as (en & fcs & _ & Hen & Hfc & _).
  exists en, fcs. split; [exact Hen|]. split; [exact Hfc|].
  intros i Hi. cbv zeta. set (r := nth i fs (expected_femb JNull JNull)).
  assert (Hr : femb_conf_of accepts cfg i = Ok r).
  { specialize (N i 0%nat (expected_femb JNull JNull)).
    rewrite seq_nth in N by lia. apply N. cbn; lia. }
  destruct (femb_conf_of_inv accepts cfg i r Hr)
    as (en' & fcs' & fc & Hen' & Hfc' & A & B & C & D).
  rewrite Hen in Hen'. injection Hen' as <-.
  rewrite Hfc in Hfc'. injection Hfc' as <-.
  split; [exact A|]. split; [exact B|]. exists fc. split; [exact C | exact D].
Qed.


(** X10. Every ConfigureWIB command that [configure_wib] sends is
    complete and comes from the file: it has exactly four per-sub-unit
    records, its [cold] is the file's, record i has
    [enabled = enabled_fembs[i]] and each tuning field equal to the member
    of that name of [femb_configs[i]], and every value it carries passed
    the schema's type check.  A request with a missing or refused field
    is never sent. *)
Theorem configure_wib_sends_only_matching (accepts : string -> json -> bool)
        (json_load : list byte -> result json)
        (fs : string -> option (list byte)) (ok : bool)
        (w : FEMB0Diagnostics) (c : command) :
  In (EvSend c) (events_of (configure_wib accepts json_load fs ok w)) ->
  exists cfg req,
    load_config json_load fs (config w) = Ok cfg /\
    c = CmdConfigureWIB req /\
    request_matches accepts cfg req.
Proof.
  rewrite configure_wib_unfold.
  destruct (load_config json_load fs (config w)) as [cfg|e].
  - destruct (build_request accepts cfg) as [req|e] eqn:B.
    + intros [C|[C|[C|[C|[C|[]]]]]]; try discriminate C.
      injection C as <-. exists cfg, req. split; [reflexivity|].
      split; [reflexivity|]. now apply build_request_inv.
    + intros [C|[C|[]]]; discriminate C.
  - intros [C|[C|[]]]; discriminate C.
Qed.

Lemma configure_wib_sends_only_matching_witness :
  exists req,
    In (EvSend (CmdConfigureWIB req))
       (events_of (configure_wib example_accepts example_json_load fs_good true
                     window0)) /\
    request_matches example_accepts example_config req.
Proof.
  assert (B : exists req, build_request example_accepts example_config = Ok req).
  { eexists. reflexivity. }
  destruct B as [req B]. exists req.
  assert (I : In (EvSend (CmdConfigureWIB req))
                 (events_of (configure_wib example_accepts example_json_load
                               fs_good true window0))).
  { rewrite configure_wib_unfold.
    change (load_config example_json_load fs_good (config window0))
      with (Ok example_config).
    cbv beta iota. rewrite B. right. right. right. left. reflexivity. }
  split; [exact I|].
  destruct (configure_wib_sends_only_matching example_accepts example_json_load
              fs_good true window0 _ I) as (cfg & req' & L & E & M).
  change (load_config example_json_load fs_good (config window0))
    with (Ok example_config) in L.
  injection L as <-. injection E as <-. exact M.
Defined.

(** X11. Parsed files that are not configurations: a document that is
    not a JSON object ends the action with [TypeError], an object without
    ["cold"] with [KeyError], an empty ["enabled_fembs"] list (with
    ["cold"] accepted) with [IndexError]; in each case "Configuring FEMBs"
    was printed, nothing is sent and the window is unchanged. *)
Theorem configure_wib_not_a_configuration (accepts : string -> json -> bool)
        (json_load : list byte -> result json)
        (fs : string -> option (list byte)) (ok : bool)
        (w : FEMB0Diagnostics) (cfg : json) :
  load_config json_load fs (config w) = Ok cfg ->
  let stopped e :=
    configure_wib accepts json_load fs ok w =
    (w, [EvPrint [PStr "Loading config"]; EvPrint [PStr "Configuring FEMBs"]],
     Raise e) in
  ((forall m, cfg <> JObj m) -> stopped TypeError) /\
  (forall m, cfg = JObj m -> lookup "cold" m = None -> stopped KeyError) /\
  (forall m c, cfg = JObj m -> lookup "cold" m = Some c ->
     accepts "cold"%string c = true ->
     lookup "enabled_fembs" m = Some (JArr []) -> stopped IndexError).
Proof.
  intros L stopped. subst stopped. cbv beta.
  rewrite configure_wib_unfold, L. split; [|split].
  - intros Hn. assert (B : build_request accepts cfg = Raise TypeError).
    { unfold build_request. destruct cfg; try reflexivity. now elim (Hn members). }
    now rewrite B.
  - intros m -> Hc. unfold build_request. cbn [subscript_key]. now rewrite Hc.
  - intros m c -> Hc Ha He. unfold build_request. cbn [subscript_key].
    rewrite Hc. cbn [rbind]. unfold assign. rewrite Ha. cbn [rbind seq mapM].
    unfold femb_conf_of. cbn [subscript_key]. rewrite He. reflexivity.
Qed.

Lemma configure_wib_not_a_configuration_witness :
  load_config example_json_load2 fs_array (config window0) = Ok (JArr []) /\
  configure_wib example_accepts example_json_load2 fs_array true window0 =
  (window0,
   [EvPrint [PStr "Loading config"]; EvPrint [PStr "Configuring FEMBs"]],
   Raise TypeError).
Proof.
  assert (L : load_config example_json_load2 fs_array (config window0)
              = Ok (JArr [])) by reflexivity.
  split; [exact L|].
  apply (proj1 (configure_wib_not_a_configuration example_accepts
                  example_json_load2 fs_array true window0 (JArr []) L)).
  intros m C. discriminate C.
Defined.

(** ** The pulser button *)

Lemma toggle_pulser_run (w : FEMB0Diagnostics) :
  toggle_pulser w =
  if String.eqb (pulser_button w) "Enable Pulser"
  then (set_pulser_text "Disable Pulser" w,
        [EvPrint [PStr "Starting pulser"]; EvSend (CmdPulser true)], Ok tt)
  else (set_pulser_text "Enable Pulser" w,
        [EvPrint [PStr "Stopping pulser"]; EvSend (CmdPulser false)], Ok tt).
Proof.
  unfold toggle_pulser, print, send_command. rewrite bind_get.
  destruct (String.eqb (pulser_button w) "Enable Pulser");
    rewrite bind_modify, bind_emit; reflexivity.
Qed.

Lemma reachable_pulser_inv (accepts : string -> json -> bool)
      (json_load : list byte -> result json) (w : FEMB0Diagnostics) :
  reachable accepts json_load w -> pulser_inv w.
Proof.
  induction 1 as [path|w a Hw IH].
  - rewrite initial_window. left. reflexivity.
  - destruct a as [fs ok| |rep| |rep]; cbn [slot].
    + now apply configure_wib_preserves.
    + rewrite toggle_pulser_run.
      destruct (String.eqb (pulser_button w) "Enable Pulser");
        [right | left]; reflexivity.
    + destruct (acquire_data_same_controls rep w w (same_controls_refl w))
        as (_ & K & _). unfold pulser_inv. now rewrite K.
    + rewrite toggle_continuous_run.
      destruct (String.eqb (continuious_button w) "Continuous"); exact IH.
    + destruct (timer_active (timer w)); [|exact IH].
      destruct (acquire_data_same_controls rep w w (same_controls_refl w))
        as (_ & K & _). unfold pulser_inv. now rewrite K.
Qed.

(** X12. The pulser toggle: on every window that can be reached, a
    Pulser action returns normally, sends exactly one Pulser command and
    flips the label; labelled "Enable Pulser" it sends [start = true] and
    becomes "Disable Pulser", otherwise it sends [start = false] and
    becomes "Enable Pulser".  Two actions in a row send one command of
    each kind and leave the window exactly as it was. *)
Theorem toggle_pulser_alternates (accepts : string -> json -> bool)
        (json_load : list byte -> result json) (w : FEMB0Diagnostics) :
  reachable accepts json_load w ->
  let r1 := toggle_pulser w in
  let r2 := toggle_pulser (state_of r1) in
  outcome_of r1 = Ok tt /\ state_of r2 = w /\
  ((pulser_button w = "Enable Pulser"%string /\
    pulser_button (state_of r1) = "Disable Pulser"%string /\
    sent (events_of r1) = [CmdPulser true] /\
    sent (events_of r2) = [CmdPulser false]) \/
   (pulser_button w = "Disable Pulser"%string /\
    pulser_button (state_of r1) = "Enable Pulser"%string /\
    sent (events_of r1) = [CmdPulser false] /\
    sent (events_of r2) = [CmdPulser true])).
Proof.
  intros Hw r1 r2. subst r1 r2.
  destruct (reachable_pulser_inv accepts json_load w Hw) as [E|E].
  - rewrite (toggle_pulser_run w), E, String.eqb_refl.
    unfold state_of at 2 3 4. cbn [fst].
    rewrite toggle_pulser_run. cbn [pulser_button set_pulser_text].
    change ("Disable Pulser" =? "Enable Pulser")%string with false.
    unfold state_of, events_of, outcome_of. cbn [fst snd sent pulser_button set_pulser_text].
    split; [reflexivity|]. split; [|left; now repeat split].
    destruct w; cbn in *; now subst.
  - rewrite (toggle_pulser_run w), E.
    change ("Disable Pulser" =? "Enable Pulser")%string with false.
    unfold state_of at 2 3 4. cbn [fst].
    rewrite toggle_pulser_run. cbn [pulser_button set_pulser_text].
    rewrite String.eqb_refl.
    unfold state_of, events_of, outcome_of. cbn [fst snd sent pulser_button set_pulser_text].
    split; [reflexivity|]. split; [|right; now repeat split].
    destruct w; cbn in *; now subst.
Qed.

Lemma toggle_pulser_alternates_witness :
  reachable example_accepts example_json_load window0 /\
  state_of (toggle_pulser (state_of (toggle_pulser window0))) = window0.
Proof.
  assert (R : reachable example_accepts example_json_load window0)
    by apply reach_init.
  split; [exact R|].
  exact (proj1 (proj2 (toggle_pulser_alternates example_accepts
                         example_json_load window0 R))).
Defined.

(** ** Redrawing *)

Lemma for_views_plot_state (vs : list DataView) :
  state_of (for_views plot_data vs) = vs.
Proof.
  induction vs as [|v vs IH]; [reflexivity|].
  cbn [for_views]. pose proof (plot_data_state v) as Pv. unfold state_of in *.
  destruct (plot_data v) as [[v1 ev1] [[]|e]]; cbn [fst] in *; subst v1.
  - destruct (for_views plot_data vs) as [[vs1 ev2] r1]. cbn [fst] in *.
    now subst vs1.
  - reflexivity.
Qed.

Lemma plot_data_events (v : DataView) (e : event) :
  In e (events_of (plot_data v)) -> e = EvDraw v.
Proof.
  destruct v as [h|m|f]; cbn [plot_data]; unfold on_view.
  - unfold Hist2DView_plot_data. rewrite bind_get.
    unfold emit, events_of. cbn [fst snd]. now intros [<-|[]].
  - unfold MeanRMSView_plot_data. rewrite bind_get.
    destruct ((length (mean m) =? length (mr_chan m))%nat
              && (length (rms m) =? length (mr_chan m))%nat);
      unfold emit, lift, events_of; cbn [fst snd]; [now intros [<-|[]] | intros []].
  - unfold FFTView_plot_data. rewrite bind_get.
    unfold emit, events_of. cbn [fst snd]. now intros [<-|[]].
Qed.

Lemma for_views_plot_events (vs : list DataView) (e : event) :
  In e (events_of (for_views plot_data vs)) -> exists v, In v vs /\ e = EvDraw v.
Proof.
  induction vs as [|v vs IH]; [intros []|].
  cbn [for_views]. pose proof (plot_data_events v e) as Pv. unfold events_of in *.
  destruct (plot_data v) as [[v1 ev1] [[]|x]]; cbn [fst snd] in *.
  - destruct (for_views plot_data vs) as [[vs1 ev2] r1]. cbn [fst snd] in *.
    intros H. apply in_app_or in H as [H|H].
    + exists v. split; [now left | now apply Pv].
    + destruct (IH H) as (u & Hu & E). exists u. split; [now right | exact E].
  - intros H. exists v. split; [now left | now apply Pv].
Qed.

(** X13. Redrawing recomputes nothing: on any window, and whether it
    returns or raises, [plot] leaves the stored arrays, the controls and
    the data every view holds (channels, bin edges, counts, mean, rms,
    freq, fft) as they were; it sends no command, prints nothing, and
    what it hands to the canvas is the data a view of the window holds. *)
Theorem plot_changes_no_data (w : FEMB0Diagnostics) :
  state_of (plot w) = w /\
  sent (events_of (plot w)) = [] /\
  forall e, In e (events_of (plot w)) -> exists v, In v (views w) /\ e = EvDraw v.
Proof.
  split; [|split].
  - unfold plot, each_view. pose proof (for_views_plot_state (views w)) as F.
    unfold state_of in *.
    destruct (for_views plot_data (views w)) as [[vs ev] r]. cbn [fst] in *.
    subst vs. now destruct w.
  - exact (each_view_silent plot_data plot_data_silent w).
  - intros e. unfold plot, each_view.
    pose proof (for_views_plot_events (views w) e) as F. unfold events_of in *.
    now destruct (for_views plot_data (views w)) as [[vs ev] r].
Qed.

(** ** More on the mean and the deviation *)

Lemma rsum_nonneg (l : list R) :
  (forall u, In u l -> (0 <= u)%R) -> (0 <= rsum l)%R.
Proof.
  induction l as [|x l IH]; intros H; cbn [rsum fold_right]; [lra|].
  fold (rsum l). pose proof (H x (or_introl eq_refl)).
  pose proof (IH (fun u Hu => H u (or_intror Hu))). lra.
Qed.

Lemma rsum_zero_terms (l : list R) :
  (forall u, In u l -> (0 <= u)%R) -> rsum l = 0%R ->
  forall u, In u l -> u = 0%R.
Proof.
  induction l as [|x l IH]; intros H S u Hu; [contradiction|].
  cbn [rsum fold_right] in S. fold (rsum l) in S.
  pose proof (H x (or_introl eq_refl)) as Hx.
  pose proof (rsum_nonneg l (fun v Hv => H v (or_intror Hv))) as Hl.
  destruct Hu as [<-|Hu]; [lra|].
  apply IH; [intros v Hv; apply H; now right | lra | exact Hu].
Qed.

Lemma rsum_le_const (l : list R) (b : R) :
  (forall u, In u l -> (u <= b)%R) -> (rsum l <= INR (length l) * b)%R.
Proof.
  induction l as [|x l IH]; intros H.
  - cbn. lra.
  - cbn [rsum fold_right]. fold (rsum l). rewrite length_cons, S_INR.
    pose proof (H x (or_introl eq_refl)).
    pose proof (IH (fun u Hu => H u (or_intror Hu))). lra.
Qed.

Lemma population_std_zero_constant (x : list Z) :
  x <> [] -> population_std x = 0%R ->
  exists k, forallb (Z.eqb k) x = true.
Proof.
  intros Hne H. destruct x as [|k x']; [congruence|]. exists k.
  set (x := k :: x') in *. unfold population_std in H.
  set (mu := arithmetic_mean x) in *.
  set (sq := map (fun v => Rsqr (IZR v - mu)) x) in *.
  assert (Pos : forall u, In u sq -> (0 <= u)%R).
  { intros u Hu. apply in_map_iff in Hu as (v & <- & _). apply Rle_0_sqr. }
  assert (Hn : (0 < IZR (Z.of_nat (length x)))%R).
  { apply IZR_lt. unfold x. cbn [length]. lia. }
  assert (S0 : rsum sq = 0%R).
  { pose proof (rsum_nonneg sq Pos) as Hs.
    apply sqrt_eq_0 in H.
    - unfold Rdiv in H. apply Rmult_integral in H as [H|H]; [exact H|].
      pose proof (Rinv_0_lt_compat _ Hn). lra.
    - unfold Rdiv. apply Rmult_le_pos; [exact Hs|].
      apply Rlt_le, Rinv_0_lt_compat, Hn. }
  assert (Eq : forall v, In v x -> IZR v = mu).
  { intros v Hv.
    assert (Z0 : Rsqr (IZR v - mu) = 0%R).
    { apply (rsum_zero_terms sq Pos S0). unfold sq.
      apply in_map_iff. now exists v. }
    apply Rsqr_0_uniq in Z0. lra. }
  apply forallb_forall. intros v Hv. apply Z.eqb_eq, eq_IZR.
  rewrite (Eq v Hv). apply Eq. now left.
Qed.

(** X14. Mean/RMS view: for a (4,128,N) array with N >= 1, the [rms] of
    a channel is 0 exactly when all timesteps of that channel hold the
    same value. *)
Theorem MeanRMSView_rms_zero_iff_constant (N : nat) (ts : list (list Z))
        (smp : list (list (list Z))) (self : MeanRMSView) (c : nat) :
  (1 <= N)%nat ->
  has_shape3 4 128 N smp = true ->
  (c < 128)%nat ->
  nth c (rms (state_of (MeanRMSView_load_data ts smp self))) NaN = Fin 0%R <->
  exists k, forallb (Z.eqb k) (nth c (femb0 smp) []) = true.
Proof.
  intros HN Hs Hc.
  destruct (has_shape3_femb0 _ _ _ _ Hs) as (f0 & G & E & S2).
  destruct (has_shape2_spec _ _ _ S2) as [L R].
  rewrite (MeanRMSView_load_data_run ts smp f0 self G).
  unfold state_of, femb0. cbn [fst rms]. rewrite E.
  rewrite (nth_map_in np_std f0 c [] NaN) by lia.
  assert (Hl : length (nth c f0 []) = N) by (apply R, nth_In; lia).
  assert (Hne : nth c f0 [] <> [])
    by (intros Z0; rewrite Z0 in Hl; cbn in Hl; lia).
  rewrite np_std_population by exact Hne. split.
  - intros [= H]. now apply population_std_zero_constant.
  - intros [k Hk]. f_equal. now apply population_std_constant with (k := k).
Qed.

Lemma MeanRMSView_rms_zero_iff_constant_witness :
  (1 <= 3)%nat /\ has_shape3 4 128 3 samples_flat = true /\ (5 < 128)%nat /\
  nth 5 (rms (state_of (MeanRMSView_load_data [] samples_flat MeanRMSView_init)))
      NaN = Fin 0%R.
Proof.
  assert (HN : (1 <= 3)%nat) by lia.
  assert (S3 : has_shape3 4 128 3 samples_flat = true) by reflexivity.
  assert (Hc : (5 < 128)%nat) by lia.
  split; [exact HN | split; [exact S3 | split; [exact Hc|]]].
  apply (proj2 (MeanRMSView_rms_zero_iff_constant 3 [] samples_flat
                  MeanRMSView_init 5 HN S3 Hc)).
  exists 7%Z. reflexivity.
Defined.

Lemma zsum_bounds (lo hi : Z) (x : list Z) :
  (forall v, In v x -> (lo <= v <= hi)%Z) ->
  (lo * Z.of_nat (length x) <= zsum x <= hi * Z.of_nat (length x))%Z.
Proof.
  induction x as [|v x IH]; intros H; [cbn; lia|].
  cbn [zsum fold_right length]. fold (zsum x).
  pose proof (H v (or_introl eq_refl)).
  pose proof (IH (fun u Hu => H u (or_intror Hu))). lia.
Qed.

Lemma arithmetic_mean_bounds (lo hi : Z) (x : list Z) :
  x <> [] -> (forall v, In v x -> (lo <= v <= hi)%Z) ->
  (IZR lo <= arithmetic_mean x <= IZR hi)%R.
Proof.
  intros Hne H. unfold arithmetic_mean.
  pose proof (zsum_bounds lo hi x H) as [B1 B2].
  assert (Hn : (0 < IZR (Z.of_nat (length x)))%R).
  { apply IZR_lt. destruct x; [congruence | cbn [length]; lia]. }
  apply IZR_le in B1, B2. rewrite mult_IZR in B1, B2.
  split.
  - apply Rmult_le_reg_r with (IZR (Z.of_nat (length x))); [exact Hn|].
    unfold Rdiv. rewrite Rmult_assoc, Rinv_l by lra. lra.
  - apply Rmult_le_reg_r with (IZR (Z.of_nat (length x))); [exact Hn|].
    unfold Rdiv. rewrite Rmult_assoc, Rinv_l by lra. lra.
Qed.

Lemma population_std_bounds (lo hi : Z) (x : list Z) :
  x <> [] -> (forall v, In v x -> (lo <= v <= hi)%Z) ->
  (0 <= population_std x <= IZR (hi - lo))%R.
Proof.
  intros Hne H. split; [apply sqrt_pos|].
  pose proof (arithmetic_mean_bounds lo hi x Hne H) as [M1 M2].
  unfold population_std. set (mu := arithmetic_mean x) in *.
  set (D := IZR (hi - lo)).
  assert (HD : (0 <= D)%R).
  { unfold D. rewrite minus_IZR. lra. }
  assert (Hn : (0 < IZR (Z.of_nat (length x)))%R).
  { apply IZR_lt. destruct x; [congruence | cbn [length]; lia]. }
  rewrite <- (sqrt_square D HD). apply sqrt_le_1_alt.
  apply Rmult_le_reg_r with (IZR (Z.of_nat (length x))); [exact Hn|].
  unfold Rdiv. rewrite Rmult_assoc, Rinv_l by lra. rewrite Rmult_1_r.
  set (sq := map (fun v => Rsqr (IZR v - mu)) x).
  assert (B : (rsum sq <= INR (length sq) * (D * D))%R).
  { apply rsum_le_const. intros u Hu. unfold sq in Hu.
    apply in_map_iff in Hu as (v & <- & Hv).
    destruct (H v Hv) as [V1 V2]. apply IZR_le in V1, V2.
    unfold D. rewrite minus_IZR. unfold Rsqr. nra. }
  unfold sq in B at 2. rewrite length_map, INR_IZR_INZ in B. lra.
Qed.

(** X15. Mean/RMS view: for a (4,128,N) array with N >= 1 whose
    sub-unit 0 holds values in [lo, hi), every channel's [mean] lies in
    [lo, hi - 1] and its [rms] in [0, hi - 1 - lo]; for decoded 16-bit
    samples the mean is between 0 and 65535. *)
Theorem MeanRMSView_mean_rms_bounds (N : nat) (lo hi : Z) (ts : list (list Z))
        (smp : list (list (list Z))) (self : MeanRMSView) (c : nat) :
  (1 <= N)%nat ->
  has_shape3 4 128 N smp = true ->
  in_range lo hi (femb0 smp) = true ->
  (c < 128)%nat ->
  exists mu sigma,
    nth c (mean (state_of (MeanRMSView_load_data ts smp self))) NaN = Fin mu /\
    nth c (rms (state_of (MeanRMSView_load_data ts smp self))) NaN = Fin sigma /\
    (IZR lo <= mu <= IZR (hi - 1))%R /\
    (0 <= sigma <= IZR (hi - 1 - lo))%R.
Proof.
  intros HN Hs Hr Hc.
  destruct (femb0_row_length smp N c Hs Hc) as [I Hl].
  destruct (has_shape3_femb0 _ _ _ _ Hs) as (f0 & G & E & S2).
  destruct (has_shape2_spec _ _ _ S2) as [L R].
  rewrite (MeanRMSView_load_data_run ts smp f0 self G).
  unfold state_of. cbn [fst rms mean].
  unfold femb0 in *. rewrite E in *.
  rewrite (nth_map_in np_std f0 c [] NaN), (nth_map_in np_mean f0 c [] NaN) by lia.
  assert (Hne : nth c f0 [] <> [])
    by (intros Z0; rewrite Z0 in Hl; cbn in Hl; lia).
  rewrite np_std_population, np_mean_arithmetic by exact Hne.
  assert (B : forall v, In v (nth c f0 []) -> (lo <= v <= hi - 1)%Z).
  { intros v Hv. pose proof (in_range_spec lo hi f0 _ v Hr I Hv). lia. }
  do 2 eexists. split; [reflexivity|]. split; [reflexivity|]. split.
  - now apply arithmetic_mean_bounds.
  - now apply population_std_bounds.
Qed.

Lemma MeanRMSView_mean_rms_bounds_witness :
  (1 <= 3)%nat /\ has_shape3 4 128 3 samples_low = true /\
  in_range 0 65536 (femb0 samples_low) = true /\ (0 < 128)%nat /\
  exists mu,
    nth 0 (mean (state_of (MeanRMSView_load_data [] samples_low MeanRMSView_init)))
        NaN = Fin mu /\
    (0 <= mu <= 65535)%R.
Proof.
  assert (HN : (1 <= 3)%nat) by lia.
  assert (S3 : has_shape3 4 128 3 samples_low = true) by reflexivity.
  assert (IR : in_range 0 65536 (femb0 samples_low) = true) by reflexivity.
  assert (Hc : (0 < 128)%nat) by lia.
  split; [exact HN | split; [exact S3 | split; [exact IR | split; [exact Hc|]]]].
  destruct (MeanRMSView_mean_rms_bounds 3 0 65536 [] samples_low
              MeanRMSView_init 0 HN S3 IR Hc) as (mu & sigma & A & _ & B & _).
  exists mu. split; [exact A | exact B].
Defined.

(** ** The frequency axis for any number of timesteps *)

Lemma below_nyquist (N i : nat) :
  (2 * i < N)%nat ->
  (inject_Z (Z.of_nat i) * (1 / (inject_Z (Z.of_nat N) * sample_interval))
   < 1 / (2 * sample_interval))%Q.
Proof.
  intros H. unfold Qdiv at 1. rewrite Qmult_1_l.
  change (inject_Z (Z.of_nat i) / (inject_Z (Z.of_nat N) * sample_interval)
          < 1 / (2 * sample_interval))%Q.
  apply Qlt_shift_div_r.
  - apply Qmult_lt_0_compat; [unfold Qlt; cbn; lia | reflexivity].
  - assert (E : (1 / (2 * sample_interval) == 1562500)%Q) by reflexivity.
    rewrite E. unfold Qlt, Qmult, inject_Z, sample_interval.
    cbn [Qnum Qden]. lia.
Qed.

(** X16. Spectrum view, any N >= 1 (even or odd): after [load_data] the
    frequency axis has (N-1)//2 + 1 entries, which is N//2 for even N;
    it starts at 0, increases strictly and stays below 1562500 Hz, the
    Nyquist frequency of a 320 ns sample interval, so that the negative
    frequencies and, for even N, the Nyquist bin itself are dropped; the
    spectrum has one row per channel and one column per kept frequency. *)
Theorem FFTView_frequency_axis (N : nat) (ts : list (list Z))
        (smp : list (list (list Z))) (self : FFTView) :
  (1 <= N)%nat ->
  has_shape3 4 128 N smp = true ->
  FFTView_ok self ->
  let r := FFTView_load_data ts smp self in
  let fr := freq (state_of r) in
  length fr = ((N - 1) / 2 + 1)%nat /\
  (Nat.even N = true -> length fr = (N / 2)%nat) /\
  (nth 0 fr 1 == 0)%Q /\
  StronglySorted Qlt fr /\
  (forall x, In x fr -> (0 <= x)%Q /\ (x < 1562500)%Q) /\
  has_shape2 128 (length fr) (fft (state_of r)) = true.
Proof.
  intros HN Hs Hok r fr. subst fr r.
  rewrite (FFTView_load_data_run ts smp N self HN Hs Hok).
  unfold state_of. cbn [fst freq fft]. rewrite kept_freqs_length.
  split; [reflexivity|]. split; [intros He; now apply half_even|].
  split; [rewrite kept_freqs_nth by lia; apply Qmult_0_l|].
  split; [now apply kept_freqs_sorted|]. split.
  - intros x Hx. unfold kept_freqs in Hx.
    apply in_map_iff in Hx as (k & <- & Hk). apply in_seq in Hk. split.
    + apply Qmult_le_0_compat.
      * unfold Qle. cbn. lia.
      * apply Qlt_le_weak. now apply val_pos.
    + apply Qlt_le_trans with (1 / (2 * sample_interval))%Q.
      * apply below_nyquist. pose proof (half_facts (N - 1)). lia.
      * assert (E : (1 / (2 * sample_interval) == 1562500)%Q) by reflexivity.
        rewrite E. apply Qle_refl.
  - destruct (has_shape3_femb0 _ _ _ _ Hs) as (f0 & _ & E & S2).
    destruct (has_shape2_spec _ _ _ S2) as [L _].
    unfold femb0, has_shape2. rewrite E, length_map, L. cbn [Nat.eqb andb].
    apply forallb_forall. intros row Hr.
    apply in_map_iff in Hr as (x & <- & _).
    rewrite channel_power_length. apply Nat.eqb_refl.
Qed.

Lemma FFTView_frequency_axis_witness :
  (1 <= 4)%nat /\ has_shape3 4 128 4 samples_ramp = true /\
  FFTView_ok FFTView_init /\
  length (freq (state_of (FFTView_load_data [] samples_ramp FFTView_init)))
  = 2%nat.
Proof.
  assert (HN : (1 <= 4)%nat) by lia.
  assert (S3 : has_shape3 4 128 4 samples_ramp = true) by reflexivity.
  assert (OK : FFTView_ok FFTView_init) by reflexivity.
  split; [exact HN | split; [exact S3 | split; [exact OK|]]].
  exact (proj1 (FFTView_frequency_axis 4 [] samples_ramp FFTView_init HN S3 OK)).
Defined.

(** ** Saving and restoring the state of a view *)

Example get_state_example :
  get_state example_names_of example_view_dict2 =
  Ok [("times"%string, JInt 1); ("data"%string, JInt 2)].
Proof. reflexivity. Qed.

Example set_state_example :
  set_state [("data"%string, JInt 7); ("unknown"%string, JInt 8)]
            example_view_dict =
  {| save_props := JArr [];
     other_attrs := [("last_lims", JNull); ("times", JNull);
                     ("data", JInt 7)]%string |}.
Proof. reflexivity. Qed.

Section DataViewStateProperties.

Variable V : Type.

Lemma dict_set_keys (k : string) (v : V) (d : list (string * V)) :
  dict_get k d <> None -> map fst (dict_set k v d) = map fst d.
Proof.
  induction d as [|[k' v'] d IH]; intros H; [now elim H|].
  cbn [dict_get dict_set] in *. destruct (String.eqb_spec k k') as [->|Hne].
  - reflexivity.
  - cbn [map fst]. now rewrite IH.
Qed.

Lemma dict_set_same (k : string) (v : V) (d : list (string * V)) :
  dict_get k d = Some v -> dict_set k v d = d.
Proof.
  induction d as [|[k' v'] d IH]; intros H; [discriminate|].
  cbn [dict_get dict_set] in *. destruct (String.eqb_spec k k') as [->|Hne].
  - now injection H as ->.
  - now rewrite IH.
Qed.

Lemma dict_get_set (k k' : string) (v : V) (d : list (string * V)) :
  dict_get k' (dict_set k v d) = if String.eqb k' k then Some v else dict_get k' d.
Proof.
  induction d as [|[k0 v0] d IH].
  - cbn [dict_set dict_get]. now destruct (String.eqb k' k).
  - cbn [dict_set dict_get]. destruct (String.eqb_spec k k0) as [->|Hne].
    + cbn [dict_get]. now destruct (String.eqb k' k0).
    + cbn [dict_get]. rewrite IH.
      destruct (String.eqb_spec k' k0) as [->|Hne'].
      * destruct (String.eqb_spec k0 k) as [->|]; [now elim Hne | reflexivity].
      * reflexivity.
Qed.

Lemma dict_set_entries (k : string) (v : V) (d : list (string * V))
      (P : string * V -> Prop) :
  P (k, v) -> Forall P d -> Forall P (dict_set k v d).
Proof.
  intros Hk. induction d as [|[k' v'] d IH]; intros F.
  - cbn. now constructor.
  - apply Forall_cons_iff in F as [F1 F2]. cbn [dict_set].
    destruct (String.eqb k k'); constructor; auto.
Qed.

Lemma setattr_same (self : view_dict V) (prop : string) (v : V) :
  getattr self prop = Some v -> setattr self prop v = self.
Proof.
  unfold getattr, setattr. destruct (String.eqb prop "save_props").
  - intros [= <-]. now destruct self.
  - intros H. rewrite (dict_set_same _ _ _ H). now destruct self.
Qed.

Lemma setattr_names (self : view_dict V) (prop : string) (v : V) :
  has_attr self prop = true ->
  attr_names (setattr self prop v) = attr_names self.
Proof.
  unfold has_attr, setattr, attr_names.
  destruct (String.eqb prop "save_props"); [reflexivity|].
  cbn [orb other_attrs]. intros H. f_equal. apply dict_set_keys.
  now destruct (dict_get prop (other_attrs self)).
Qed.

Lemma getattr_setattr (self : view_dict V) (prop p : string) (v : V) :
  has_attr self prop = true ->
  getattr (setattr self prop v) p =
  if String.eqb p prop then Some v else getattr self p.
Proof.
  unfold has_attr, setattr, getattr. intros H.
  destruct (String.eqb_spec prop "save_props") as [->|Hne].
  - cbn [save_props other_attrs].
    destruct (String.eqb_spec p "save_props") as [->|Hp]; [reflexivity|].
    reflexivity.
  - cbn [save_props other_attrs].
    destruct (String.eqb_spec p "save_props") as [->|Hp].
    + destruct (String.eqb_spec "save_props" prop) as [E|]; [now elim Hne | reflexivity].
    + apply dict_get_set.
Qed.

Lemma has_attr_setattr (self : view_dict V) (prop p : string) (v : V) :
  has_attr self prop = true ->
  has_attr (setattr self prop v) p = has_attr self p.
Proof.
  unfold has_attr, setattr. intros H.
  destruct (String.eqb p "save_props"); [reflexivity|]. cbn [orb].
  destruct (String.eqb prop "save_props"); [reflexivity|].
  cbn [orb other_attrs] in *. rewrite dict_get_set.
  destruct (String.eqb_spec p prop) as [->|]; [|reflexivity].
  now destruct (dict_get prop (other_attrs self)).
Qed.

(** X18. [set_state] never creates or removes an attribute: whatever
    the state dict, the names bound in the view's [__dict__] are the same
    afterwards, and keys of the state that are no attribute are ignored. *)
Theorem set_state_keeps_names (state : list (string * V)) (self : view_dict V) :
  attr_names (set_state state self) = attr_names self /\
  (forallb (fun item => negb (has_attr self (fst item))) state = true ->
   set_state state self = self).
Proof.
  split.
  - revert self. induction state as [|[p v] st IH]; intros self; [reflexivity|].
    cbn [set_state fold_left fst snd]. fold (set_state st).
    destruct (has_attr self p) eqn:H.
    + change (fold_left _ st (setattr self p v)) with (set_state st (setattr self p v)).
      rewrite IH. now apply setattr_names.
    + apply IH.
  - revert self. induction state as [|[p v] st IH]; intros self H; [reflexivity|].
    cbn [forallb fst] in H. apply andb_prop in H as [H1 H2].
    cbn [set_state fold_left fst snd].
    apply negb_true_iff in H1. rewrite H1. now apply IH.
Qed.

Lemma get_state_entries (names_of : V -> result (list string))
      (self : view_dict V) (st : list (string * V)) :
  get_state names_of self = Ok st ->
  Forall (fun item => getattr self (fst item) = Some (snd item)) st.
Proof.
  unfold get_state. destruct (names_of (save_props self)) as [props|e];
    [|discriminate].
  cbn [rbind]. intros [= <-].
  assert (G : forall acc,
            Forall (fun item => getattr self (fst item) = Some (snd item)) acc ->
            Forall (fun item => getattr self (fst item) = Some (snd item))
              (fold_left
                 (fun acc prop =>
                    if has_attr self prop
                    then match getattr self prop with
                         | Some v => dict_set prop v acc
                         | None => acc
                         end
                    else acc) props acc)).
  { induction props as [|p props IH]; intros acc F; [exact F|].
    cbn [fold_left]. apply IH.
    destruct (has_attr self p); [|exact F].
    destruct (getattr self p) as [v|] eqn:E; [|exact F].
    now apply dict_set_entries. }
  apply G. constructor.
Qed.

(** X19. Round trip: restoring the state a view has just saved changes
    nothing, [set_state(get_state())] leaves every attribute as it was. *)
Theorem set_state_get_state (names_of : V -> result (list string))
        (self : view_dict V) (st : list (string * V)) :
  get_state names_of self = Ok st -> set_state st self = self.
Proof.
  intros H. pose proof (get_state_entries names_of self st H) as F. clear H.
  induction st as [|[p v] st IH]; [reflexivity|].
  apply Forall_cons_iff in F as [F1 F2]. cbn [fst snd] in F1.
  cbn [set_state fold_left fst snd].
  rewrite (setattr_same self p v F1).
  destruct (has_attr self p); now apply IH.
Qed.

(** X20. What [set_state] assigns can be read back: for a state dict
    (distinct keys), every item whose key is an attribute of the view is
    the attribute's value afterwards, and every attribute not named in
    the state keeps its value. *)
Theorem getattr_set_state (state : list (string * V)) (self : view_dict V) :
  NoDup (map fst state) ->
  (forall p v, In (p, v) state -> has_attr self p = true ->
     getattr (set_state state self) p = Some v) /\
  (forall p, ~ In p (map fst state) ->
     getattr (set_state state self) p = getattr self p).
Proof.
  intros ND.
  assert (Keep : forall (st : list (string * V)) (s : view_dict V) p,
            ~ In p (map fst st) ->
            getattr (set_state st s) p = getattr s p).
  { induction st as [|[q u] st IH]; intros s p Hp; [reflexivity|].
    cbn [map fst In] in Hp. cbn [set_state fold_left fst snd].
    destruct (has_attr s q) eqn:Hq.
    - change (fold_left _ st (setattr s q u)) with (set_state st (setattr s q u)).
      rewrite IH by tauto. rewrite (getattr_setattr s q p u Hq).
      destruct (String.eqb_spec p q) as [->|]; [tauto | reflexivity].
    - apply IH. tauto. }
  split; [|intros p; apply Keep].
  revert self. induction state as [|[q u] st IH]; intros self p v Hin Hp;
    [contradiction|].
  cbn [map fst] in ND. apply NoDup_cons_iff in ND as [Nq ND].
  cbn [set_state fold_left fst snd]. destruct Hin as [[= -> ->]|Hin].
  - rewrite Hp.
    change (fold_left _ st (setattr self p v)) with (set_state st (setattr self p v)).
    rewrite Keep by exact Nq. rewrite (getattr_setattr self p p v Hp).
    now rewrite String.eqb_refl.
  - destruct (has_attr self q) eqn:Hq.
    + change (fold_left _ st (setattr self q u)) with (set_state st (setattr self q u)).
      apply IH; [exact ND | exact Hin |].
      now rewrite has_attr_setattr.
    + now apply IH.
Qed.

End DataViewStateProperties.

Lemma set_state_get_state_witness :
  get_state example_names_of example_view_dict2 =
    Ok [("times"%string, JInt 1); ("data"%string, JInt 2)] /\
  set_state [("times"%string, JInt 1); ("data"%string, JInt 2)] example_view_dict2
  = example_view_dict2.
Proof.
  assert (H : get_state example_names_of example_view_dict2 =
              Ok [("times"%string, JInt 1); ("data"%string, JInt 2)])
    by reflexivity.
  split; [exact H|].
  exact (set_state_get_state json example_names_of example_view_dict2 _ H).
Defined.

Lemma getattr_set_state_witness :
  NoDup (map fst [("data"%string, JInt 7); ("unknown"%string, JInt 8)]) /\
  getattr (set_state [("data"%string, JInt 7); ("unknown"%string, JInt 8)]
                     example_view_dict) "data" = Some (JInt 7) /\
  getattr (set_state [("data"%string, JInt 7); ("unknown"%string, JInt 8)]
                     example_view_dict) "times" = Some JNull.
Proof.
  assert (ND : NoDup (map fst [("data"%string, JInt 7); ("unknown"%string, JInt 8)])).
  { cbn [map fst]. constructor.
    - intros [C|[]]. discriminate C.
    - constructor; [intros [] | constructor]. }
  split; [exact ND|].
  destruct (getattr_set_state json _ example_view_dict ND) as [A B]. split.
  - apply A; [now left | reflexivity].
  - rewrite B; [reflexivity|]. cbn [map fst].
    intros [C|[C|[]]]; discriminate C.
Defined.

(** ** What the two toggles leave alone *)

(** X21. The toggles touch only their own controls, on any window:
    [toggle_continuous] changes nothing but the label of the Continuous
    button and the timer and sends no command; [toggle_pulser] changes
    nothing but the label of the pulser button and sends exactly one
    command.  Neither touches the views or the stored arrays. *)
Theorem toggles_frame (w : FEMB0Diagnostics) :
  (let w' := state_of (toggle_continuous w) in
   config w' = config w /\ views w' = views w /\
   pulser_button w' = pulser_button w /\
   samples w' = samples w /\ timestamps w' = timestamps w /\
   sent (events_of (toggle_continuous w)) = [] /\
   outcome_of (toggle_continuous w) = Ok tt) /\
  (let w' := state_of (toggle_pulser w) in
   config w' = config w /\ views w' = views w /\
   continuious_button w' = continuious_button w /\ timer w' = timer w /\
   samples w' = samples w /\ timestamps w' = timestamps w /\
   length (sent (events_of (toggle_pulser w))) = 1%nat /\
   outcome_of (toggle_pulser w) = Ok tt).
Proof.
  split.
  - rewrite toggle_continuous_run.
    destruct (String.eqb (continuious_button w) "Continuous"); repeat split.
  - rewrite toggle_pulser_run.
    destruct (String.eqb (pulser_button w) "Enable Pulser"); repeat split.
Qed.

(** ** What the views look at *)

(** X22. Only sub-unit 0 is analysed and the timestamps are ignored: two
    calls of [load_data] whose sample arrays agree on [samples[0]] (or
    both lack it) leave a view in the same state with the same outcome,
    whatever the other sub-units and the timestamps hold. *)
Theorem load_data_only_subunit_0 (ts ts' : list (list Z))
        (smp smp' : list (list (list Z))) (v : DataView) :
  getitem smp 0 = getitem smp' 0 ->
  state_of (load_data ts smp v) = state_of (load_data ts' smp' v) /\
  outcome_of (load_data ts smp v) = outcome_of (load_data ts' smp' v).
Proof.
  intros H. destruct v as [h|m|f]; cbn [load_data]; unfold on_view.
  - unfold Hist2DView_load_data. rewrite H. now split.
  - unfold MeanRMSView_load_data. rewrite H. now split.
  - unfold FFTView_load_data, print. rewrite !bind_emit, H.
    unfold state_of, outcome_of. cbn [fst snd]. now split.
Qed.

Lemma load_data_only_subunit_0_witness :
  getitem samples_low 0 = getitem (femb0 samples_low :: femb0 samples_high :: []) 0 /\
  state_of (load_data [] samples_low (VMeanRMS MeanRMSView_init)) =
  state_of (load_data [[1; 2; 3]%Z]
              (femb0 samples_low :: femb0 samples_high :: [])
              (VMeanRMS MeanRMSView_init)).
Proof.
  assert (H : getitem samples_low 0
              = getitem (femb0 samples_low :: femb0 samples_high :: []) 0)
    by reflexivity.
  split; [exact H|].
  exact (proj1 (load_data_only_subunit_0 [] [[1; 2; 3]%Z] samples_low _
                  (VMeanRMS MeanRMSView_init) H)).
Defined.

(** ** A sample payload that cannot be decoded *)

(** X23. When the sample payload does not have the length the reported
    sample count asks for, [acquire_data] raises [ValueError] with the
    whole window exactly as it was: neither stored array is replaced and
    no view is touched, whatever the timestamp payload holds. *)
Theorem acquire_data_bad_samples (rep : DeframedDaqSpy) (w : FEMB0Diagnostics) :
  length (deframed_samples rep) <> (2 * (4 * 128 * num_samples rep))%nat ->
  acquire_data rep w = (w, acquire_prologue rep, Raise ValueError).
Proof.
  intros H. rewrite acquire_data_unfold. cbv zeta.
  rewrite (decode_length_mismatch 2 (4 * 128 * num_samples rep)); try lia.
  - rewrite bind_lift_raise. unfold state_of, events_of, outcome_of.
    cbn [fst snd]. now rewrite app_nil_r.
  - intros a Ha. now apply reshape3_mismatch.
Qed.

Lemma acquire_data_bad_samples_witness :
  length (deframed_samples short_reply)
  <> (2 * (4 * 128 * num_samples short_reply))%nat /\
  state_of (acquire_data short_reply window0) = window0.
Proof.
  assert (H : length (deframed_samples short_reply)
              <> (2 * (4 * 128 * num_samples short_reply))%nat)
    by (vm_compute; lia).
  split; [exact H|].
  now rewrite (acquire_data_bad_samples short_reply window0 H).
Defined.
